(** * Trading engine core: positions, orders, event bus and risk rules

    A shallow embedding of the Python engine under [src/python/engine]:
    [data_structures.py], [event_processor.py], [order_manager.py],
    [position_manager.py] and [risk_manager.py].

    Conventions of the embedding.
    - A Python [float] is an exact rational ([Q]); comparisons are the
      boolean ones of [PyFloat] and [==] is rational equality.  Rounding,
      infinities and NaN are outside the model; the concrete inputs used
      below are small decimals on which binary64 arithmetic takes the same
      branches and prints the same results.
    - A Python [int] is a [Z]; a [datetime] is an abstract tick count; every
      reading of [time.time()] or [datetime.utcnow()] is an explicit argument
      [now] of the operation that performs it.
    - A [dict] is a [gmap], a [set] a [gset]; objects mutated in place are
      written back into the table that holds them.  The [Order] stored by the
      order manager is also the object carried by its ORDER_UPDATE events: a
      handler of another manager that assigns to it writes into the entry of
      the table ([risk_handles_stored_order]).
    - [await event_processor.publish(e)] made by a manager is returned in the
      list of published events of the operation. *)

From Stdlib Require Import QArith Qabs Qminmax Lqa ZArith.
From stdpp Require Import gmap strings list fin_maps.

(** ** Python numbers *)

Module PyFloat.
Definition eqb (x y : Q) : bool := Qeq_bool x y.
Definition leb (x y : Q) : bool := Qle_bool x y.
Definition ltb (x y : Q) : bool := negb (Qle_bool y x).
Definition gtb (x y : Q) : bool := ltb y x.
Definition geb (x y : Q) : bool := leb y x.
Definition neqb (x y : Q) : bool := negb (eqb x y).
End PyFloat.

Definition datetime : Type := Z.

(** ** data_structures.py: enumerations *)

Inductive OrderType :=
  MARKET | LIMIT | STOP | STOP_LIMIT | TRAILING_STOP | ICEBERG | TWAP | VWAP.

Inductive OrderSide := BUY | SELL.

Inductive OrderStatus :=
  | PENDING_NEW | NEW | PARTIALLY_FILLED | FILLED
  | PENDING_CANCEL | CANCELLED | REJECTED | EXPIRED.

Inductive TimeInForce := GTC | IOC | FOK | GTD.

Inductive EventType :=
  | MARKET_DATA | ORDER_UPDATE | TRADE_UPDATE | POSITION_UPDATE
  | STRATEGY_SIGNAL | RISK_CHECK | SYSTEM_EVENT.

#[global] Instance OrderSide_eq_dec : EqDecision OrderSide.
Proof. solve_decision. Defined.

#[global] Instance OrderStatus_eq_dec : EqDecision OrderStatus.
Proof. solve_decision. Defined.

#[global] Instance EventType_eq_dec : EqDecision EventType.
Proof. solve_decision. Defined.

Definition EventType_to_nat (ty : EventType) : nat :=
  match ty with
  | MARKET_DATA => 1 | ORDER_UPDATE => 2 | TRADE_UPDATE => 3
  | POSITION_UPDATE => 4 | STRATEGY_SIGNAL => 5 | RISK_CHECK => 6
  | SYSTEM_EVENT => 7
  end.

Definition EventType_of_nat (n : nat) : option EventType :=
  match n with
  | 1 => Some MARKET_DATA | 2 => Some ORDER_UPDATE | 3 => Some TRADE_UPDATE
  | 4 => Some POSITION_UPDATE | 5 => Some STRATEGY_SIGNAL
  | 6 => Some RISK_CHECK | 7 => Some SYSTEM_EVENT
  | _ => None
  end.

#[global] Instance EventType_countable : Countable EventType.
Proof.
  apply (inj_countable EventType_to_nat EventType_of_nat).
  intros []; reflexivity.
Defined.

(** ** data_structures.py: Order *)

Module Order.

Record t := mk {
  order_id : string;
  instrument_id : string;
  order_type : OrderType;
  side : OrderSide;
  quantity : Q;
  price : option Q;
  stop_price : option Q;
  time_in_force : TimeInForce;
  exchange : string;
  created_at : datetime;
  updated_at : datetime;
  status : OrderStatus;
  filled_quantity : Q;
  average_fill_price : option Q;
  client_order_id : option string;
  parent_order_id : option string;
  strategy_id : option string;
  tags : gmap string string;
  execution_instructions : gmap string string;
  expiry_date : option datetime
}.

(** Attribute assignments [o.f = v]. *)
Definition set_quantity (v : Q) (o : t) : t :=
  mk (order_id o) (instrument_id o) (order_type o) (side o) v (price o)
     (stop_price o) (time_in_force o) (exchange o) (created_at o)
     (updated_at o) (status o) (filled_quantity o) (average_fill_price o)
     (client_order_id o) (parent_order_id o) (strategy_id o) (tags o)
     (execution_instructions o) (expiry_date o).

Definition set_price (v : option Q) (o : t) : t :=
  mk (order_id o) (instrument_id o) (order_type o) (side o) (quantity o) v
     (stop_price o) (time_in_force o) (exchange o) (created_at o)
     (updated_at o) (status o) (filled_quantity o) (average_fill_price o)
     (client_order_id o) (parent_order_id o) (strategy_id o) (tags o)
     (execution_instructions o) (expiry_date o).

Definition set_created_at (v : datetime) (o : t) : t :=
  mk (order_id o) (instrument_id o) (order_type o) (side o) (quantity o)
     (price o) (stop_price o) (time_in_force o) (exchange o) v
     (updated_at o) (status o) (filled_quantity o) (average_fill_price o)
     (client_order_id o) (parent_order_id o) (strategy_id o) (tags o)
     (execution_instructions o) (expiry_date o).

Definition set_updated_at (v : datetime) (o : t) : t :=
  mk (order_id o) (instrument_id o) (order_type o) (side o) (quantity o)
     (price o) (stop_price o) (time_in_force o) (exchange o) (created_at o)
     v (status o) (filled_quantity o) (average_fill_price o)
     (client_order_id o) (parent_order_id o) (strategy_id o) (tags o)
     (execution_instructions o) (expiry_date o).

Definition set_status (v : OrderStatus) (o : t) : t :=
  mk (order_id o) (instrument_id o) (order_type o) (side o) (quantity o)
     (price o) (stop_price o) (time_in_force o) (exchange o) (created_at o)
     (updated_at o) v (filled_quantity o) (average_fill_price o)
     (client_order_id o) (parent_order_id o) (strategy_id o) (tags o)
     (execution_instructions o) (expiry_date o).

Definition set_filled_quantity (v : Q) (o : t) : t :=
  mk (order_id o) (instrument_id o) (order_type o) (side o) (quantity o)
     (price o) (stop_price o) (time_in_force o) (exchange o) (created_at o)
     (updated_at o) (status o) v (average_fill_price o)
     (client_order_id o) (parent_order_id o) (strategy_id o) (tags o)
     (execution_instructions o) (expiry_date o).

Definition set_average_fill_price (v : option Q) (o : t) : t :=
  mk (order_id o) (instrument_id o) (order_type o) (side o) (quantity o)
     (price o) (stop_price o) (time_in_force o) (exchange o) (created_at o)
     (updated_at o) (status o) (filled_quantity o) v
     (client_order_id o) (parent_order_id o) (strategy_id o) (tags o)
     (execution_instructions o) (expiry_date o).


Definition is_active (self : t) : bool :=
  match status self with
  | PENDING_NEW | NEW | PARTIALLY_FILLED => true
  | _ => false
  end.

(** [Order.from_dict(order.to_dict())]: a fresh object carrying the same
    field values. *)
Definition copy (self : t) : t := self.

End Order.

(** ** data_structures.py: Trade *)

Module Trade.

Record t := mk {
  trade_id : string;
  order_id : string;
  instrument_id : string;
  quantity : Q;
  price : Q;
  side : OrderSide;
  timestamp : datetime;
  exchange : string;
  commission : Q;
  commission_currency : string
}.

End Trade.

(** ** data_structures.py: Position *)

Module Position.

Record t := mk {
  instrument_id : string;
  quantity : Q;
  average_entry_price : Q;
  current_price : option Q;
  realized_pnl : Q;
  unrealized_pnl : Q;
  position_value : Q;
  timestamp : datetime;
  open_orders : list string;
  strategy_allocations : gmap string Q;
  exchange : option string
}.

(** [Position(instrument_id=...)] with the dataclass defaults. *)
Definition new (instrument_id : string) (now : datetime) : t :=
  mk instrument_id 0 0 None 0 0 0 now [] ∅ None.

Definition set_quantity (v : Q) (p : t) : t :=
  mk (instrument_id p) v (average_entry_price p) (current_price p)
     (realized_pnl p) (unrealized_pnl p) (position_value p) (timestamp p)
     (open_orders p) (strategy_allocations p) (exchange p).

Definition set_average_entry_price (v : Q) (p : t) : t :=
  mk (instrument_id p) (quantity p) v (current_price p)
     (realized_pnl p) (unrealized_pnl p) (position_value p) (timestamp p)
     (open_orders p) (strategy_allocations p) (exchange p).

Definition set_current_price (v : option Q) (p : t) : t :=
  mk (instrument_id p) (quantity p) (average_entry_price p) v
     (realized_pnl p) (unrealized_pnl p) (position_value p) (timestamp p)
     (open_orders p) (strategy_allocations p) (exchange p).

Definition set_realized_pnl (v : Q) (p : t) : t :=
  mk (instrument_id p) (quantity p) (average_entry_price p)
     (current_price p) v (unrealized_pnl p) (position_value p)
     (timestamp p) (open_orders p) (strategy_allocations p) (exchange p).

Definition set_unrealized_pnl (v : Q) (p : t) : t :=
  mk (instrument_id p) (quantity p) (average_entry_price p)
     (current_price p) (realized_pnl p) v (position_value p)
     (timestamp p) (open_orders p) (strategy_allocations p) (exchange p).

Definition set_position_value (v : Q) (p : t) : t :=
  mk (instrument_id p) (quantity p) (average_entry_price p)
     (current_price p) (realized_pnl p) (unrealized_pnl p) v
     (timestamp p) (open_orders p) (strategy_allocations p) (exchange p).

Definition set_timestamp (v : datetime) (p : t) : t :=
  mk (instrument_id p) (quantity p) (average_entry_price p)
     (current_price p) (realized_pnl p) (unrealized_pnl p)
     (position_value p) v (open_orders p) (strategy_allocations p)
     (exchange p).

Definition update_price (self : t) (new_price : Q) : t :=
  if PyFloat.eqb (quantity self) 0 then
    let self := set_unrealized_pnl 0 self in
    let self := set_position_value 0 self in
    set_current_price (Some new_price) self
  else
    let self := set_current_price (Some new_price) self in
    let self := set_position_value (quantity self * new_price)%Q self in
    if PyFloat.gtb (quantity self) 0 then
      set_unrealized_pnl
        (quantity self * (new_price - average_entry_price self))%Q self
    else
      set_unrealized_pnl
        (quantity self * (average_entry_price self - new_price))%Q self.

Definition apply_trade (self : t) (trade : Trade.t) : t :=
  let old_quantity := quantity self in
  let old_cost_basis :=
    if PyFloat.neqb old_quantity 0
    then (Qabs old_quantity * average_entry_price self)%Q else 0%Q in
  let trade_quantity :=
    match Trade.side trade with
    | BUY => Trade.quantity trade
    | SELL => (- Trade.quantity trade)%Q
    end in
  let new_quantity := (old_quantity + trade_quantity)%Q in
  (* the statements after the realized P&L block *)
  let update_average_and_quantity (self : t) : t :=
    let self :=
      if PyFloat.neqb new_quantity 0 then
        if PyFloat.eqb old_quantity 0
           || (PyFloat.gtb old_quantity 0 && PyFloat.gtb new_quantity 0)
           || (PyFloat.ltb old_quantity 0 && PyFloat.ltb new_quantity 0)
        then
          let new_cost_basis :=
            (old_cost_basis + Qabs trade_quantity * Trade.price trade)%Q in
          set_average_entry_price (new_cost_basis / Qabs new_quantity)%Q self
        else self
      else
        (* position closed exactly *)
        set_average_entry_price 0 self in
    let self := set_quantity new_quantity self in
    update_price self (Trade.price trade) in
  if (PyFloat.gtb old_quantity 0 && PyFloat.ltb trade_quantity 0)
     || (PyFloat.ltb old_quantity 0 && PyFloat.gtb trade_quantity 0)
  then
    if PyFloat.leb (Qabs trade_quantity) (Qabs old_quantity) then
      (* partial or full closure *)
      let closing_quantity :=
        Qmin (Qabs trade_quantity) (Qabs old_quantity) in
      let self :=
        if PyFloat.gtb old_quantity 0 then
          set_realized_pnl
            (realized_pnl self
             + closing_quantity
               * (Trade.price trade - average_entry_price self))%Q
            self
        else
          set_realized_pnl
            (realized_pnl self
             + closing_quantity
               * (average_entry_price self - Trade.price trade))%Q
            self in
      update_average_and_quantity self
    else
      (* the position crosses zero: realize the entire old position *)
      let self :=
        if PyFloat.gtb old_quantity 0 then
          set_realized_pnl
            (realized_pnl self
             + old_quantity
               * (Trade.price trade - average_entry_price self))%Q
            self
        else
          set_realized_pnl
            (realized_pnl self
             + Qabs old_quantity
               * (average_entry_price self - Trade.price trade))%Q
            self in
      let new_position_quantity :=
        (Qabs trade_quantity - Qabs old_quantity)%Q in
      let new_position_quantity :=
        (new_position_quantity
         * (if PyFloat.gtb trade_quantity 0 then 1 else -1))%Q in
      let self := set_average_entry_price (Trade.price trade) self in
      let self := set_quantity new_position_quantity self in
      update_price self (Trade.price trade)
  else
    update_average_and_quantity self.

Definition set_strategy_allocations (v : gmap string Q) (p : t) : t :=
  mk (instrument_id p) (quantity p) (average_entry_price p)
     (current_price p) (realized_pnl p) (unrealized_pnl p)
     (position_value p) (timestamp p) (open_orders p) v (exchange p).

End Position.

(** ** data_structures.py: MarketData and OrderBook *)

Inductive MarketDataType := QUOTE | TRADE | ORDERBOOK | BAR | INSTRUMENT_INFO.

(** One level of a book: the dictionary [{"price": ..., "size": ...}]. *)
Module Level.

Record t := mk {
  price : Q;
  size : Q
}.

End Level.

Module MarketData.

(** The [data] dictionary, split by the type of its values: the numeric
    fields ([bid], [ask], [price], [close], ...) and the lists of levels
    ([bids], [asks]).  Values of other types (the strings [side] and
    [trade_id]) play no part in the engine. *)
Record payload := mk_payload {
  numbers : gmap string Q;
  books : gmap string (list Level.t)
}.

Record t := mk {
  instrument_id : string;
  timestamp : datetime;
  data_type : MarketDataType;
  exchange : string;
  data : payload;
  source : string;
  sequence_id : option Z
}.

End MarketData.

Module OrderBook.

Record t := mk {
  instrument_id : string;
  timestamp : datetime;
  exchange : string;
  bids : list Level.t;
  asks : list Level.t
}.

Definition mid_price (self : t) : option Q :=
  match bids self, asks self with
  | bid :: _, ask :: _ => Some ((Level.price bid + Level.price ask) / 2)%Q
  | _, _ => None
  end.


(** The dictionary [{"bid_liquidity": ..., "ask_liquidity": ...}]. *)
Record liquidity := mk_liquidity {
  bid_liquidity : Q;
  ask_liquidity : Q
}.

(** [sum(level["size"] for level in levels if test(level))]. *)
Definition sum_sizes (test : Level.t → bool) (levels : list Level.t) : Q :=
  foldl Qplus 0%Q (map Level.size (List.filter test levels)).

Definition liquidity_within_bps (self : t) (bps : Q) : liquidity :=
  match mid_price self with
  | None => mk_liquidity 0 0
  | Some mid =>
      let threshold := (mid * bps / 10000)%Q in
      let bid_liquidity :=
        sum_sizes (λ b, PyFloat.leb (mid - Level.price b) threshold)
          (bids self) in
      let ask_liquidity :=
        sum_sizes (λ a, PyFloat.leb (Level.price a - mid) threshold)
          (asks self) in
      mk_liquidity bid_liquidity ask_liquidity
  end.

Definition to_market_data (self : t) : MarketData.t :=
  MarketData.mk (instrument_id self) (timestamp self) ORDERBOOK
    (exchange self)
    (MarketData.mk_payload ∅
       (<["asks" := asks self]> (<["bids" := bids self]> ∅)))
    (exchange self) None.

End OrderBook.

(** ** data_structures.py: Event *)

(** [Event.data] is untyped ([Any]); the payloads told apart by the handlers'
    [isinstance] tests are the constructors, everything else (market data,
    dictionaries, [None]) is [DataOther]. *)
Inductive EventData :=
  | DataOrder (order : Order.t)
  | DataTrade (trade : Trade.t)
  | DataPosition (position : Position.t)
  | DataOther (repr : string).

Module Event.

Record t := mk {
  event_type : EventType;
  timestamp : datetime;
  data : EventData;
  source : string;
  target : option string;
  sequence_id : option Z;
  priority : Z
}.

End Event.

(** ** collections.defaultdict *)

(** [d[k]] on a [defaultdict]: a missing key is first bound to the default. *)
Definition defaultdict_get `{Countable K} {V} (default : V) (k : K)
    (d : gmap K V) : V * gmap K V :=
  match d !! k with
  | Some v => (v, d)
  | None => (default, <[k := default]> d)
  end.

(** ** event_processor.py *)

Module EventProcessor.

(** *** asyncio.PriorityQueue

    The heap is kept as the list of its entries
    [(priority, enqueue time, event)]; only its size matters to [publish].
    The order of the heap is not part of the model, nor are the comparisons
    [heappush] makes to keep it: they are settled by the priority or by the
    enqueue time as long as the entry put in does not tie on both with an
    entry it is compared with.  On such a tie Python goes on to compare the
    events, and [Event] defines no order: [put] then leaves with a
    [TypeError], the entry already in the list.  Statements about what
    [publish] puts in the queue are made for enqueue times that differ
    ([distinct_times] below). *)
Record PriorityQueue := mkQueue {
  maxsize : Z;
  entries : list (Z * Q * Event.t)
}.

Definition qsize (q : PriorityQueue) : Z := Z.of_nat (length (entries q)).

(** [Queue.full()]: a queue built with [maxsize <= 0] is never full. *)
Definition full (q : PriorityQueue) : bool :=
  if (maxsize q <=? 0)%Z then false else (maxsize q <=? qsize q)%Z.

Inductive put_result :=
  | PutDone (q : PriorityQueue)
  | PutWaits        (* the coroutine is parked until a slot is free *)
  | PutQueueFull.   (* [asyncio.QueueFull] is raised *)

(** [await queue.put(item)] waits while the queue is full; it never raises
    [QueueFull]. *)
Definition put (q : PriorityQueue) (item : Z * Q * Event.t) : put_result :=
  if full q then PutWaits
  else PutDone (mkQueue (maxsize q) (entries q ++ [item])).

(** [queue.put_nowait(item)], the variant that raises [QueueFull]; the
    source does not call it. *)
Definition put_nowait (q : PriorityQueue) (item : Z * Q * Event.t)
    : put_result :=
  if full q then PutQueueFull
  else PutDone (mkQueue (maxsize q) (entries q ++ [item])).

(** A registered handler is known by its identity; what its body does is
    outside the event processor. *)
Definition handler : Type := nat.

(** The attributes of the class, and [handler_calls], the trace of the
    calls [handler(event)] made so far.  The latency metrics
    ([event_processing_times]) are not part of the model. *)
Record t := mk {
  event_queue : PriorityQueue;
  handlers : gmap EventType (list handler);
  sequence_counters : gmap string Z;
  pending_events : gmap string (gmap Z Event.t);
  queue_size_history : list (datetime * Z);
  dropped_events_count : Z;
  running : bool;
  throttle_levels : gmap EventType Z;
  _last_metrics_log : Q;
  _throttle_counters : gmap EventType Z;
  _throttle_last_reset : gmap EventType Q;
  handler_calls : list (handler * Event.t)
}.

(** [EventProcessor(max_queue_size)] built at time [now]. *)
Definition new (max_queue_size : Z) (now : Q) : t :=
  mk (mkQueue max_queue_size []) ∅ ∅ ∅ [] 0 false ∅ now ∅ ∅ [].

Definition set_event_queue (v : PriorityQueue) (s : t) : t :=
  mk v (handlers s) (sequence_counters s) (pending_events s)
     (queue_size_history s) (dropped_events_count s) (running s)
     (throttle_levels s) (_last_metrics_log s) (_throttle_counters s)
     (_throttle_last_reset s) (handler_calls s).

Definition set_handlers (v : gmap EventType (list handler)) (s : t) : t :=
  mk (event_queue s) v (sequence_counters s) (pending_events s)
     (queue_size_history s) (dropped_events_count s) (running s)
     (throttle_levels s) (_last_metrics_log s) (_throttle_counters s)
     (_throttle_last_reset s) (handler_calls s).

Definition set_sequence_counters (v : gmap string Z) (s : t) : t :=
  mk (event_queue s) (handlers s) v (pending_events s)
     (queue_size_history s) (dropped_events_count s) (running s)
     (throttle_levels s) (_last_metrics_log s) (_throttle_counters s)
     (_throttle_last_reset s) (handler_calls s).

Definition set_pending_events (v : gmap string (gmap Z Event.t)) (s : t)
    : t :=
  mk (event_queue s) (handlers s) (sequence_counters s) v
     (queue_size_history s) (dropped_events_count s) (running s)
     (throttle_levels s) (_last_metrics_log s) (_throttle_counters s)
     (_throttle_last_reset s) (handler_calls s).

Definition set_queue_size_history (v : list (datetime * Z)) (s : t) : t :=
  mk (event_queue s) (handlers s) (sequence_counters s) (pending_events s)
     v (dropped_events_count s) (running s)
     (throttle_levels s) (_last_metrics_log s) (_throttle_counters s)
     (_throttle_last_reset s) (handler_calls s).

Definition set_dropped_events_count (v : Z) (s : t) : t :=
  mk (event_queue s) (handlers s) (sequence_counters s) (pending_events s)
     (queue_size_history s) v (running s)
     (throttle_levels s) (_last_metrics_log s) (_throttle_counters s)
     (_throttle_last_reset s) (handler_calls s).

Definition set_throttle_levels (v : gmap EventType Z) (s : t) : t :=
  mk (event_queue s) (handlers s) (sequence_counters s) (pending_events s)
     (queue_size_history s) (dropped_events_count s) (running s)
     v (_last_metrics_log s) (_throttle_counters s)
     (_throttle_last_reset s) (handler_calls s).

Definition set__last_metrics_log (v : Q) (s : t) : t :=
  mk (event_queue s) (handlers s) (sequence_counters s) (pending_events s)
     (queue_size_history s) (dropped_events_count s) (running s)
     (throttle_levels s) v (_throttle_counters s)
     (_throttle_last_reset s) (handler_calls s).

Definition set__throttle_counters (v : gmap EventType Z) (s : t) : t :=
  mk (event_queue s) (handlers s) (sequence_counters s) (pending_events s)
     (queue_size_history s) (dropped_events_count s) (running s)
     (throttle_levels s) (_last_metrics_log s) v
     (_throttle_last_reset s) (handler_calls s).

Definition set__throttle_last_reset (v : gmap EventType Q) (s : t) : t :=
  mk (event_queue s) (handlers s) (sequence_counters s) (pending_events s)
     (queue_size_history s) (dropped_events_count s) (running s)
     (throttle_levels s) (_last_metrics_log s) (_throttle_counters s)
     v (handler_calls s).

Definition set_handler_calls (v : list (handler * Event.t)) (s : t) : t :=
  mk (event_queue s) (handlers s) (sequence_counters s) (pending_events s)
     (queue_size_history s) (dropped_events_count s) (running s)
     (throttle_levels s) (_last_metrics_log s) (_throttle_counters s)
     (_throttle_last_reset s) v.

(** [handlers] is a [defaultdict(list)]. *)
Definition add_handler (self : t) (event_type : EventType) (h : handler)
    : t :=
  let '(hs, d) := defaultdict_get [] event_type (handlers self) in
  set_handlers (<[event_type := hs ++ [h]]> d) self.

(** *** publish *)

Inductive publish_result :=
  | Accepted     (* returns [True] *)
  | Dropped      (* returns [False] *)
  | Suspended.   (* still awaiting [event_queue.put] *)

(** [now] is the reading of [time.time()] during the call (the throttle
    check, the default of [_throttle_last_reset], the queue entry and the
    metrics test all see it); [utcnow] is that of [datetime.utcnow()]. *)

(** The [try] block of [publish] with its [except] clause. *)
Definition publish_enqueue (self : t) (event : Event.t) (now : Q)
    (utcnow : datetime) : t * publish_result :=
  match put (event_queue self) (Event.priority event, now, event) with
  | PutDone q =>
      let self := set_event_queue q self in
      let current_time := now in
      let self :=
        if PyFloat.gtb (current_time - _last_metrics_log self) 5 then
          let self :=
            set_queue_size_history
              (queue_size_history self
               ++ [(utcnow, qsize (event_queue self))]) self in
          set__last_metrics_log current_time self
        else self in
      (self, Accepted)
  | PutWaits => (self, Suspended)
  | PutQueueFull =>
      (set_dropped_events_count (dropped_events_count self + 1) self,
       Dropped)
  end.

Definition publish (self : t) (event : Event.t) (now : Q)
    (utcnow : datetime) : t * publish_result :=
  match throttle_levels self !! Event.event_type event with
  | Some max_events =>
      let current_time := now in
      let '(last_reset, resets) :=
        defaultdict_get now (Event.event_type event)
          (_throttle_last_reset self) in
      let self := set__throttle_last_reset resets self in
      let self :=
        if PyFloat.geb (current_time - last_reset) 1 then
          let self :=
            set__throttle_counters
              (<[Event.event_type event := 0%Z]> (_throttle_counters self))
              self in
          set__throttle_last_reset
            (<[Event.event_type event := current_time]>
               (_throttle_last_reset self)) self
        else self in
      let '(count, counters) :=
        defaultdict_get 0%Z (Event.event_type event)
          (_throttle_counters self) in
      let self := set__throttle_counters counters self in
      if (max_events <=? count)%Z then
        (set_dropped_events_count (dropped_events_count self + 1) self,
         Dropped)
      else
        let self :=
          set__throttle_counters
            (<[Event.event_type event := (count + 1)%Z]>
               (_throttle_counters self)) self in
        publish_enqueue self event now utcnow
  | None => publish_enqueue self event now utcnow
  end.

(** *** dispatch *)

Definition _process_event (self : t) (event : Event.t) : t :=
  match handlers self !! Event.event_type event with
  | None => self
  | Some hs =>
      set_handler_calls
        (handler_calls self ++ map (λ h, (h, event)) hs) self
  end.

(** The [while next_seq in self.pending_events[source]] loop; every turn
    pops one buffered event, so the number of buffered events of the source
    bounds the number of turns. *)
Fixpoint drain_pending (turns : nat) (self : t) (source : string)
    (next_seq : Z) : t :=
  match turns with
  | O => self
  | S turns =>
      let '(buffered, pending) :=
        defaultdict_get ∅ source (pending_events self) in
      let self := set_pending_events pending self in
      match buffered !! next_seq with
      | None => self
      | Some pending_event =>
          let self :=
            set_pending_events
              (<[source := delete next_seq buffered]> (pending_events self))
              self in
          let self := _process_event self pending_event in
          let '(counter, counters) :=
            defaultdict_get 0%Z source (sequence_counters self) in
          let self :=
            set_sequence_counters (<[source := (counter + 1)%Z]> counters)
              self in
          drain_pending turns self source (next_seq + 1)
      end
  end.

Definition _handle_sequenced_event (self : t) (event : Event.t)
    : t * bool :=
  match Event.sequence_id event with
  | None => (self, true)
  | Some sequence_id =>
      let source := Event.source event in
      let '(expected_seq, counters) :=
        defaultdict_get 0%Z source (sequence_counters self) in
      let self := set_sequence_counters counters self in
      if (sequence_id =? expected_seq)%Z then
        let self :=
          set_sequence_counters
            (<[source := (expected_seq + 1)%Z]> (sequence_counters self))
            self in
        let next_seq := (expected_seq + 1)%Z in
        let turns :=
          S (size (default ∅ (pending_events self !! source))) in
        (drain_pending turns self source next_seq, true)
      else if (sequence_id >? expected_seq)%Z then
        let '(buffered, pending) :=
          defaultdict_get ∅ source (pending_events self) in
        let self :=
          set_pending_events
            (<[source := <[sequence_id := event]> buffered]> pending) self in
        (self, false)
      else
        (self, false)
  end.

(** One turn of [event_loop] on the event taken from the queue. *)
Definition event_loop_turn (self : t) (event : Event.t) : t :=
  let '(self, should_process) := _handle_sequenced_event self event in
  if should_process then _process_event self event else self.

Definition event_loop (self : t) (dequeued : list Event.t) : t :=
  foldl event_loop_turn self dequeued.

(** The sequence ids seen by the handlers, in call order. *)
Definition delivered_sequence_ids (self : t) : list (option Z) :=
  map (λ call, Event.sequence_id call.2) (handler_calls self).

(** [list.remove(x)]: the list without its first item equal to [x], or
    [None] for the [ValueError] raised when there is none. *)
Fixpoint list_remove (x : handler) (l : list handler)
    : option (list handler) :=
  match l with
  | [] => None
  | y :: l =>
      if decide (y = x) then Some l
      else
        match list_remove x l with
        | Some l => Some (y :: l)
        | None => None
        end
  end.

Definition remove_handler (self : t) (event_type : EventType) (h : handler)
    : t :=
  match handlers self !! event_type with
  | Some hs =>
      match list_remove h hs with
      | Some hs => set_handlers (<[event_type := hs]> (handlers self)) self
      | None => self
      end
  | None => self
  end.

End EventProcessor.

(** ** order_manager.py *)

(** How a coroutine ends: by returning, or by an exception leaving it (the
    only one these bodies can raise is the [ZeroDivisionError] of a float
    division). *)
Inductive completion := Returned | ZeroDivisionError.

Module OrderManager.

(** A callback registered for an order, known by its identity. *)
Definition callback : Type := nat.

Record t := mk {
  orders : gmap string Order.t;
  active_orders : gset string;
  order_history : gmap string (list Order.t);
  trades : gmap string (list Trade.t);
  order_handlers : gmap string callback
}.

Definition new : t := mk ∅ ∅ ∅ ∅ ∅.

Definition set_orders (v : gmap string Order.t) (s : t) : t :=
  mk v (active_orders s) (order_history s) (trades s) (order_handlers s).

Definition set_active_orders (v : gset string) (s : t) : t :=
  mk (orders s) v (order_history s) (trades s) (order_handlers s).

Definition set_order_history (v : gmap string (list Order.t)) (s : t) : t :=
  mk (orders s) (active_orders s) v (trades s) (order_handlers s).

Definition set_trades (v : gmap string (list Trade.t)) (s : t) : t :=
  mk (orders s) (active_orders s) (order_history s) v (order_handlers s).

Definition set_order_handlers (v : gmap string callback) (s : t) : t :=
  mk (orders s) (active_orders s) (order_history s) (trades s) v.

(** [Event(event_type=ORDER_UPDATE, data=order, source="order_manager")]. *)
Definition order_update_event (order : Order.t) (now : datetime)
    : Event.t :=
  Event.mk ORDER_UPDATE now (DataOrder order) "order_manager" None None 1.

Definition _save_order_history (self : t) (order : Order.t) : t :=
  let history := default [] (order_history self !! Order.order_id order) in
  let order_copy := Order.copy order in
  set_order_history
    (<[Order.order_id order := history ++ [order_copy]]>
       (order_history self)) self.

Definition _update_order_state (self : t) (order : Order.t) : t :=
  let self :=
    set_orders (<[Order.order_id order := order]> (orders self)) self in
  let self :=
    if Order.is_active order then
      set_active_orders ({[Order.order_id order]} ∪ active_orders self) self
    else
      set_active_orders (active_orders self ∖ {[Order.order_id order]}) self
  in
  _save_order_history self order.

(** Returns the new state and the callback awaited for the order, if one
    is registered. *)
Definition _handle_order_update (self : t) (event : Event.t)
    : t * option callback :=
  match Event.data event with
  | DataOrder order =>
      let self := _update_order_state self order in
      (self, order_handlers self !! Order.order_id order)
  | _ => (self, None)
  end.

(** The tolerance [1e-10] of the filled test. *)
Definition fill_epsilon : Q := 1 # 10000000000.

Definition _handle_trade_update (self : t) (event : Event.t)
    (now : datetime) : t * list Event.t * completion :=
  match Event.data event with
  | DataTrade trade =>
      (* store the trade *)
      let self :=
        set_trades
          (<[Trade.order_id trade :=
               default [] (trades self !! Trade.order_id trade) ++ [trade]]>
             (trades self)) self in
      (* update the corresponding order *)
      match orders self !! Trade.order_id trade with
      | Some order =>
          let store (order : Order.t) (self : t) : t :=
            set_orders (<[Trade.order_id trade := order]> (orders self))
              self in
          let order :=
            Order.set_filled_quantity
              (Order.filled_quantity order + Trade.quantity trade)%Q order in
          (* the statements after the average fill price *)
          let update_status (order : Order.t) :=
            let '(order, self) :=
              if PyFloat.ltb
                   (Qabs (Order.filled_quantity order - Order.quantity order))
                   fill_epsilon
              then
                (Order.set_status FILLED order,
                 set_active_orders
                   (active_orders self ∖ {[Order.order_id order]}) self)
              else if PyFloat.gtb (Order.filled_quantity order) 0 then
                (Order.set_status PARTIALLY_FILLED order, self)
              else (order, self) in
            let order := Order.set_updated_at now order in
            let self := store order self in
            let self := _save_order_history self order in
            (self, [order_update_event order now], Returned) in
          match Order.average_fill_price order with
          | None =>
              update_status
                (Order.set_average_fill_price (Some (Trade.price trade))
                   order)
          | Some average_fill_price =>
              let prev_fill_qty :=
                (Order.filled_quantity order - Trade.quantity trade)%Q in
              if PyFloat.eqb (Order.filled_quantity order) 0 then
                (store order self, [], ZeroDivisionError)
              else
                update_status
                  (Order.set_average_fill_price
                     (Some ((average_fill_price * prev_fill_qty
                             + Trade.price trade * Trade.quantity trade)
                            / Order.filled_quantity order)%Q)
                     order)
          end
      | None => (self, [], Returned)
      end
  | _ => (self, [], Returned)
  end.

Definition submit_order (self : t) (order : Order.t)
    (callback : option callback) (now : datetime)
    : t * string * list Event.t :=
  let order := Order.set_status PENDING_NEW order in
  let order := Order.set_created_at now order in
  let order := Order.set_updated_at (Order.created_at order) order in
  let self := _update_order_state self order in
  let self :=
    match callback with
    | Some cb =>
        set_order_handlers
          (<[Order.order_id order := cb]> (order_handlers self)) self
    | None => self
    end in
  (self, Order.order_id order, [order_update_event order now]).

(** [status in [NEW, PARTIALLY_FILLED]]. *)
Definition cancellable (status : OrderStatus) : bool :=
  match status with
  | NEW | PARTIALLY_FILLED => true
  | _ => false
  end.

Definition cancel_order (self : t) (order_id : string) (now : datetime)
    : t * bool * list Event.t :=
  match orders self !! order_id with
  | Some order =>
      if bool_decide (order_id ∈ active_orders self) then
        if cancellable (Order.status order) then
          let order := Order.set_status PENDING_CANCEL order in
          let order := Order.set_updated_at now order in
          let self :=
            set_orders (<[order_id := order]> (orders self)) self in
          let self := _save_order_history self order in
          (self, true, [order_update_event order now])
        else (self, false, [])
      else (self, false, [])
  | None => (self, false, [])
  end.

Definition modify_order (self : t) (order_id : string) (price : option Q)
    (quantity : option Q) (now : datetime) : t * bool * list Event.t :=
  match orders self !! order_id with
  | Some order =>
      if bool_decide (order_id ∈ active_orders self) then
        if cancellable (Order.status order) then
          let modified_order := Order.copy order in
          let modified_order :=
            match price with
            | Some price => Order.set_price (Some price) modified_order
            | None => modified_order
            end in
          let submit (modified_order : Order.t) :=
            let modified_order :=
              Order.set_updated_at now modified_order in
            let self := _update_order_state self modified_order in
            (self, true, [order_update_event modified_order now]) in
          match quantity with
          | Some quantity =>
              if bool_decide (Order.status order = PARTIALLY_FILLED)
                 && PyFloat.ltb quantity (Order.filled_quantity order)
              then (self, false, [])
              else submit (Order.set_quantity quantity modified_order)
          | None => submit modified_order
          end
        else (self, false, [])
      else (self, false, [])
  | None => (self, false, [])
  end.

Definition get_order (self : t) (order_id : string) : option Order.t :=
  orders self !! order_id.

Definition get_order_history (self : t) (order_id : string)
    : list Order.t :=
  default [] (order_history self !! order_id).

Definition get_trades (self : t) (order_id : string) : list Trade.t :=
  default [] (trades self !! order_id).

(** The truth value of an optional string argument: [None] and the empty
    string are false. *)
Definition truthy (filter : option string) : bool :=
  match filter with
  | Some "" => false
  | Some _ => true
  | None => false
  end.

(** The body of the [for order_id in self.active_orders] loop of
    [get_active_orders] on the ids still to visit; [None] stands for the
    [KeyError] of [self.orders[order_id]]. *)
Fixpoint get_active_orders_loop (self : t) (strategy_id : option string)
    (instrument_id : option string) (order_ids : list string)
    (result : list Order.t) : option (list Order.t) :=
  match order_ids with
  | [] => Some result
  | order_id :: order_ids =>
      match orders self !! order_id with
      | None => None
      | Some order =>
          if truthy strategy_id
             && bool_decide (Order.strategy_id order ≠ strategy_id)
          then
            get_active_orders_loop self strategy_id instrument_id order_ids
              result
          else if truthy instrument_id
                  && bool_decide
                       (Some (Order.instrument_id order) ≠ instrument_id)
          then
            get_active_orders_loop self strategy_id instrument_id order_ids
              result
          else
            get_active_orders_loop self strategy_id instrument_id order_ids
              (result ++ [order])
      end
  end.

(** The set is visited in the order of [elements]. *)
Definition get_active_orders (self : t) (strategy_id : option string)
    (instrument_id : option string) : option (list Order.t) :=
  get_active_orders_loop self strategy_id instrument_id
    (elements (active_orders self)) [].

(** Every cancel of the batch reads the clock as [now]. *)
Fixpoint batch_cancel_orders_loop (self : t) (order_ids : list string)
    (now : datetime) (results : gmap string bool) (published : list Event.t)
    : t * gmap string bool * list Event.t :=
  match order_ids with
  | [] => (self, results, published)
  | order_id :: order_ids =>
      let '(self, success, events) := cancel_order self order_id now in
      batch_cancel_orders_loop self order_ids now
        (<[order_id := success]> results) (published ++ events)
  end.

Definition batch_cancel_orders (self : t) (order_ids : list string)
    (now : datetime) : t * gmap string bool * list Event.t :=
  batch_cancel_orders_loop self order_ids now ∅ [].

(** [sum(1 for success in results.values() if success)]. *)
Definition count_successes (results : gmap string bool) : Z :=
  Z.of_nat (length (List.filter id (map_to_list results).*2)).

(** [None] for the [KeyError] that [get_active_orders] can raise. *)
Definition cancel_all_orders (self : t) (strategy_id : option string)
    (instrument_id : option string) (now : datetime)
    : t * option Z * list Event.t :=
  match get_active_orders self strategy_id instrument_id with
  | None => (self, None, [])
  | Some orders_to_cancel =>
      let order_ids := map Order.order_id orders_to_cancel in
      let '(self, results, events) :=
        batch_cancel_orders self order_ids now in
      (self, Some (count_successes results), events)
  end.

(** The dictionary returned by [get_order_statistics]; [by_status] gives
    the count filed under the name of each status. *)
Record statistics := mk_statistics {
  active_orders_count : Z;
  total_orders : Z;
  by_status : OrderStatus → Z
}.

Definition get_order_statistics (self : t) : statistics :=
  mk_statistics
    (Z.of_nat (size (active_orders self)))
    (Z.of_nat (size (orders self)))
    (λ status,
       Z.of_nat
         (length
            (List.filter
               (λ order : Order.t,
                  bool_decide (Order.status order = status))
               (map_to_list (orders self)).*2))).

End OrderManager.

(** ** position_manager.py *)

Module PositionManager.

Record t := mk {
  positions : gmap string Position.t;
  position_updates_count : Z;
  last_total_pnl : Q
}.

Definition new : t := mk ∅ 0 0.

Definition set_positions (v : gmap string Position.t) (s : t) : t :=
  mk v (position_updates_count s) (last_total_pnl s).

(** Returns the position and the manager, whose table gains the position
    when the instrument was missing. *)
Definition get_position (self : t) (instrument_id : string)
    (now : datetime) : Position.t * t :=
  match positions self !! instrument_id with
  | Some position => (position, self)
  | None =>
      let position := Position.new instrument_id now in
      (position,
       set_positions (<[instrument_id := position]> (positions self)) self)
  end.

(** [list(self.positions.values())]; the order of the list is that of the
    map's enumeration, not the insertion order of the dictionary. *)
Definition get_all_positions (self : t) : list Position.t :=
  (map_to_list (positions self)).*2.

Definition py_sum (l : list Q) : Q := foldl Qplus 0%Q l.

Definition get_net_position (self : t) : Q :=
  py_sum (map Position.position_value (get_all_positions self)).

Record pnl_summary := mk_pnl_summary {
  realized_pnl : Q;
  unrealized_pnl : Q;
  total_pnl : Q
}.

Definition get_pnl_summary (self : t) : pnl_summary :=
  let realized_pnl :=
    py_sum (map Position.realized_pnl (get_all_positions self)) in
  let unrealized_pnl :=
    py_sum (map Position.unrealized_pnl (get_all_positions self)) in
  let total_pnl := (realized_pnl + unrealized_pnl)%Q in
  mk_pnl_summary realized_pnl unrealized_pnl total_pnl.

Definition _handle_trade_update (self : t) (event : Event.t)
    (now : datetime) : t * list Event.t :=
  match Event.data event with
  | DataTrade trade =>
      let instrument_id := Trade.instrument_id trade in
      let '(position, self) := get_position self instrument_id now in
      let position := Position.apply_trade position trade in
      let position := Position.set_timestamp now position in
      let self :=
        mk (<[instrument_id := position]> (positions self))
           (position_updates_count self + 1) (last_total_pnl self) in
      (self,
       [Event.mk POSITION_UPDATE now (DataPosition position)
          "position_manager" None None 1])
  | _ => (self, [])
  end.

(** [sum(1 for p in ... if test(p))]. *)
Definition count_if (test : Position.t → bool) (l : list Position.t) : Z :=
  Z.of_nat (length (List.filter test l)).

(** [max(values, default=0)] and [min(values, default=0)]. *)
Definition max_default (l : list Q) : Q :=
  match l with
  | [] => 0%Q
  | x :: l => foldl Qmax x l
  end.

Definition min_default (l : list Q) : Q :=
  match l with
  | [] => 0%Q
  | x :: l => foldl Qmin x l
  end.

Definition is_long (p : Position.t) : bool :=
  PyFloat.gtb (Position.quantity p) 0.
Definition is_short (p : Position.t) : bool :=
  PyFloat.ltb (Position.quantity p) 0.
Definition is_flat (p : Position.t) : bool :=
  PyFloat.eqb (Position.quantity p) 0.

Record statistics := mk_statistics {
  pnl : pnl_summary;
  position_count : Z;
  long_positions : Z;
  short_positions : Z;
  flat_positions : Z;
  largest_long_value : Q;
  largest_short_value : Q;
  position_updates : Z
}.

Definition get_position_statistics (self : t) : statistics :=
  let values := get_all_positions self in
  mk_statistics
    (get_pnl_summary self)
    (Z.of_nat (size (positions self)))
    (count_if is_long values)
    (count_if is_short values)
    (count_if is_flat values)
    (max_default
       (map Position.position_value (List.filter is_long values)))
    (min_default
       (map Position.position_value (List.filter is_short values)))
    (position_updates_count self).

(** [Event(event_type=POSITION_UPDATE, data=position,
    source="position_manager")]. *)
Definition position_update_event (position : Position.t) (now : datetime)
    : Event.t :=
  Event.mk POSITION_UPDATE now (DataPosition position) "position_manager"
    None None 1.

(** The price that [_handle_market_data] reads from the payload, by data
    type; [None] when the fields it needs are missing. *)
Definition market_price (market_data : MarketData.t) : option Q :=
  let numbers := MarketData.numbers (MarketData.data market_data) in
  let books := MarketData.books (MarketData.data market_data) in
  match MarketData.data_type market_data with
  | QUOTE =>
      match numbers !! "bid", numbers !! "ask" with
      | Some bid, Some ask => Some ((bid + ask) / 2)%Q
      | _, _ => None
      end
  | TRADE => numbers !! "price"
  | ORDERBOOK =>
      match books !! "bids", books !! "asks" with
      | Some (bid :: _), Some (ask :: _) =>
          let best_bid := Level.price bid in
          let best_ask := Level.price ask in
          Some ((best_bid + best_ask) / 2)%Q
      | _, _ => None
      end
  | BAR => numbers !! "close"
  | INSTRUMENT_INFO => None
  end.

(** The handler on the market data carried by the event. *)
Definition _handle_market_data (self : t) (market_data : MarketData.t)
    (now : datetime) : t * list Event.t :=
  let instrument_id := MarketData.instrument_id market_data in
  match market_price market_data, positions self !! instrument_id with
  | Some price, Some position =>
      let old_pnl := Position.unrealized_pnl position in
      let position := Position.update_price position price in
      let position := Position.set_timestamp now position in
      let self :=
        set_positions (<[instrument_id := position]> (positions self)) self in
      let pnl_change := Qabs (Position.unrealized_pnl position - old_pnl) in
      if PyFloat.gtb pnl_change 0.01
         || PyFloat.gtb (pnl_change / Qmax (Qabs old_pnl) 0.01) 0.001
      then (self, [position_update_event position now])
      else (self, [])
  | _, _ => (self, [])
  end.

Definition update_position_price (self : t) (instrument_id : string)
    (price : Q) (now : datetime) : t * list Event.t :=
  let '(position, self) := get_position self instrument_id now in
  let position := Position.update_price position price in
  let position := Position.set_timestamp now position in
  let self :=
    set_positions (<[instrument_id := position]> (positions self)) self in
  (self, [position_update_event position now]).

Definition add_strategy_allocation (self : t) (instrument_id : string)
    (strategy_id : string) (quantity : Q) (now : datetime)
    : t * list Event.t :=
  let '(position, self) := get_position self instrument_id now in
  let position :=
    Position.set_strategy_allocations
      (<[strategy_id := quantity]> (Position.strategy_allocations position))
      position in
  let self :=
    set_positions (<[instrument_id := position]> (positions self)) self in
  (self, [position_update_event position now]).

Definition get_strategy_exposure (self : t) (strategy_id : string)
    : gmap string Q :=
  omap (λ position, Position.strategy_allocations position !! strategy_id)
    (positions self).

End PositionManager.

(** ** risk_manager.py: PositionLimitRule *)

Module PositionLimitRule.

(** The attributes of [RiskRule] and those the subclass adds. *)
Record t := mk {
  name : string;
  enabled : bool;
  violations : Z;
  last_check_time : datetime;
  instrument_id : string;
  max_position : Q
}.

(** The [context] dictionary: the order under evaluation, when there is
    one, and the ["event_type"] tag. *)
Record context := mk_context {
  order : option Order.t;
  event_type : string
}.

(** The message of the result: the f-string's template with the values it
    formats. *)
Inductive message :=
  | NotApplicable
  | OrderWouldExceed (max_position : Q) (instrument_id : string)
  | CurrentExceeds (current_position max_position : Q)
      (instrument_id : string)
  | WithinLimits.

Definition set_violations (v : Z) (r : t) : t :=
  mk (name r) (enabled r) v (last_check_time r) (instrument_id r)
     (max_position r).

Definition set_last_check_time (v : datetime) (r : t) : t :=
  mk (name r) (enabled r) (violations r) v (instrument_id r)
     (max_position r).

(** [check] reads the position through the risk manager's position
    manager, so that manager is threaded through the call. *)
Definition check (self : t) (position_manager : PositionManager.t)
    (context : context) (now : datetime)
    : t * PositionManager.t * (bool * message) :=
  (* RiskRule.check *)
  let self := set_last_check_time now self in
  let applicable (_ : unit) :=
    let '(position, position_manager) :=
      PositionManager.get_position position_manager (instrument_id self)
        now in
    let current_position := Qabs (Position.quantity position) in
    match order context with
    | Some order =>
        let new_position :=
          match Order.side order with
          | BUY =>
              Qabs (Position.quantity position + Order.quantity order)
          | SELL =>
              Qabs (Position.quantity position - Order.quantity order)
          end in
        if PyFloat.gtb new_position (max_position self) then
          (set_violations (violations self + 1) self, position_manager,
           (false,
            OrderWouldExceed (max_position self) (instrument_id self)))
        else (self, position_manager, (true, WithinLimits))
    | None =>
        if PyFloat.gtb current_position (max_position self) then
          (set_violations (violations self + 1) self, position_manager,
           (false,
            CurrentExceeds current_position (max_position self)
              (instrument_id self)))
        else (self, position_manager, (true, WithinLimits))
    end in
  match order context with
  | Some order =>
      if bool_decide (Order.instrument_id order ≠ instrument_id self)
      then (self, position_manager, (true, NotApplicable))
      else applicable ()
  | None => applicable ()
  end.

End PositionLimitRule.

(** ** risk_manager.py: DrawdownLimitRule *)

Module DrawdownLimitRule.

Record t := mk {
  name : string;
  enabled : bool;
  violations : Z;
  last_check_time : datetime;
  max_drawdown_pct : Q;
  window_days : Z;
  peak_value : option Q
}.

(** The message of the result, with the values its f-string formats. *)
Inductive message :=
  | NoPeak
  | DrawdownExceeds (drawdown_pct max_drawdown_pct : Q)
  | DrawdownWithin (drawdown_pct : Q).

Definition set_violations (v : Z) (r : t) : t :=
  mk (name r) (enabled r) v (last_check_time r) (max_drawdown_pct r)
     (window_days r) (peak_value r).

Definition set_last_check_time (v : datetime) (r : t) : t :=
  mk (name r) (enabled r) (violations r) v (max_drawdown_pct r)
     (window_days r) (peak_value r).

Definition set_peak_value (v : option Q) (r : t) : t :=
  mk (name r) (enabled r) (violations r) (last_check_time r)
     (max_drawdown_pct r) (window_days r) v.

Definition check (self : t) (position_manager : PositionManager.t)
    (now : datetime) : t * (bool * message) :=
  (* RiskRule.check *)
  let self := set_last_check_time now self in
  let pnl_summary := PositionManager.get_pnl_summary position_manager in
  let current_value :=
    (PositionManager.realized_pnl pnl_summary
     + PositionManager.unrealized_pnl pnl_summary)%Q in
  let peak :=
    match peak_value self with
    | None => current_value
    | Some peak =>
        if PyFloat.gtb current_value peak then current_value else peak
    end in
  let self := set_peak_value (Some peak) self in
  if PyFloat.leb peak 0 then (self, (true, NoPeak))
  else
    let drawdown_pct := ((peak - current_value) / Qabs peak * 100)%Q in
    if PyFloat.gtb drawdown_pct (max_drawdown_pct self) then
      (set_violations (violations self + 1) self,
       (false, DrawdownExceeds drawdown_pct (max_drawdown_pct self)))
    else (self, (true, DrawdownWithin drawdown_pct)).

End DrawdownLimitRule.

(** ** risk_manager.py: ExposureByStrategyRule *)

Module ExposureByStrategyRule.

Record t := mk {
  name : string;
  enabled : bool;
  violations : Z;
  last_check_time : datetime;
  strategy_id : string;
  max_exposure : Q
}.

Inductive message :=
  | NotApplicable
  | OrderWouldExceed (max_exposure : Q) (strategy_id : string)
  | CurrentExceeds (total_exposure max_exposure : Q) (strategy_id : string)
  | WithinLimits (total_exposure : Q).

Definition set_violations (v : Z) (r : t) : t :=
  mk (name r) (enabled r) v (last_check_time r) (strategy_id r)
     (max_exposure r).

Definition set_last_check_time (v : datetime) (r : t) : t :=
  mk (name r) (enabled r) (violations r) v (strategy_id r)
     (max_exposure r).

(** The truth value of an optional float: [None] and 0 are false. *)
Definition truthy (x : option Q) : bool :=
  match x with
  | Some x => PyFloat.neqb x 0
  | None => false
  end.

(** The [for instrument_id, quantity in strategy_positions.items()] loop. *)
Fixpoint exposure_loop (items : list (string * Q))
    (position_manager : PositionManager.t) (total_exposure : Q)
    (now : datetime) : Q * PositionManager.t :=
  match items with
  | [] => (total_exposure, position_manager)
  | (instrument_id, quantity) :: items =>
      let '(position, position_manager) :=
        PositionManager.get_position position_manager instrument_id now in
      let total_exposure :=
        match Position.current_price position with
        | Some current_price =>
            if PyFloat.neqb current_price 0 then
              let exposure := Qabs (quantity * current_price) in
              (total_exposure + exposure)%Q
            else total_exposure
        | None => total_exposure
        end in
      exposure_loop items position_manager total_exposure now
  end.

Definition check (self : t) (position_manager : PositionManager.t)
    (context : PositionLimitRule.context) (now : datetime)
    : t * PositionManager.t * (bool * message) :=
  (* RiskRule.check *)
  let self := set_last_check_time now self in
  let applicable (_ : unit) :=
    let strategy_positions :=
      PositionManager.get_strategy_exposure position_manager
        (strategy_id self) in
    let '(total_exposure, position_manager) :=
      exposure_loop (map_to_list strategy_positions) position_manager 0 now in
    match PositionLimitRule.order context with
    | Some order =>
        let '(price, position_manager) :=
          if truthy (Order.price order) then
            (default 0%Q (Order.price order), position_manager)
          else
            let '(position, position_manager) :=
              PositionManager.get_position position_manager
                (Order.instrument_id order) now in
            (if truthy (Position.current_price position)
             then default 0%Q (Position.current_price position)
             else 0%Q,
             position_manager) in
        let additional_exposure := (Order.quantity order * price)%Q in
        let new_exposure := (total_exposure + additional_exposure)%Q in
        if PyFloat.gtb new_exposure (max_exposure self) then
          (set_violations (violations self + 1) self, position_manager,
           (false, OrderWouldExceed (max_exposure self) (strategy_id self)))
        else (self, position_manager, (true, WithinLimits total_exposure))
    | None =>
        if PyFloat.gtb total_exposure (max_exposure self) then
          (set_violations (violations self + 1) self, position_manager,
           (false,
            CurrentExceeds total_exposure (max_exposure self)
              (strategy_id self)))
        else (self, position_manager, (true, WithinLimits total_exposure))
    end in
  match PositionLimitRule.order context with
  | Some order =>
      if bool_decide (Order.strategy_id order ≠ Some (strategy_id self))
      then (self, position_manager, (true, NotApplicable))
      else applicable ()
  | None => applicable ()
  end.

End ExposureByStrategyRule.

(** ** risk_manager.py: RiskManager *)

Module RiskManager.

(** The rules the manager can hold, by class. *)
Inductive RiskRule :=
  | PositionLimit (rule : PositionLimitRule.t)
  | DrawdownLimit (rule : DrawdownLimitRule.t)
  | ExposureByStrategy (rule : ExposureByStrategyRule.t).

Inductive message :=
  | PositionLimitMessage (m : PositionLimitRule.message)
  | DrawdownLimitMessage (m : DrawdownLimitRule.message)
  | ExposureByStrategyMessage (m : ExposureByStrategyRule.message).

Definition name (rule : RiskRule) : string :=
  match rule with
  | PositionLimit r => PositionLimitRule.name r
  | DrawdownLimit r => DrawdownLimitRule.name r
  | ExposureByStrategy r => ExposureByStrategyRule.name r
  end.

Definition enabled (rule : RiskRule) : bool :=
  match rule with
  | PositionLimit r => PositionLimitRule.enabled r
  | DrawdownLimit r => DrawdownLimitRule.enabled r
  | ExposureByStrategy r => ExposureByStrategyRule.enabled r
  end.

Definition violations (rule : RiskRule) : Z :=
  match rule with
  | PositionLimit r => PositionLimitRule.violations r
  | DrawdownLimit r => DrawdownLimitRule.violations r
  | ExposureByStrategy r => ExposureByStrategyRule.violations r
  end.

(** [rule.check(self, context)], dispatched on the class of the rule. *)
Definition check (rule : RiskRule) (position_manager : PositionManager.t)
    (context : PositionLimitRule.context) (now : datetime)
    : RiskRule * PositionManager.t * (bool * message) :=
  match rule with
  | PositionLimit r =>
      let '(r, position_manager, (passed, m)) :=
        PositionLimitRule.check r position_manager context now in
      (PositionLimit r, position_manager, (passed, PositionLimitMessage m))
  | DrawdownLimit r =>
      let '(r, (passed, m)) :=
        DrawdownLimitRule.check r position_manager now in
      (DrawdownLimit r, position_manager, (passed, DrawdownLimitMessage m))
  | ExposureByStrategy r =>
      let '(r, position_manager, (passed, m)) :=
        ExposureByStrategyRule.check r position_manager context now in
      (ExposureByStrategy r, position_manager,
       (passed, ExposureByStrategyMessage m))
  end.

(** [rules] is a dictionary from rule names to rules; it is kept as the list
    of its items in insertion order, which is the order of iteration. *)
Record t := mk {
  rules : list (string * RiskRule);
  check_interval_seconds : Z
}.

Definition new : t := mk [] 60.

(** [d[key] = value]: the value of an existing key is replaced where it
    stands, a new key goes to the end. *)
Fixpoint dict_set (key : string) (value : RiskRule)
    (d : list (string * RiskRule)) : list (string * RiskRule) :=
  match d with
  | [] => [(key, value)]
  | (k, v) :: d =>
      if decide (k = key) then (key, value) :: d
      else (k, v) :: dict_set key value d
  end.

Fixpoint dict_get (key : string) (d : list (string * RiskRule))
    : option RiskRule :=
  match d with
  | [] => None
  | (k, v) :: d => if decide (k = key) then Some v else dict_get key d
  end.

Fixpoint dict_del (key : string) (d : list (string * RiskRule))
    : list (string * RiskRule) :=
  match d with
  | [] => []
  | (k, v) :: d => if decide (k = key) then d else (k, v) :: dict_del key d
  end.

Definition add_rule (self : t) (rule : RiskRule) : t :=
  mk (dict_set (name rule) rule (rules self)) (check_interval_seconds self).

Definition remove_rule (self : t) (rule_name : string) : t * bool :=
  match dict_get rule_name (rules self) with
  | Some _ =>
      (mk (dict_del rule_name (rules self)) (check_interval_seconds self),
       true)
  | None => (self, false)
  end.

(** The loop of [check_rules] on the rules still to visit; a visited rule is
    the same object as before, so its new state stays under its name.  The
    [except] clause is left out: no [check] of the three classes raises on
    values of these types. *)
Fixpoint check_rules_loop (items : list (string * RiskRule))
    (position_manager : PositionManager.t)
    (context : PositionLimitRule.context) (now : datetime)
    : list (string * RiskRule) * PositionManager.t
      * (bool * list (string * message)) :=
  match items with
  | [] => ([], position_manager, (true, []))
  | (rule_name, rule) :: items =>
      if negb (enabled rule) then
        let '(items, position_manager, result) :=
          check_rules_loop items position_manager context now in
        ((rule_name, rule) :: items, position_manager, result)
      else
        let '(rule, position_manager, (passed, m)) :=
          check rule position_manager context now in
        let '(items, position_manager, (all_passed, messages)) :=
          check_rules_loop items position_manager context now in
        ((rule_name, rule) :: items, position_manager,
         if passed then (all_passed, messages)
         else (false, (rule_name, m) :: messages))
  end.

Definition check_rules (self : t) (position_manager : PositionManager.t)
    (context : PositionLimitRule.context) (now : datetime)
    : t * PositionManager.t * (bool * list (string * message)) :=
  let '(items, position_manager, result) :=
    check_rules_loop (rules self) position_manager context now in
  (mk items (check_interval_seconds self), position_manager, result).

(** What the manager hands to [event_processor.publish]: an ORDER_UPDATE
    carrying the order, or a RISK_CHECK carrying the dictionary of the
    failed check. *)
Inductive published :=
  | PublishedOrderUpdate (order : Order.t)
  | PublishedRiskCheck (order_id : option string)
      (messages : list (string * message)) (check_type : option string).

(** The handler on the order carried by the event; the order it returns is
    the event's order as the handler leaves it. *)
Definition _handle_order_update (self : t)
    (position_manager : PositionManager.t) (order : Order.t)
    (now : datetime)
    : t * PositionManager.t * Order.t * list published :=
  if bool_decide (Order.status order ≠ PENDING_NEW) then
    (self, position_manager, order, [])
  else
    let context := PositionLimitRule.mk_context (Some order) "order" in
    let '(self, position_manager, (passed, messages)) :=
      check_rules self position_manager context now in
    if negb passed then
      let order := Order.set_status REJECTED order in
      let order := Order.set_updated_at now order in
      (self, position_manager, order,
       [PublishedOrderUpdate order;
        PublishedRiskCheck (Some (Order.order_id order)) messages None])
    else (self, position_manager, order, []).

Definition _perform_periodic_check (self : t)
    (position_manager : PositionManager.t) (now : datetime)
    : t * PositionManager.t * list published :=
  let context := PositionLimitRule.mk_context None "periodic" in
  let '(self, position_manager, (passed, messages)) :=
    check_rules self position_manager context now in
  if negb passed then
    (self, position_manager,
     [PublishedRiskCheck None messages (Some "periodic")])
  else (self, position_manager, []).

End RiskManager.

(** ** The order object shared by the managers

    [submit_order] stores the caller's [Order] object in [orders] and
    publishes an ORDER_UPDATE carrying the same object.  When that event is
    dispatched, [OrderManager._handle_order_update], registered first, stores
    the object of the event, and [RiskManager._handle_order_update] then runs
    on the same object: the entry of the table is the object the risk manager
    assigns to.  What it assigns ([status], [updated_at]) therefore shows in
    the table at once, with no call to [_update_order_state]: the active set
    and the history stay as they were until the ORDER_UPDATE the risk manager
    publishes is handled in its turn. *)
Definition risk_handles_stored_order (risk_manager : RiskManager.t)
    (position_manager : PositionManager.t) (order_manager : OrderManager.t)
    (order_id : string) (now : datetime)
    : RiskManager.t * PositionManager.t * OrderManager.t
      * list RiskManager.published :=
  match OrderManager.orders order_manager !! order_id with
  | Some order =>
      let '(risk_manager, position_manager, order, published) :=
        RiskManager._handle_order_update risk_manager position_manager order
          now in
      (risk_manager, position_manager,
       OrderManager.set_orders
         (<[order_id := order]> (OrderManager.orders order_manager))
         order_manager,
       published)
  | None => (risk_manager, position_manager, order_manager, [])
  end.

(** * Properties *)

(** ** Comparisons of Python floats *)

Lemma PyFloat_eqb_true (x y : Q) : PyFloat.eqb x y = true ↔ (x == y)%Q.
Proof. apply Qeq_bool_iff. Qed.

Lemma PyFloat_eqb_false (x y : Q) : PyFloat.eqb x y = false ↔ ¬ (x == y)%Q.
Proof.
  rewrite <- PyFloat_eqb_true. destruct (PyFloat.eqb x y); split; congruence.
Qed.

Lemma PyFloat_leb_true (x y : Q) : PyFloat.leb x y = true ↔ (x <= y)%Q.
Proof. apply Qle_bool_iff. Qed.

Lemma PyFloat_leb_false (x y : Q) : PyFloat.leb x y = false ↔ (y < x)%Q.
Proof.
  pose proof (PyFloat_leb_true x y) as H.
  destruct (PyFloat.leb x y); split; intros H'; try congruence.
  - apply Qlt_not_le in H'. tauto.
  - apply Qnot_le_lt. intros Hle. apply H in Hle. congruence.
Qed.

Lemma PyFloat_ltb_true (x y : Q) : PyFloat.ltb x y = true ↔ (x < y)%Q.
Proof.
  unfold PyFloat.ltb. rewrite negb_true_iff. apply PyFloat_leb_false.
Qed.

Lemma PyFloat_ltb_false (x y : Q) : PyFloat.ltb x y = false ↔ (y <= x)%Q.
Proof.
  unfold PyFloat.ltb. rewrite negb_false_iff. apply PyFloat_leb_true.
Qed.

Lemma PyFloat_gtb_true (x y : Q) : PyFloat.gtb x y = true ↔ (y < x)%Q.
Proof. apply PyFloat_ltb_true. Qed.

Lemma PyFloat_gtb_false (x y : Q) : PyFloat.gtb x y = false ↔ (x <= y)%Q.
Proof. apply PyFloat_ltb_false. Qed.

Lemma PyFloat_geb_true (x y : Q) : PyFloat.geb x y = true ↔ (y <= x)%Q.
Proof. apply PyFloat_leb_true. Qed.


(** ** Position: mark-to-market *)

Section update_price.

Variables (self : Position.t) (new_price : Q).

Let q := Position.quantity self.
Let avg := Position.average_entry_price self.
Let marked := Position.update_price self new_price.

(** Mark-to-market never touches the quantity, the entry price or the
    realized P&L, and always records the price. *)
Lemma update_price_frame :
  Position.quantity marked = q
  ∧ Position.average_entry_price marked = avg
  ∧ Position.realized_pnl marked = Position.realized_pnl self
  ∧ Position.current_price marked = Some new_price.
Proof.
  subst marked q avg. unfold Position.update_price.
  destruct (PyFloat.eqb _ 0); [easy|]. cbn.
  destruct (PyFloat.gtb _ 0); easy.
Qed.

(** A long position is valued as the specification says. *)
Lemma update_price_long :
  (0 < q)%Q →
  Position.position_value marked = (q * new_price)%Q
  ∧ Position.unrealized_pnl marked = (q * (new_price - avg))%Q.
Proof.
  intros Hq. subst marked q avg. unfold Position.update_price.
  destruct (PyFloat.eqb _ 0) eqn:E.
  - apply PyFloat_eqb_true in E. rewrite E in Hq. inversion Hq.
  - cbn. apply PyFloat_gtb_true in Hq. rewrite Hq. easy.
Qed.

(** A short position has the two prices swapped while the quantity keeps
    its sign. *)
Lemma update_price_short :
  (q < 0)%Q →
  Position.position_value marked = (q * new_price)%Q
  ∧ Position.unrealized_pnl marked = (q * (avg - new_price))%Q.
Proof.
  intros Hq. subst marked q avg. unfold Position.update_price.
  destruct (PyFloat.eqb _ 0) eqn:E.
  - apply PyFloat_eqb_true in E. rewrite E in Hq. inversion Hq.
  - cbn. destruct (PyFloat.gtb _ 0) eqn:G; [|easy].
    apply PyFloat_gtb_true in G. lra.
Qed.

(** Hence on a short position the result is the opposite of the signed
    formula, and agrees with it only at the entry price. *)
Lemma update_price_short_opposite :
  (q < 0)%Q →
  (Position.unrealized_pnl marked == - (q * (new_price - avg)))%Q
  ∧ ((Position.unrealized_pnl marked == q * (new_price - avg))%Q
     ↔ (new_price == avg)%Q).
Proof.
  intros Hq. destruct (update_price_short Hq) as [_ ->]. split; [ring|].
  split; intros H.
  - assert (q * (new_price - avg) == 0)%Q as H0 by lra.
    apply Qmult_integral in H0 as [H0|H0]; lra.
  - rewrite H. ring.
Qed.

End update_price.

Definition short_5_at_100 : Position.t :=
  Position.mk "X" (-5) 100 None 0 0 0 0%Z [] ∅ None.

(** C1 (the implementation departs from it): marking the short position of
    -5 entered at 100 to the price 90 records the price and the value
    -5 × 90, but the unrealized P&L it stores is -50, not the
    q × (p − avg) = +50 of the signed formula. *)
Theorem update_price_short_diverges :
  let marked := Position.update_price short_5_at_100 90 in
  Position.current_price marked = Some 90%Q
  ∧ (Position.position_value marked == -5 * 90)%Q
  ∧ (Position.unrealized_pnl marked == -50)%Q
  ∧ ¬ (Position.unrealized_pnl marked
       == Position.quantity short_5_at_100
          * (90 - Position.average_entry_price short_5_at_100))%Q.
Proof.
  cbv zeta. repeat split; try reflexivity.
  intros H. vm_compute in H. discriminate H.
Qed.

(** The realized P&L of [apply_trade] has the other sign convention: buying
    back the same short position at 90 realizes a gain of 50, the position
    that was just marked to a loss of 50. *)
Example short_close_realizes_gain :
  let closed :=
    Position.apply_trade (Position.update_price short_5_at_100 90)
      (Trade.mk "T" "O" "X" 5 90 BUY 0%Z "" 0 "USD") in
  (Position.realized_pnl closed == 50)%Q
  ∧ (Position.quantity closed == 0)%Q.
Proof. cbv zeta. split; reflexivity. Qed.

(** ** Position: applying trades *)

Definition trade_of (side : OrderSide) (quantity price : Q) : Trade.t :=
  Trade.mk "T" "O" "X" quantity price side 0%Z "" 0 "USD".

(** C2: from flat, BUY 10 @ 100 then SELL 15 @ 110 realizes 100, leaves the
    position short 5 entered at 110, with no unrealized P&L at the mark 110. *)
Theorem long_flip_to_short_scenario :
  let flat := Position.new "X" 0%Z in
  let bought := Position.apply_trade flat (trade_of BUY 10 100) in
  let flipped := Position.apply_trade bought (trade_of SELL 15 110) in
  (Position.realized_pnl flipped == 100)%Q
  ∧ (Position.quantity flipped == -5)%Q
  ∧ (Position.average_entry_price flipped == 110)%Q
  ∧ (Position.unrealized_pnl flipped == 0)%Q
  ∧ Position.current_price flipped = Some 110%Q.
Proof. cbv zeta. repeat split; reflexivity. Qed.

(** ** Order manager: fills *)

(** The status the handler leaves on an order whose filled quantity has
    become [filled]. *)
Definition status_after_fill (order : Order.t) (filled : Q) : OrderStatus :=
  if PyFloat.ltb (Qabs (filled - Order.quantity order))
       OrderManager.fill_epsilon
  then FILLED
  else if PyFloat.gtb filled 0 then PARTIALLY_FILLED
  else Order.status order.

Section handle_trade_update.

Variables (self : OrderManager.t) (event : Event.t) (now : datetime).

Let result := OrderManager._handle_trade_update self event now.
Let self' := result.1.1.


Variable trade : Trade.t.
Hypothesis Hdata : Event.data event = DataTrade trade.



Variable order : Order.t.
Hypothesis Hknown :
  OrderManager.orders self !! Trade.order_id trade = Some order.

Let new_filled : Q :=
  (Order.filled_quantity order + Trade.quantity trade)%Q.

(** The order after a fill that does not divide by zero. *)
Lemma trade_update_known_order :
  Order.average_fill_price order = None ∨ ¬ (new_filled == 0)%Q →
  ∃ order',
    OrderManager.orders self' !! Trade.order_id trade = Some order'
    ∧ result.2 = Returned
    ∧ result.1.2 = [OrderManager.order_update_event order' now]
    ∧ Order.quantity order' = Order.quantity order
    ∧ Order.filled_quantity order' = new_filled
    ∧ Order.average_fill_price order'
      = Some
          match Order.average_fill_price order with
          | None => Trade.price trade
          | Some avg_old =>
              ((avg_old * (new_filled - Trade.quantity trade)
                + Trade.price trade * Trade.quantity trade) / new_filled)%Q
          end
    ∧ Order.status order' = status_after_fill order new_filled.
Proof.
  intros Hdiv. subst self' result new_filled.
  unfold OrderManager._handle_trade_update, status_after_fill.
  rewrite Hdata. cbn. rewrite Hknown.
  destruct (Order.average_fill_price order) as [avg_old|] eqn:Havg; cbn.
  - destruct Hdiv as [Hdiv|Hdiv]; [discriminate|].
    apply PyFloat_eqb_false in Hdiv. rewrite Hdiv.
    destruct (PyFloat.ltb _ _); [|destruct (PyFloat.gtb _ _)]; cbn;
      rewrite lookup_insert_eq; eexists; repeat split; reflexivity.
  - destruct (PyFloat.ltb _ _); [|destruct (PyFloat.gtb _ _)]; cbn;
      rewrite lookup_insert_eq; eexists; repeat split; reflexivity.
Qed.

End handle_trade_update.

(** The scenario: a LIMIT BUY of 10 @ 100 is submitted, then filled by the
    trades 3 @ 99 and 7 @ 101. *)
Definition limit_buy_10 : Order.t :=
  Order.mk "O" "X" LIMIT BUY 10 (Some 100%Q) None GTC "" 0%Z 0%Z PENDING_NEW 0
    None None None None ∅ ∅ None.

Definition trade_update_event (trade : Trade.t) : Event.t :=
  Event.mk TRADE_UPDATE 0%Z (DataTrade trade) "exchange" None None 1.

Definition after_submit : OrderManager.t :=
  (OrderManager.submit_order OrderManager.new limit_buy_10 None 1%Z).1.1.

Definition after_first_fill : OrderManager.t :=
  (OrderManager._handle_trade_update after_submit
     (trade_update_event (trade_of BUY 3 99)) 2%Z).1.1.

Definition after_second_fill : OrderManager.t :=
  (OrderManager._handle_trade_update after_first_fill
     (trade_update_event (trade_of BUY 7 101)) 3%Z).1.1.

(** The filled quantity, average fill price and status of an order. *)
Definition fill_state (o : option Order.t) (filled avg : Q)
    (status : OrderStatus) : Prop :=
  ∃ order avg_fill,
    o = Some order
    ∧ (Order.filled_quantity order == filled)%Q
    ∧ Order.average_fill_price order = Some avg_fill
    ∧ (avg_fill == avg)%Q
    ∧ Order.status order = status.

(** C3: a handled TRADE_UPDATE for a known order adds the trade's quantity to
    [filled_quantity] and sets [average_fill_price] to the trade's price when
    the order had none, and otherwise to the volume-weighted
    (avg_old × prev_filled + price × quantity) / new_filled with
    prev_filled = new_filled − quantity; and the LIMIT BUY of 10 filled by
    3 @ 99 then 7 @ 101 shows filled 3, average 99, PARTIALLY_FILLED, then
    filled 10, average 100.4, FILLED. *)
Theorem trade_update_average_fill_price :
  (∀ self event now trade order,
     Event.data event = DataTrade trade →
     OrderManager.orders self !! Trade.order_id trade = Some order →
     let new_filled :=
       (Order.filled_quantity order + Trade.quantity trade)%Q in
     let prev_filled := (new_filled - Trade.quantity trade)%Q in
     Order.average_fill_price order = None ∨ ¬ (new_filled == 0)%Q →
     ∃ order',
       OrderManager.get_order
         (OrderManager._handle_trade_update self event now).1.1
         (Trade.order_id trade) = Some order'
       ∧ Order.filled_quantity order' = new_filled
       ∧ Order.average_fill_price order'
         = match Order.average_fill_price order with
           | None => Some (Trade.price trade)
           | Some avg_old =>
               Some ((avg_old * prev_filled
                      + Trade.price trade * Trade.quantity trade)
                     / new_filled)%Q
           end
       ∧ ((Order.filled_quantity order == 0)%Q →
          ∃ avg_new,
            Order.average_fill_price order' = Some avg_new
            ∧ (avg_new == Trade.price trade)%Q))
  ∧ fill_state (OrderManager.get_order after_first_fill "O")
      3 99 PARTIALLY_FILLED
  ∧ fill_state (OrderManager.get_order after_second_fill "O")
      10 100.4 FILLED.
Proof.
  split; [|split].
  - intros self event now trade order Hdata Hknown new_filled prev_filled Hdiv.
    destruct (trade_update_known_order self event now trade Hdata order
                Hknown Hdiv)
      as (order' & Hget & _ & _ & _ & Hfilled & Havg & _).
    exists order'. split; [exact Hget|]. split; [exact Hfilled|].
    rewrite Havg. split; [by destruct (Order.average_fill_price order)|].
    intros Hnone. eexists. split; [reflexivity|].
    destruct (Order.average_fill_price order) as [avg_old|];
      [|reflexivity].
    destruct Hdiv as [Hdiv|Hdiv]; [discriminate|].
    subst new_filled. rewrite Hnone in Hdiv |- *. field.
    intros Hq. apply Hdiv. rewrite Hq. reflexivity.
  - eexists _, _. split; [vm_compute; reflexivity|].
    repeat split; reflexivity.
  - eexists _, _. split; [vm_compute; reflexivity|].
    repeat split; reflexivity.
Qed.

(** The general part of the statement at the second fill of the scenario. *)
Lemma trade_update_average_fill_price_witness :
  ∃ order',
    OrderManager.get_order after_second_fill "O" = Some order'
    ∧ Order.filled_quantity order' = (3 + 7)%Q
    ∧ Order.average_fill_price order'
      = Some ((99 * (3 + 7 - 7) + 101 * 7) / (3 + 7))%Q
    ∧ ((3 == 0)%Q →
       ∃ avg_new,
         Order.average_fill_price order' = Some avg_new
         ∧ (avg_new == 101)%Q).
Proof.
  pose proof (proj1 trade_update_average_fill_price after_first_fill
                (trade_update_event (trade_of BUY 7 101)) 3%Z
                (trade_of BUY 7 101)) as H.
  destruct (OrderManager.get_order after_first_fill "O") as [order|] eqn:E;
    [|vm_compute in E; discriminate E].
  specialize (H order eq_refl E).
  vm_compute in E. injection E as <-.
  apply H. right. intros H0. vm_compute in H0. discriminate H0.
Defined.

(** ** Order manager: the bound on the filled quantity *)



(** The operations of the manager: its public calls and its two handlers. *)
Inductive operation :=
  | SubmitOrder (order : Order.t) (callback : option OrderManager.callback)
  | CancelOrder (order_id : string)
  | ModifyOrder (order_id : string) (price quantity : option Q)
  | OrderUpdate (event : Event.t)
  | TradeUpdate (event : Event.t).

Definition run_operation (self : OrderManager.t) (op : operation)
    (now : datetime) : OrderManager.t :=
  match op with
  | SubmitOrder order callback =>
      (OrderManager.submit_order self order callback now).1.1
  | CancelOrder order_id => (OrderManager.cancel_order self order_id now).1.1
  | ModifyOrder order_id price quantity =>
      (OrderManager.modify_order self order_id price quantity now).1.1
  | OrderUpdate event => (OrderManager._handle_order_update self event).1
  | TradeUpdate event =>
      (OrderManager._handle_trade_update self event now).1.1
  end.


Fixpoint run_operations (self : OrderManager.t)
    (ops : list (operation * datetime)) : OrderManager.t :=
  match ops with
  | [] => self
  | (op, now) :: ops => run_operations (run_operation self op now) ops
  end.


Lemma orders_update_order_state (self : OrderManager.t) (order : Order.t) :
  OrderManager.orders (OrderManager._update_order_state self order)
  = <[Order.order_id order := order]> (OrderManager.orders self).
Proof.
  unfold OrderManager._update_order_state.
  by destruct (Order.is_active order).
Qed.












(** ** Order manager: refused cancel and modify requests *)

(** The three ways a request on [order_id] (asking for the new quantity
    [quantity], if any) violates its precondition. *)
Inductive precondition_violation (self : OrderManager.t) (order_id : string)
    : option Q → Prop :=
  | UnknownOrder quantity :
      OrderManager.orders self !! order_id = None →
      precondition_violation self order_id quantity
  | NotOpen quantity order :
      OrderManager.orders self !! order_id = Some order →
      Order.status order ≠ NEW →
      Order.status order ≠ PARTIALLY_FILLED →
      precondition_violation self order_id quantity
  | BelowFilled order q :
      OrderManager.orders self !! order_id = Some order →
      Order.status order = PARTIALLY_FILLED →
      (q < Order.filled_quantity order)%Q →
      precondition_violation self order_id (Some q).

Lemma not_cancellable (status : OrderStatus) :
  status ≠ NEW → status ≠ PARTIALLY_FILLED →
  OrderManager.cancellable status = false.
Proof. by destruct status. Qed.

(** C8: a cancel or modify request whose precondition fails (unknown order,
    status other than NEW and PARTIALLY_FILLED, or for modify a quantity
    below the fills of a PARTIALLY_FILLED order) returns false, leaves the
    whole manager (order table, active set, history) as it was and publishes
    nothing. *)
Theorem refused_request_is_noop (self : OrderManager.t) (order_id : string)
    (price quantity : option Q) (now : datetime) :
  (precondition_violation self order_id None →
   OrderManager.cancel_order self order_id now = (self, false, []))
  ∧ (precondition_violation self order_id quantity →
     OrderManager.modify_order self order_id price quantity now
     = (self, false, [])).
Proof.
  split; intros Hv.
  - unfold OrderManager.cancel_order.
    inversion Hv as [? Hnone|? order Hsome Hnew Hpart|]; subst.
    + by rewrite Hnone.
    + rewrite Hsome, (not_cancellable _ Hnew Hpart).
      by destruct (bool_decide _).
  - unfold OrderManager.modify_order.
    inversion Hv as [? Hnone|? order Hsome Hnew Hpart
                    |order q Hsome Hstatus Hlt]; subst.
    + by rewrite Hnone.
    + rewrite Hsome, (not_cancellable _ Hnew Hpart).
      by destruct (bool_decide _).
    + rewrite Hsome, Hstatus. cbn.
      apply PyFloat_ltb_true in Hlt. rewrite Hlt.
      by destruct (bool_decide _).
Qed.

(** Cancelling the order of the scenario once it is FILLED. *)
Lemma refused_request_is_noop_witness :
  OrderManager.cancel_order after_second_fill "O" 4%Z
  = (after_second_fill, false, [])
  ∧ OrderManager.modify_order after_second_fill "O" None (Some 20%Q) 4%Z
    = (after_second_fill, false, []).
Proof.
  assert (∃ order,
            OrderManager.orders after_second_fill !! "O" = Some order
            ∧ Order.status order = FILLED) as (order & Hget & Hstatus).
  { eexists. split; [vm_compute; reflexivity|reflexivity]. }
  assert (∀ quantity, precondition_violation after_second_fill "O" quantity)
    as Hv.
  { intros quantity. apply (NotOpen _ _ _ order Hget);
      rewrite Hstatus; discriminate. }
  split; apply (refused_request_is_noop _ _ None (Some 20%Q) 4%Z), Hv.
Defined.

(** On a PARTIALLY_FILLED order, [modify_order] refuses a quantity below the
    fills. *)
Example modify_below_filled_refused :
  OrderManager.modify_order after_first_fill "O" None (Some 2%Q) 4%Z
  = (after_first_fill, false, []).
Proof. reflexivity. Qed.

(** ** Position manager *)

Lemma filter_length_Permutation {A} (f : A → bool) (l l' : list A) :
  l ≡ₚ l' → length (List.filter f l) = length (List.filter f l').
Proof.
  induction 1 as [|x l l' _ IH|x y l|l l' l'' _ IH _ IH']; cbn.
  - reflexivity.
  - destruct (f x); cbn; congruence.
  - destruct (f x), (f y); reflexivity.
  - congruence.
Qed.

Lemma get_all_positions_insert (self : PositionManager.t)
    (instrument_id : string) (position : Position.t) :
  PositionManager.positions self !! instrument_id = None →
  PositionManager.get_all_positions
    (PositionManager.set_positions
       (<[instrument_id := position]> (PositionManager.positions self)) self)
  ≡ₚ position :: PositionManager.get_all_positions self.
Proof.
  intros Hnone. unfold PositionManager.get_all_positions. cbn.
  by rewrite map_to_list_insert.
Qed.

Section get_position.

Variables (self : PositionManager.t) (instrument_id : string)
  (now : datetime).

Let position := (PositionManager.get_position self instrument_id now).1.
Let self' := (PositionManager.get_position self instrument_id now).2.

(** A known instrument is only read. *)
Lemma get_position_known (p : Position.t) :
  PositionManager.positions self !! instrument_id = Some p →
  position = p ∧ self' = self.
Proof.
  intros H. subst position self'. unfold PositionManager.get_position.
  by rewrite H.
Qed.

Hypothesis Hmissing : PositionManager.positions self !! instrument_id = None.

Lemma get_position_missing :
  position = Position.new instrument_id now
  ∧ PositionManager.positions self'
    = <[instrument_id := position]> (PositionManager.positions self).
Proof.
  subst position self'. unfold PositionManager.get_position.
  by rewrite Hmissing.
Qed.

Lemma get_position_statistics_missing :
  position ∈ PositionManager.get_all_positions self'
  ∧ PositionManager.position_count
      (PositionManager.get_position_statistics self')
    = (PositionManager.position_count
         (PositionManager.get_position_statistics self) + 1)%Z
  ∧ PositionManager.flat_positions
      (PositionManager.get_position_statistics self')
    = (PositionManager.flat_positions
         (PositionManager.get_position_statistics self) + 1)%Z.
Proof.
  pose proof (get_all_positions_insert self instrument_id
                (Position.new instrument_id now) Hmissing) as Hperm.
  subst position self'. unfold PositionManager.get_position.
  rewrite Hmissing. cbn [fst snd]. split; [|split].
  - rewrite Hperm. apply list_elem_of_here.
  - unfold PositionManager.get_position_statistics.
    cbn [PositionManager.position_count PositionManager.positions
         PositionManager.set_positions].
    rewrite map_size_insert_None by exact Hmissing.
    apply Nat2Z.inj_succ.
  - unfold PositionManager.get_position_statistics.
    cbn [PositionManager.flat_positions]. unfold PositionManager.count_if.
    rewrite (filter_length_Permutation _ _ _ Hperm). cbn [List.filter].
    change (PositionManager.is_flat (Position.new instrument_id now))
      with true.
    apply Nat2Z.inj_succ.
Qed.

End get_position.

(** ** Risk manager: the position limit rule *)

(** The current signed position on an instrument: that of its entry in the
    position table, and flat when it has none yet. *)
Definition current_quantity (position_manager : PositionManager.t)
    (instrument_id : string) : Q :=
  match PositionManager.positions position_manager !! instrument_id with
  | Some position => Position.quantity position
  | None => 0
  end.

Lemma get_position_quantity position_manager instrument_id now :
  Position.quantity
    (PositionManager.get_position position_manager instrument_id now).1
  = current_quantity position_manager instrument_id.
Proof.
  unfold PositionManager.get_position, current_quantity.
  by destruct (PositionManager.positions position_manager !! instrument_id).
Qed.

(** The prospective magnitude of the position once the order is applied. *)
Definition prospective_position (q : Q) (order : Order.t) : Q :=
  match Order.side order with
  | BUY => Qabs (q + Order.quantity order)
  | SELL => Qabs (q - Order.quantity order)
  end.

Section position_limit_check.

Variables (self : PositionLimitRule.t)
  (position_manager : PositionManager.t)
  (context : PositionLimitRule.context) (now : datetime).

Let result := PositionLimitRule.check self position_manager context now.
Let passed : bool := result.2.1.
Let instrument := PositionLimitRule.instrument_id self.
Let q := current_quantity position_manager instrument.

(** The position manager as [check] leaves it when it reaches the position
    lookup. *)
Lemma check_position_manager :
  (∀ order, PositionLimitRule.order context = Some order →
            Order.instrument_id order = instrument) →
  result.1.2
  = (PositionManager.get_position position_manager instrument now).2.
Proof.
  intros Happ. subst result instrument. unfold PositionLimitRule.check.
  destruct (PositionLimitRule.order context) as [order|].
  - rewrite bool_decide_eq_false_2 by (specialize (Happ _ eq_refl); tauto).
    cbn. destruct (PositionManager.get_position _ _ _) as [p pm'].
    destruct (Order.side order); destruct (PyFloat.gtb _ _); reflexivity.
  - cbn. destruct (PositionManager.get_position _ _ _) as [p pm'].
    destruct (PyFloat.gtb _ _); reflexivity.
Qed.

Lemma check_other_instrument (order : Order.t) :
  PositionLimitRule.order context = Some order →
  Order.instrument_id order ≠ instrument →
  result
  = (PositionLimitRule.set_last_check_time now self, position_manager,
     (true, PositionLimitRule.NotApplicable)).
Proof.
  intros Ho Hne. subst result instrument. unfold PositionLimitRule.check.
  rewrite Ho. by rewrite bool_decide_eq_true_2.
Qed.

Lemma check_order (order : Order.t) :
  PositionLimitRule.order context = Some order →
  Order.instrument_id order = instrument →
  passed
  = negb (PyFloat.gtb (prospective_position q order)
            (PositionLimitRule.max_position self)).
Proof.
  intros Ho Heq. subst passed result q instrument.
  unfold PositionLimitRule.check, prospective_position.
  rewrite Ho. rewrite bool_decide_eq_false_2 by tauto. cbn.
  rewrite <- (get_position_quantity position_manager _ now).
  destruct (PositionManager.get_position _ _ _) as [p pm']. cbn.
  destruct (Order.side order); destruct (PyFloat.gtb _ _); reflexivity.
Qed.

Lemma check_periodic :
  PositionLimitRule.order context = None →
  passed = negb (PyFloat.gtb (Qabs q) (PositionLimitRule.max_position self)).
Proof.
  intros Ho. subst passed result q instrument.
  unfold PositionLimitRule.check. rewrite Ho. cbn.
  rewrite <- (get_position_quantity position_manager _ now).
  destruct (PositionManager.get_position _ _ _) as [p pm']. cbn.
  destruct (PyFloat.gtb _ _); reflexivity.
Qed.

End position_limit_check.

Lemma negb_gtb_false (x y : Q) :
  negb (PyFloat.gtb x y) = false ↔ (y < x)%Q.
Proof. rewrite negb_false_iff. apply PyFloat_gtb_true. Qed.

(** C9: [PositionLimitRule.check] passes an order on another instrument; for
    an order on the rule's instrument it fails exactly when |q + quantity|
    (BUY) or |q − quantity| (SELL) exceeds [max_position], q being the
    current signed position; without an order it fails exactly when |q|
    exceeds [max_position]. *)
Theorem position_limit_rule_check (self : PositionLimitRule.t)
    (position_manager : PositionManager.t)
    (context : PositionLimitRule.context) (now : datetime) :
  let passed :=
    (PositionLimitRule.check self position_manager context now).2.1 in
  let q :=
    current_quantity position_manager (PositionLimitRule.instrument_id self) in
  let max_position := PositionLimitRule.max_position self in
  (∀ order,
     PositionLimitRule.order context = Some order →
     Order.instrument_id order ≠ PositionLimitRule.instrument_id self →
     passed = true)
  ∧ (∀ order,
       PositionLimitRule.order context = Some order →
       Order.instrument_id order = PositionLimitRule.instrument_id self →
       (Order.side order = BUY →
        passed = false ↔ (max_position < Qabs (q + Order.quantity order))%Q)
       ∧ (Order.side order = SELL →
          passed = false
          ↔ (max_position < Qabs (q - Order.quantity order))%Q))
  ∧ (PositionLimitRule.order context = None →
     passed = false ↔ (max_position < Qabs q)%Q).
Proof.
  cbv zeta. split; [|split].
  - intros order Ho Hne.
    by rewrite (check_other_instrument self position_manager context now
                  order Ho Hne).
  - intros order Ho Heq.
    rewrite (check_order self position_manager context now order Ho Heq).
    unfold prospective_position.
    split; intros ->; apply negb_gtb_false.
  - intros Ho.
    rewrite (check_periodic self position_manager context now Ho).
    apply negb_gtb_false.
Qed.

(** The rule of the rejection scenario: at most 5 on "X", the position being
    4 long. *)
Definition limit_5_on_X : PositionLimitRule.t :=
  PositionLimitRule.mk "Position limit for X" true 0 0%Z "X" 5.

Definition long_4_on_X : PositionManager.t :=
  PositionManager.mk
    (<["X" := Position.mk "X" 4 100 None 0 0 0 0%Z [] ∅ None]> ∅) 0 0.

Definition market_order (instrument_id : string) (side : OrderSide)
    (quantity : Q) : Order.t :=
  Order.mk "M" instrument_id MARKET side quantity None None GTC "" 0%Z 0%Z
    PENDING_NEW 0 None None None None ∅ ∅ None.

(** BUY 2 on "X" is refused (|4 + 2| > 5), SELL 2 passes, an order on "Y"
    passes, and the periodic check passes (|4| ≤ 5). *)
Lemma position_limit_rule_check_witness :
  (PositionLimitRule.check limit_5_on_X long_4_on_X
     (PositionLimitRule.mk_context (Some (market_order "X" BUY 2)) "order")
     1%Z).2.1 = false
  ∧ (PositionLimitRule.check limit_5_on_X long_4_on_X
       (PositionLimitRule.mk_context (Some (market_order "Y" BUY 2)) "order")
       1%Z).2.1 = true
  ∧ ¬ (PositionLimitRule.check limit_5_on_X long_4_on_X
         (PositionLimitRule.mk_context None "periodic") 1%Z).2.1 = false.
Proof.
  split; [|split].
  - pose proof
      (proj1 (proj2 (position_limit_rule_check limit_5_on_X long_4_on_X
                       (PositionLimitRule.mk_context
                          (Some (market_order "X" BUY 2)) "order") 1%Z))
         (market_order "X" BUY 2) eq_refl eq_refl) as [Hbuy _].
    apply (Hbuy eq_refl). vm_compute. reflexivity.
  - apply (proj1 (position_limit_rule_check limit_5_on_X long_4_on_X
                    (PositionLimitRule.mk_context
                       (Some (market_order "Y" BUY 2)) "order") 1%Z)
             (market_order "Y" BUY 2) eq_refl).
    vm_compute. discriminate.
  - intros H.
    apply (proj2 (proj2 (position_limit_rule_check limit_5_on_X long_4_on_X
                           (PositionLimitRule.mk_context None "periodic")
                           1%Z)) eq_refl) in H.
    vm_compute in H. discriminate H.
Defined.

(** C10: for an instrument missing from the table, [get_position] returns a
    fresh flat position (quantity, average entry price and realized P&L all
    0) and inserts it, every other entry staying as it was; hence a
    [PositionLimitRule.check] that reaches the lookup, on an instrument that
    never traded, leaves an entry that [get_all_positions] lists and
    [get_position_statistics] counts (as one more position, and flat). *)
Theorem get_position_creates_entry (self : PositionManager.t)
    (instrument_id : string) (now : datetime) :
  PositionManager.positions self !! instrument_id = None →
  let position := (PositionManager.get_position self instrument_id now).1 in
  let self' := (PositionManager.get_position self instrument_id now).2 in
  (Position.instrument_id position = instrument_id
   ∧ Position.quantity position = 0%Q
   ∧ Position.average_entry_price position = 0%Q
   ∧ Position.realized_pnl position = 0%Q)
  ∧ PositionManager.positions self' !! instrument_id = Some position
  ∧ (∀ other, other ≠ instrument_id →
       PositionManager.positions self' !! other
       = PositionManager.positions self !! other)
  ∧ (∀ (rule : PositionLimitRule.t) (context : PositionLimitRule.context),
       PositionLimitRule.instrument_id rule = instrument_id →
       (∀ order, PositionLimitRule.order context = Some order →
                 Order.instrument_id order = instrument_id) →
       let checked :=
         (PositionLimitRule.check rule self context now).1.2 in
       PositionManager.positions checked !! instrument_id = Some position
       ∧ position ∈ PositionManager.get_all_positions checked
       ∧ PositionManager.position_count
           (PositionManager.get_position_statistics checked)
         = (PositionManager.position_count
              (PositionManager.get_position_statistics self) + 1)%Z
       ∧ PositionManager.flat_positions
           (PositionManager.get_position_statistics checked)
         = (PositionManager.flat_positions
              (PositionManager.get_position_statistics self) + 1)%Z).
Proof.
  intros Hmissing position self'.
  destruct (get_position_missing self instrument_id now Hmissing)
    as [Hnew Hmap].
  fold position in Hnew. fold self' in Hmap.
  split; [by rewrite Hnew|].
  split; [rewrite Hmap; apply lookup_insert_eq|].
  split; [intros other Hne; rewrite Hmap; by apply lookup_insert_ne|].
  intros rule context Hrule Happ checked.
  assert (checked = self') as ->.
  { subst checked self'. rewrite <- Hrule.
    apply check_position_manager. by rewrite Hrule. }
  split; [rewrite Hmap; apply lookup_insert_eq|].
  exact (get_position_statistics_missing self instrument_id now Hmissing).
Qed.

(** The periodic check of the limit on "X" against an empty table. *)
Lemma get_position_creates_entry_witness :
  PositionManager.positions
    (PositionLimitRule.check limit_5_on_X PositionManager.new
       (PositionLimitRule.mk_context None "periodic") 1%Z).1.2 !! "X"
  = Some (Position.new "X" 1%Z)
  ∧ PositionManager.position_count
      (PositionManager.get_position_statistics
         (PositionLimitRule.check limit_5_on_X PositionManager.new
            (PositionLimitRule.mk_context None "periodic") 1%Z).1.2)
    = 1%Z.
Proof.
  pose proof (get_position_creates_entry PositionManager.new "X" 1%Z
                (lookup_empty _)) as (_ & _ & _ & H).
  specialize (H limit_5_on_X (PositionLimitRule.mk_context None "periodic")
                eq_refl).
  destruct H as (Hget & _ & Hcount & _); [discriminate|].
  split; [exact Hget|exact Hcount].
Defined.

(** ** Event processor: a full queue *)

(** [put] never raises [QueueFull], so the [except asyncio.QueueFull] branch
    of [publish] is never taken. *)
Lemma put_never_raises (q : EventProcessor.PriorityQueue)
    (item : Z * Q * Event.t) :
  EventProcessor.put q item ≠ EventProcessor.PutQueueFull.
Proof. unfold EventProcessor.put. by destruct (EventProcessor.full q). Qed.

Lemma put_full (q : EventProcessor.PriorityQueue) (item : Z * Q * Event.t) :
  EventProcessor.full q = true →
  EventProcessor.put q item = EventProcessor.PutWaits.
Proof. intros H. unfold EventProcessor.put. by rewrite H. Qed.

(** C4 (the implementation departs from it): with the queue at capacity and
    no throttle on the event's type, [publish] neither drops the event nor
    counts it nor returns false: the call stays suspended in
    [event_queue.put], the processor unchanged. *)
Theorem publish_on_full_queue_suspends (self : EventProcessor.t)
    (event : Event.t) (now : Q) (utcnow : datetime) :
  EventProcessor.full (EventProcessor.event_queue self) = true →
  EventProcessor.throttle_levels self !! Event.event_type event = None →
  EventProcessor.publish self event now utcnow
  = (self, EventProcessor.Suspended).
Proof.
  intros Hfull Hnone.
  unfold EventProcessor.publish, EventProcessor.publish_enqueue.
  rewrite Hnone. by rewrite (put_full _ _ Hfull).
Qed.

(** A processor whose queue of capacity 1 holds one event. *)
Definition system_event : Event.t :=
  Event.mk SYSTEM_EVENT 0%Z (DataOther "heartbeat") "engine" None None 3.

Definition full_processor : EventProcessor.t :=
  (EventProcessor.publish (EventProcessor.new 1 0) system_event 0 0%Z).1.

Lemma publish_on_full_queue_suspends_witness :
  EventProcessor.publish full_processor system_event 1 1%Z
  = (full_processor, EventProcessor.Suspended)
  ∧ EventProcessor.dropped_events_count full_processor = 0%Z.
Proof.
  split; [|reflexivity].
  apply publish_on_full_queue_suspends; reflexivity.
Defined.

(** ** Event processor: sequenced events *)

(** The number of the next event expected from a source, and the events of
    the source held back. *)
Definition expected_seq (self : EventProcessor.t) (source : string) : Z :=
  default 0%Z (EventProcessor.sequence_counters self !! source).

Definition buffered (self : EventProcessor.t) (source : string)
    : gmap Z Event.t :=
  default ∅ (EventProcessor.pending_events self !! source).

Lemma defaultdict_get_value `{Countable K} {V} (d : V) (k : K)
    (m : gmap K V) :
  (defaultdict_get d k m).1 = default d (m !! k).
Proof. unfold defaultdict_get. by destruct (m !! k). Qed.

Lemma defaultdict_get_lookup `{Countable K} {V} (d : V) (k : K)
    (m : gmap K V) :
  (defaultdict_get d k m).2 !! k = Some (default d (m !! k)).
Proof.
  unfold defaultdict_get. destruct (m !! k) eqn:E; cbn; [done|].
  apply lookup_insert_eq.
Qed.

Lemma process_event_frame (self : EventProcessor.t) (event : Event.t) :
  EventProcessor.sequence_counters (EventProcessor._process_event self event)
  = EventProcessor.sequence_counters self
  ∧ EventProcessor.pending_events (EventProcessor._process_event self event)
    = EventProcessor.pending_events self.
Proof.
  unfold EventProcessor._process_event.
  by destruct (EventProcessor.handlers self !! Event.event_type event).
Qed.

(** With as many turns as there are buffered events (and one more), the
    draining loop stops because its condition fails: the event expected next
    is not in the buffer. *)
Lemma drain_pending_complete (turns : nat) (self : EventProcessor.t)
    (source : string) (next_seq : Z) :
  size (buffered self source) < turns →
  EventProcessor.sequence_counters self !! source = Some next_seq →
  let drained := EventProcessor.drain_pending turns self source next_seq in
  buffered drained source !! expected_seq drained source = None.
Proof.
  revert self next_seq.
  induction turns as [|turns IH]; intros self next_seq Hsize Hcounter;
    [lia|].
  cbn [EventProcessor.drain_pending].
  pose proof (defaultdict_get_value ∅ source
                (EventProcessor.pending_events self)) as Hvalue.
  pose proof (defaultdict_get_lookup ∅ source
                (EventProcessor.pending_events self)) as Hlookup.
  destruct (defaultdict_get ∅ source (EventProcessor.pending_events self))
    as [held pending]. cbn [fst snd] in Hvalue, Hlookup.
  fold (buffered self source) in Hvalue, Hlookup. subst held.
  destruct (buffered self source !! next_seq) as [pending_event|] eqn:Hnext.
  - pose proof (process_event_frame
                  (EventProcessor.set_pending_events
                     (<[source := delete next_seq (buffered self source)]>
                        (EventProcessor.pending_events
                           (EventProcessor.set_pending_events pending self)))
                     (EventProcessor.set_pending_events pending self))
                  pending_event) as [Hc Hp].
    cbn [EventProcessor.pending_events EventProcessor.set_pending_events
         EventProcessor.sequence_counters] in Hc, Hp.
    cbn [EventProcessor.pending_events EventProcessor.set_pending_events].
    rewrite Hc. unfold defaultdict_get. rewrite Hcounter.
    apply IH.
    + unfold buffered at 1.
      cbn [EventProcessor.pending_events
           EventProcessor.set_sequence_counters].
      rewrite Hp, lookup_insert_eq. cbn [default].
      unfold id. rewrite map_size_delete_Some by eauto.
      assert (size (buffered self source) ≠ 0) as Hsome.
      { apply map_size_non_empty_iff. intros Hempty.
        rewrite Hempty in Hnext. by rewrite lookup_empty in Hnext. }
      lia.
    + cbn [EventProcessor.sequence_counters
           EventProcessor.set_sequence_counters].
      apply lookup_insert_eq.
  - unfold buffered at 1, expected_seq.
    cbn [EventProcessor.pending_events EventProcessor.set_pending_events
         EventProcessor.sequence_counters].
    rewrite Hlookup, Hcounter. exact Hnext.
Qed.

Section handle_sequenced_event.

Variables (self : EventProcessor.t) (event : Event.t).

Let source := Event.source event.
Let turned := EventProcessor.event_loop_turn self event.

(** An event without a sequence number goes straight to the handlers. *)
Lemma unsequenced_event_delivered :
  Event.sequence_id event = None →
  turned = EventProcessor._process_event self event.
Proof.
  intros H. subst turned.
  unfold EventProcessor.event_loop_turn,
    EventProcessor._handle_sequenced_event.
  by rewrite H.
Qed.

Variable sequence_id : Z.
Hypothesis Hseq : Event.sequence_id event = Some sequence_id.

(** An event ahead of the expected number is buffered and reaches no
    handler. *)
Lemma early_event_buffered :
  (expected_seq self source < sequence_id)%Z →
  EventProcessor.handler_calls turned = EventProcessor.handler_calls self
  ∧ buffered turned source
    = <[sequence_id := event]> (buffered self source)
  ∧ expected_seq turned source = expected_seq self source.
Proof.
  intros Hlt. subst turned source.
  unfold EventProcessor.event_loop_turn,
    EventProcessor._handle_sequenced_event, expected_seq, buffered in *.
  rewrite Hseq. unfold defaultdict_get.
  destruct (EventProcessor.sequence_counters self !! Event.source event)
    as [n|] eqn:Hn; simpl in Hlt;
    cbn [EventProcessor.sequence_counters
         EventProcessor.set_sequence_counters];
    (rewrite (proj2 (Z.eqb_neq _ _)) by lia);
    (replace (sequence_id >? _)%Z with true by (symmetry; lia));
    cbn [EventProcessor.pending_events
         EventProcessor.set_sequence_counters];
    destruct (EventProcessor.pending_events self !! Event.source event);
    cbn; rewrite ?lookup_insert_eq, ?Hn; done.
Qed.

(** An event behind the expected number is dropped: no handler sees it and
    nothing is buffered. *)
Lemma late_event_dropped :
  (sequence_id < expected_seq self source)%Z →
  EventProcessor.handler_calls turned = EventProcessor.handler_calls self
  ∧ EventProcessor.pending_events turned
    = EventProcessor.pending_events self
  ∧ expected_seq turned source = expected_seq self source.
Proof.
  intros Hlt. subst turned source.
  unfold EventProcessor.event_loop_turn,
    EventProcessor._handle_sequenced_event, expected_seq in *.
  rewrite Hseq. unfold defaultdict_get.
  destruct (EventProcessor.sequence_counters self !! Event.source event)
    as [n|] eqn:Hn; simpl in Hlt;
    cbn [EventProcessor.sequence_counters
         EventProcessor.set_sequence_counters];
    (rewrite (proj2 (Z.eqb_neq _ _)) by lia);
    (replace (sequence_id >? _)%Z with false by (symmetry; lia));
    cbn; rewrite ?lookup_insert_eq, ?Hn; done.
Qed.

(** The expected event: the buffered successors are handed to the handlers
    by the draining loop, inside [_handle_sequenced_event]; the event
    itself is processed by the loop's turn only after that call
    returned. *)
Lemma expected_event_after_successors :
  sequence_id = expected_seq self source →
  ∃ drained,
    (EventProcessor._handle_sequenced_event self event).1 = drained
    ∧ turned = EventProcessor._process_event drained event
    ∧ buffered drained source !! expected_seq drained source = None.
Proof.
  intros Heq. subst turned source.
  unfold EventProcessor.event_loop_turn,
    EventProcessor._handle_sequenced_event.
  rewrite Hseq.
  pose proof (defaultdict_get_value 0%Z (Event.source event)
                (EventProcessor.sequence_counters self)) as Hvalue.
  destruct (defaultdict_get 0%Z (Event.source event)
              (EventProcessor.sequence_counters self))
    as [expected counters]. cbn [fst] in Hvalue.
  fold (expected_seq self (Event.source event)) in Hvalue.
  rewrite <- Heq in Hvalue. subst expected.
  rewrite Z.eqb_refl. eexists. split; [reflexivity|].
  split; [reflexivity|]. cbn [fst].
  apply drain_pending_complete.
  - cbn [EventProcessor.pending_events EventProcessor.set_sequence_counters].
    unfold buffered.
    cbn [EventProcessor.pending_events EventProcessor.set_sequence_counters].
    lia.
  - cbn [EventProcessor.sequence_counters
         EventProcessor.set_sequence_counters].
    apply lookup_insert_eq.
Qed.

End handle_sequenced_event.

(** Events of the source "S", and a processor with one MARKET_DATA
    handler. *)
Definition sequenced (sequence_id : Z) : Event.t :=
  Event.mk MARKET_DATA 0%Z (DataOther "quote") "S" None (Some sequence_id) 1.

Definition one_handler : EventProcessor.t :=
  EventProcessor.add_handler (EventProcessor.new 10000 0) MARKET_DATA 1%nat.

(** C6 (the implementation departs from it): the events of source "S"
    dequeued with the sequence numbers 0, 2, 1 reach the handler in the order
    0, 2, 1, not 0, 1, 2: when 1 arrives, the buffered 2 is handed over by
    the draining loop before 1 itself is processed. *)
Theorem sequence_0_2_1_delivered_as_0_2_1 :
  EventProcessor.delivered_sequence_ids
    (EventProcessor.event_loop one_handler
       [sequenced 0; sequenced 2; sequenced 1])
  = [Some 0%Z; Some 2%Z; Some 1%Z]
  ∧ EventProcessor.delivered_sequence_ids
      (EventProcessor.event_loop one_handler [sequenced 0; sequenced 2])
    = [Some 0%Z]
  ∧ EventProcessor.delivered_sequence_ids
      (EventProcessor.event_loop one_handler
         [sequenced 0; sequenced 2; sequenced 1])
    ≠ [Some 0%Z; Some 1%Z; Some 2%Z].
Proof.
  assert (EventProcessor.delivered_sequence_ids
            (EventProcessor.event_loop one_handler
               [sequenced 0; sequenced 2; sequenced 1])
          = [Some 0%Z; Some 2%Z; Some 1%Z]) as H
    by (vm_compute; reflexivity).
  split; [exact H|]. split; [vm_compute; reflexivity|].
  rewrite H. discriminate.
Qed.

(** Arrivals in order are delivered in order. *)
Example sequence_0_1_2_in_order :
  EventProcessor.delivered_sequence_ids
    (EventProcessor.event_loop one_handler
       [sequenced 0; sequenced 1; sequenced 2])
  = [Some 0%Z; Some 1%Z; Some 2%Z].
Proof. vm_compute. reflexivity. Qed.

(** ** Event processor: throttling *)

(** A series of [publish] calls, each with its event and clock readings; a
    call that stays suspended on a full queue has already been counted by
    the throttle. *)
Fixpoint publish_all (self : EventProcessor.t)
    (calls : list (Event.t * Q * datetime))
    : EventProcessor.t * list EventProcessor.publish_result :=
  match calls with
  | [] => (self, [])
  | (event, now, utcnow) :: calls =>
      let '(self, result) := EventProcessor.publish self event now utcnow in
      let '(self, results) := publish_all self calls in
      (self, result :: results)
  end.



Definition accepted (result : EventProcessor.publish_result) : bool :=
  match result with
  | EventProcessor.Accepted => true
  | _ => false
  end.


(** The count of the current window for an event type. *)
Definition throttle_count (self : EventProcessor.t) (ty : EventType) : Z :=
  default 0%Z (EventProcessor._throttle_counters self !! ty).

(** What the [try] block leaves alone. *)
Lemma publish_enqueue_frame (self : EventProcessor.t) (event : Event.t)
    (now : Q) (utcnow : datetime) :
  let result := EventProcessor.publish_enqueue self event now utcnow in
  result.2 ≠ EventProcessor.Dropped
  ∧ EventProcessor.dropped_events_count result.1
    = EventProcessor.dropped_events_count self
  ∧ EventProcessor.throttle_levels result.1
    = EventProcessor.throttle_levels self
  ∧ EventProcessor._throttle_counters result.1
    = EventProcessor._throttle_counters self
  ∧ EventProcessor._throttle_last_reset result.1
    = EventProcessor._throttle_last_reset self.
Proof.
  unfold EventProcessor.publish_enqueue.
  destruct (EventProcessor.put _ _) as [q| |] eqn:Hput;
    [|done|by destruct (put_never_raises _ _ Hput)].
  cbn. by destruct (PyFloat.gtb _ 5).
Qed.

Section throttled_publish.

Variables (self : EventProcessor.t) (event : Event.t) (now : Q)
  (utcnow : datetime) (max_events : Z) (last_reset : Q).

Let ty := Event.event_type event.
Let result := EventProcessor.publish self event now utcnow.
Let counters :=
  (defaultdict_get 0%Z ty (EventProcessor._throttle_counters self)).2.

Hypothesis Hlevel : EventProcessor.throttle_levels self !! ty
                    = Some max_events.
Hypothesis Hreset : EventProcessor._throttle_last_reset self !! ty
                    = Some last_reset.
Hypothesis Hwindow : (now - last_reset < 1)%Q.





End throttled_publish.

Lemma publish_all_cons (self : EventProcessor.t) (event : Event.t) (now : Q)
    (utcnow : datetime) (calls : list (Event.t * Q * datetime)) :
  let first := EventProcessor.publish self event now utcnow in
  publish_all self ((event, now, utcnow) :: calls)
  = ((publish_all first.1 calls).1, first.2 :: (publish_all first.1 calls).2).
Proof.
  cbn. destruct (EventProcessor.publish self event now utcnow) as [s r].
  cbn. by destruct (publish_all s calls).
Qed.




(** A processor with [limit] MARKET_DATA events per second, and an
    unsequenced MARKET_DATA event. *)
Definition throttled (limit : Z) : EventProcessor.t :=
  EventProcessor.set_throttle_levels {[MARKET_DATA := limit]}
    (EventProcessor.new 10000 0).

Definition quote : Event.t :=
  Event.mk MARKET_DATA 0%Z (DataOther "quote") "feed" None None 1.

Definition publish_quotes_at (times : list Q)
    : list (Event.t * Q * datetime) :=
  map (λ now, (quote, now, 0%Z)) times.





(** Three events per second.  The window opens with the publish at 0; of the
    four that follow within 100 ms two more pass and two are dropped; the
    publish at 1.5 s restarts the window, and of it and the four that follow
    within 400 ms three pass and two are dropped. *)
Definition window_opened : EventProcessor.t :=
  (EventProcessor.publish (throttled 3) quote 0 0%Z).1.


(** The two windows of the witness, call by call. *)
Example throttle_two_windows :
  let calls := publish_quotes_at [0.02; 0.04; 0.06; 0.08]%Q in
  let later := publish_quotes_at [1.6; 1.7; 1.8; 1.9]%Q in
  let first := publish_all window_opened calls in
  let second := publish_all first.1 ((quote, 1.5%Q, 0%Z) :: later) in
  first.2
  = [EventProcessor.Accepted; EventProcessor.Accepted;
     EventProcessor.Dropped; EventProcessor.Dropped]
  ∧ second.2
    = [EventProcessor.Accepted; EventProcessor.Accepted;
       EventProcessor.Accepted; EventProcessor.Dropped;
       EventProcessor.Dropped]
  ∧ EventProcessor.dropped_events_count second.1 = 4%Z.
Proof. cbv zeta. repeat split; vm_compute; reflexivity. Qed.

(** The same five publishes from the start: exactly three are enqueued and
    the dropped counter grows by two. *)
Example throttle_drop_scenario :
  let outcome :=
    publish_all (throttled 3)
      (publish_quotes_at [0; 0.02; 0.04; 0.06; 0.08]%Q) in
  outcome.2
  = [EventProcessor.Accepted; EventProcessor.Accepted;
     EventProcessor.Accepted; EventProcessor.Dropped; EventProcessor.Dropped]
  ∧ EventProcessor.qsize (EventProcessor.event_queue outcome.1) = 3%Z
  ∧ EventProcessor.dropped_events_count outcome.1 = 2%Z.
Proof. cbv zeta. repeat split; vm_compute; reflexivity. Qed.

(** * Further properties *)

(** ** Position arithmetic *)

(** The trade's quantity with the sign of its side. *)
Definition signed_quantity (trade : Trade.t) : Q :=
  match Trade.side trade with
  | BUY => Trade.quantity trade
  | SELL => (- Trade.quantity trade)%Q
  end.

(** A trade flips a position when it is on the other side and larger than
    the position. *)
Definition flips (self : Position.t) (trade : Trade.t) : Prop :=
  ((0 < Position.quantity self ∧ signed_quantity trade < 0)
   ∨ (Position.quantity self < 0 ∧ 0 < signed_quantity trade))%Q
  ∧ (Qabs (Position.quantity self) < Qabs (signed_quantity trade))%Q.

(** Decide every float comparison of the goal, keeping the outcome as a
    fact about the rationals. *)
Ltac float_case :=
  match goal with
  | |- context [PyFloat.eqb ?x ?y] =>
      let E := fresh "E" in
      destruct (PyFloat.eqb x y) eqn:E;
      [apply PyFloat_eqb_true in E | apply PyFloat_eqb_false in E]
  | |- context [PyFloat.neqb ?x ?y] => unfold PyFloat.neqb
  | |- context [PyFloat.leb ?x ?y] =>
      let E := fresh "E" in
      destruct (PyFloat.leb x y) eqn:E;
      [apply PyFloat_leb_true in E | apply PyFloat_leb_false in E]
  | |- context [PyFloat.gtb ?x ?y] =>
      let E := fresh "E" in
      destruct (PyFloat.gtb x y) eqn:E;
      [apply PyFloat_gtb_true in E | apply PyFloat_gtb_false in E]
  | |- context [PyFloat.ltb ?x ?y] =>
      let E := fresh "E" in
      destruct (PyFloat.ltb x y) eqn:E;
      [apply PyFloat_ltb_true in E | apply PyFloat_ltb_false in E]
  end.

(** Replace [Qabs x] by [x] or [- x] according to the sign of [x]. *)
Ltac abs_case x :=
  let H := fresh "Habs" in
  destruct (Qlt_le_dec x 0) as [H|H];
  [pose proof (Qabs_neg x (Qlt_le_weak _ _ H))
  |pose proof (Qabs_pos x H)].

Lemma update_price_value (self : Position.t) (new_price : Q) :
  (Position.position_value (Position.update_price self new_price)
   == Position.quantity self * new_price)%Q.
Proof.
  unfold Position.update_price. float_case; cbn.
  - rewrite E. ring.
  - float_case; cbn; reflexivity.
Qed.

(** Marking to the entry price leaves no unrealized P&L, long or short. *)
Lemma update_price_at_entry (self : Position.t) :
  (Position.unrealized_pnl
     (Position.update_price self (Position.average_entry_price self))
   == 0)%Q.
Proof.
  unfold Position.update_price. float_case; cbn; [reflexivity|].
  float_case; cbn; ring.
Qed.

(** X1: marking a position twice leaves it as marking it once at the later
    price does: the price, the value and the unrealized P&L depend on the last
    mark only. *)
Theorem update_price_last_wins (self : Position.t) (p1 p2 : Q) :
  Position.update_price (Position.update_price self p1) p2
  = Position.update_price self p2.
Proof.
  destruct self as [i q a c r u v t o s e].
  unfold Position.update_price. cbn.
  destruct (PyFloat.eqb q 0) eqn:E; cbn; rewrite ?E; cbn; [reflexivity|].
  destruct (PyFloat.gtb q 0) eqn:G; cbn; rewrite ?E, ?G; reflexivity.
Qed.


Lemma update_price_quantity (self : Position.t) (new_price : Q) :
  Position.quantity (Position.update_price self new_price)
  = Position.quantity self.
Proof. apply update_price_frame. Qed.

Lemma update_price_average (self : Position.t) (new_price : Q) :
  Position.average_entry_price (Position.update_price self new_price)
  = Position.average_entry_price self.
Proof. apply update_price_frame. Qed.

Lemma update_price_realized (self : Position.t) (new_price : Q) :
  Position.realized_pnl (Position.update_price self new_price)
  = Position.realized_pnl self.
Proof. apply update_price_frame. Qed.

Ltac float_cases := repeat (float_case; cbn [andb orb negb]).

(** Unfold [apply_trade] and name the signed trade quantity and the old
    quantity. *)
Ltac unfold_apply_trade self trade :=
  unfold Position.apply_trade, signed_quantity; cbv zeta;
  set (tq := match Trade.side trade with
             | BUY => Trade.quantity trade
             | SELL => (- Trade.quantity trade)%Q
             end) in *;
  set (q := Position.quantity self) in *.

(** Every branch of [apply_trade] ends by marking to the trade's price. *)
Lemma apply_trade_marks (self : Position.t) (trade : Trade.t) :
  ∃ before,
    Position.apply_trade self trade
    = Position.update_price before (Trade.price trade).
Proof.
  unfold Position.apply_trade. cbv zeta.
  destruct (_ || _); [destruct (PyFloat.leb _ _)|]; eexists; reflexivity.
Qed.

(** The quantity after a trade is the old one plus the signed quantity of
    the trade, whichever branch is taken. *)
Lemma apply_trade_quantity (self : Position.t) (trade : Trade.t) :
  (Position.quantity (Position.apply_trade self trade)
   == Position.quantity self + signed_quantity trade)%Q.
Proof.
  unfold_apply_trade self trade.
  float_cases; rewrite ?update_price_quantity; cbn; try reflexivity; try lra.
  all: try (rewrite (Qabs_neg tq), (Qabs_pos q) by lra; ring).
  all: try (rewrite (Qabs_pos tq), (Qabs_neg q) by lra; ring).
Qed.

(** X3: after a trade the position is marked to the trade's price, its value
    being quantity × price; and a position left flat has no average entry
    price, no unrealized P&L and no value. *)
Theorem apply_trade_marked_and_flat_clean (self : Position.t)
    (trade : Trade.t) :
  let after := Position.apply_trade self trade in
  Position.current_price after = Some (Trade.price trade)
  ∧ (Position.position_value after
     == Position.quantity after * Trade.price trade)%Q
  ∧ ((Position.quantity after == 0)%Q →
     Position.average_entry_price after = 0%Q
     ∧ Position.unrealized_pnl after = 0%Q
     ∧ Position.position_value after = 0%Q).
Proof.
  cbv zeta. split; [|split].
  - destruct (apply_trade_marks self trade) as [before ->].
    apply update_price_frame.
  - destruct (apply_trade_marks self trade) as [before ->].
    rewrite update_price_value, update_price_quantity. reflexivity.
  - unfold_apply_trade self trade.
    float_cases; rewrite ?update_price_quantity, ?update_price_average;
      unfold Position.update_price; cbn; intros Hflat; float_cases; cbn;
      try (split; [|split]; reflexivity); try lra.
    all: try (rewrite (Qabs_neg tq), (Qabs_pos q) in * by lra; lra).
    all: try (rewrite (Qabs_pos tq), (Qabs_neg q) in * by lra; lra).
Qed.

(** A trade on the other side that does not exceed the position. *)
Definition reduces (self : Position.t) (trade : Trade.t) : Prop :=
  ((0 < Position.quantity self ∧ signed_quantity trade < 0)
   ∨ (Position.quantity self < 0 ∧ 0 < signed_quantity trade))%Q
  ∧ (Qabs (signed_quantity trade) <= Qabs (Position.quantity self))%Q.

(** A trade on the side of the position, or on a flat position. *)
Definition adds_to (self : Position.t) (trade : Trade.t) : Prop :=
  ((Position.quantity self == 0)
   ∨ (0 < Position.quantity self ∧ 0 <= signed_quantity trade)
   ∨ (Position.quantity self < 0 ∧ signed_quantity trade <= 0))%Q.

(** X4: realized P&L moves only on closing trades: a trade that adds to the
    position leaves it alone, a reducing trade realizes the price difference
    on the quantity closed (price − entry for a long, entry − price for a
    short). *)
Theorem apply_trade_realized (self : Position.t) (trade : Trade.t) :
  let after := Position.apply_trade self trade in
  let closed := Qabs (signed_quantity trade) in
  let entry := Position.average_entry_price self in
  (adds_to self trade →
   Position.realized_pnl after = Position.realized_pnl self)
  ∧ (reduces self trade →
     (0 < Position.quantity self →
      Position.realized_pnl after
      == Position.realized_pnl self + closed * (Trade.price trade - entry))
     ∧ (Position.quantity self < 0 →
        Position.realized_pnl after
        == Position.realized_pnl self
           + closed * (entry - Trade.price trade)))%Q.
Proof.
  cbv zeta. split.
  - intros Hadds. unfold adds_to in Hadds. revert Hadds.
    unfold_apply_trade self trade. intros Hadds.
    float_cases; rewrite ?update_price_realized; cbn; try reflexivity; lra.
  - intros [Hsides Hle]. revert Hsides Hle.
    unfold_apply_trade self trade. intros Hsides Hle.
    assert (Qmin (Qabs tq) (Qabs q) == Qabs tq)%Q as Hmin
      by (apply Q.min_l; exact Hle).
    split; intros Hq;
      float_cases; rewrite ?update_price_realized; cbn;
      rewrite ?Hmin; try reflexivity; try lra.
Qed.

(** X5: a flip realizes the signed P&L q × (price − entry) of the entire old
    position and reopens the rest at the trade's price, with no unrealized
    P&L. *)
Theorem apply_trade_flip (self : Position.t) (trade : Trade.t) :
  flips self trade →
  let after := Position.apply_trade self trade in
  (Position.realized_pnl after
   == Position.realized_pnl self
      + Position.quantity self
        * (Trade.price trade - Position.average_entry_price self))%Q
  ∧ Position.average_entry_price after = Trade.price trade
  ∧ (Position.unrealized_pnl after == 0)%Q
  ∧ (Position.quantity after
     == Position.quantity self + signed_quantity trade)%Q.
Proof.
  intros [Hsides Hlt]. cbv zeta.
  split; [|split; [|split; [|apply apply_trade_quantity]]];
    revert Hsides Hlt; unfold_apply_trade self trade; intros Hsides Hlt.
  - float_cases; rewrite ?update_price_realized; cbn; try reflexivity;
      try lra.
    all: try (rewrite (Qabs_neg q) by lra; ring).
  - float_cases; rewrite ?update_price_average; cbn; try reflexivity; lra.
  - float_cases;
      match goal with
      | |- (Position.unrealized_pnl (Position.update_price ?p ?x) == 0)%Q =>
          apply (update_price_at_entry p)
      | _ => lra
      end.
Qed.


(** Long 10 entered at 100. *)
Definition long_10_at_100 : Position.t :=
  Position.mk "X" 10 100 None 0 0 0 0%Z [] ∅ None.

(** X2: one trade moves the quantity by its signed quantity (+ for BUY, - for
    SELL), in every branch, and the position changes side exactly on a flip:
    after a flip a long position is short and a short one is long; without a
    flip a long position is not left short, nor a short one long. *)
Theorem apply_trade_quantity_and_side (self : Position.t) (trade : Trade.t) :
  let before := Position.quantity self in
  let after := Position.quantity (Position.apply_trade self trade) in
  (after == before + signed_quantity trade)%Q
  ∧ (flips self trade →
     (0 < before → after < 0) ∧ (before < 0 → 0 < after))%Q
  ∧ (¬ flips self trade →
     (0 < before → 0 <= after) ∧ (before < 0 → after <= 0))%Q.
Proof.
  cbv zeta. pose proof (apply_trade_quantity self trade) as Hmove.
  split; [exact Hmove|]. unfold flips.
  set (q := Position.quantity self) in *.
  set (tq := signed_quantity trade) in *.
  split.
  - intros [Hsides Hlarger]. rewrite Hmove.
    abs_case q; abs_case tq; split; intros Hq; lra.
  - intros Hkept. rewrite Hmove. split; intros Hq.
    + destruct (Qlt_le_dec (q + tq) 0) as [Hneg|]; [|done].
      destruct Hkept. split; [left; lra|].
      rewrite (Qabs_pos q), (Qabs_neg tq) by lra. lra.
    + destruct (Qlt_le_dec 0 (q + tq)) as [Hpos|]; [|done].
      destruct Hkept. split; [right; lra|].
      rewrite (Qabs_neg q), (Qabs_pos tq) by lra. lra.
Qed.

(** Long 10, SELL 15: the position ends short. *)
Lemma apply_trade_quantity_and_side_witness :
  (Position.quantity
     (Position.apply_trade long_10_at_100 (trade_of SELL 15 110)) < 0)%Q.
Proof.
  apply (apply_trade_quantity_and_side long_10_at_100
           (trade_of SELL 15 110)).
  - split; [left; split; reflexivity|reflexivity].
  - reflexivity.
Defined.

(** Selling the 10 at 110 leaves the position flat and clean. *)
Lemma apply_trade_marked_and_flat_clean_witness :
  let after := Position.apply_trade long_10_at_100 (trade_of SELL 10 110) in
  Position.average_entry_price after = 0%Q
  ∧ Position.unrealized_pnl after = 0%Q
  ∧ Position.position_value after = 0%Q.
Proof.
  cbv zeta.
  apply (apply_trade_marked_and_flat_clean long_10_at_100
           (trade_of SELL 10 110)).
  reflexivity.
Defined.

(** Selling 4 of the 10 at 110 realizes 4 × (110 − 100). *)
Lemma apply_trade_realized_witness :
  let after := Position.apply_trade long_10_at_100 (trade_of SELL 4 110) in
  (Position.realized_pnl after
   == Position.realized_pnl long_10_at_100
      + Qabs (signed_quantity (trade_of SELL 4 110))
        * (Trade.price (trade_of SELL 4 110)
           - Position.average_entry_price long_10_at_100))%Q
  ∧ Position.realized_pnl
      (Position.apply_trade long_10_at_100 (trade_of BUY 4 110))
    = Position.realized_pnl long_10_at_100.
Proof.
  cbv zeta. split.
  - apply (apply_trade_realized long_10_at_100 (trade_of SELL 4 110)).
    + split; [left; split; reflexivity|]. vm_compute. discriminate.
    + reflexivity.
  - apply (apply_trade_realized long_10_at_100 (trade_of BUY 4 110)).
    right; left. split; [reflexivity|]. vm_compute. discriminate.
Defined.

(** Selling 15 against the 10 flips the position. *)
Lemma apply_trade_flip_witness :
  let after := Position.apply_trade long_10_at_100 (trade_of SELL 15 110) in
  (Position.realized_pnl after
   == Position.realized_pnl long_10_at_100
      + Position.quantity long_10_at_100
        * (Trade.price (trade_of SELL 15 110)
           - Position.average_entry_price long_10_at_100))%Q
  ∧ Position.average_entry_price after = Trade.price (trade_of SELL 15 110)
  ∧ (Position.unrealized_pnl after == 0)%Q
  ∧ (Position.quantity after
     == Position.quantity long_10_at_100
        + signed_quantity (trade_of SELL 15 110))%Q.
Proof.
  cbv zeta. apply (apply_trade_flip long_10_at_100 (trade_of SELL 15 110)).
  split; [left; split; reflexivity|reflexivity].
Defined.


(** ** Order book *)



(** X8: the position manager prices the market data made from an order book
    at the book's mid price. *)
Theorem order_book_market_price (self : OrderBook.t) :
  PositionManager.market_price (OrderBook.to_market_data self)
  = OrderBook.mid_price self.
Proof.
  unfold PositionManager.market_price, OrderBook.to_market_data,
    OrderBook.mid_price. cbn.
  rewrite lookup_insert_ne by done. rewrite !lookup_insert_eq.
  by destruct (OrderBook.bids self), (OrderBook.asks self).
Qed.

Lemma foldl_Qplus_shift (l : list Q) (x y : Q) :
  (x <= y)%Q → (foldl Qplus x l <= foldl Qplus y l)%Q.
Proof.
  revert x y. induction l as [|z l IH]; intros x y Hxy; cbn; [done|].
  apply IH. lra.
Qed.

Lemma sum_sizes_mono (test1 test2 : Level.t → bool) (levels : list Level.t) :
  (∀ level, level ∈ levels → test1 level = true → test2 level = true) →
  Forall (λ level, 0 <= Level.size level)%Q levels →
  ∀ x y, (x <= y)%Q →
  (foldl Qplus x (map Level.size (List.filter test1 levels))
   <= foldl Qplus y (map Level.size (List.filter test2 levels)))%Q.
Proof.
  induction levels as [|level levels IH]; intros Htest Hsize x y Hxy;
    cbn; [done|].
  apply Forall_cons in Hsize as [Hlevel Hsize].
  assert (∀ l, l ∈ levels → test1 l = true → test2 l = true) as Htest'.
  { intros l Hl. apply Htest. by right. }
  specialize (IH Htest' Hsize).
  destruct (test1 level) eqn:H1.
  - rewrite (Htest level (list_elem_of_here _ _) H1). cbn.
    apply IH. lra.
  - destruct (test2 level); cbn; apply IH; lra.
Qed.

(** X9: on a book with a non-negative mid price and non-negative sizes, the
    liquidity within a number of basis points of the mid price can only grow
    with that number; on a book with an empty side it is 0 at every
    distance. *)
Theorem liquidity_within_bps_monotone (self : OrderBook.t) (bps1 bps2 : Q) :
  (∀ mid, OrderBook.mid_price self = Some mid → 0 <= mid)%Q →
  Forall (λ level, 0 <= Level.size level)%Q
    (OrderBook.bids self ++ OrderBook.asks self) →
  (bps1 <= bps2)%Q →
  let near := OrderBook.liquidity_within_bps self bps1 in
  let far := OrderBook.liquidity_within_bps self bps2 in
  (OrderBook.bid_liquidity near <= OrderBook.bid_liquidity far)%Q
  ∧ (OrderBook.ask_liquidity near <= OrderBook.ask_liquidity far)%Q
  ∧ (OrderBook.mid_price self = None →
     near = OrderBook.mk_liquidity 0 0).
Proof.
  intros Hmid Hsizes Hbps. cbv zeta.
  unfold OrderBook.liquidity_within_bps.
  destruct (OrderBook.mid_price self) as [mid|] eqn:E; cbn;
    [|repeat split; lra].
  specialize (Hmid mid eq_refl).
  apply Forall_app in Hsizes as [Hbids Hasks].
  assert (mid * bps1 / 10000 <= mid * bps2 / 10000)%Q as Hthreshold.
  { apply Qmult_le_compat_r; [|discriminate].
    rewrite !(Qmult_comm mid). by apply Qmult_le_compat_r. }
  split; [|split; [|discriminate]]; unfold OrderBook.sum_sizes;
    apply sum_sizes_mono; try done; try lra;
    intros level _ Hnear; apply PyFloat_leb_true;
    apply PyFloat_leb_true in Hnear; lra.
Qed.

Lemma liquidity_within_bps_monotone_witness :
  let book :=
    OrderBook.mk "X" 0%Z "exchange" [Level.mk 99 5; Level.mk 98 7]
      [Level.mk 101 3] in
  (OrderBook.bid_liquidity (OrderBook.liquidity_within_bps book 100)
   <= OrderBook.bid_liquidity (OrderBook.liquidity_within_bps book 200))%Q
  ∧ (OrderBook.bid_liquidity (OrderBook.liquidity_within_bps book 100) == 5)%Q
  ∧ (OrderBook.bid_liquidity (OrderBook.liquidity_within_bps book 200) == 12)%Q.
Proof.
  cbv zeta. split; [|split; reflexivity].
  apply (liquidity_within_bps_monotone
           (OrderBook.mk "X" 0%Z "exchange" [Level.mk 99 5; Level.mk 98 7]
              [Level.mk 101 3]) 100 200).
  - intros mid Hmid. injection Hmid as <-. vm_compute. discriminate.
  - repeat constructor; vm_compute; discriminate.
  - vm_compute. discriminate.
Defined.

(** ** Position manager: market data *)

Definition trade_print (instrument_id : string) (price : Q)
    : MarketData.t :=
  MarketData.mk instrument_id 0%Z TRADE "exchange"
    (MarketData.mk_payload {["price" := price]} ∅) "feed" None.


(** The change of unrealized P&L above which a mark is published. *)
Definition publication_threshold (old_pnl : Q) : Q :=
  Qmin 0.01 (0.001 * Qmax (Qabs old_pnl) 0.01).

Lemma publication_test (pnl_change old_pnl : Q) :
  PyFloat.gtb pnl_change 0.01
  || PyFloat.gtb (pnl_change / Qmax (Qabs old_pnl) 0.01) 0.001 = true
  ↔ (publication_threshold old_pnl < pnl_change)%Q.
Proof.
  unfold publication_threshold.
  set (m := Qmax (Qabs old_pnl) 0.01).
  assert (0.01 <= m)%Q as Hm by apply Q.le_max_r.
  assert (0 < m)%Q as Hpos by lra.
  assert (pnl_change / m * m == pnl_change)%Q as Hdiv
    by (field; lra).
  rewrite orb_true_iff, !PyFloat_gtb_true.
  assert (0.001 < pnl_change / m ↔ 0.001 * m < pnl_change)%Q as ->.
  { split; intros H.
    - assert (0.001 * m < pnl_change / m * m)%Q as Hlt
        by (apply Qmult_lt_compat_r; assumption).
      rewrite Hdiv in Hlt. clear H Hdiv. lra.
    - apply Qnot_le_lt. intros Hle.
      assert (pnl_change / m * m <= 0.001 * m)%Q as Hle'
        by (apply Qmult_le_compat_r; [exact Hle|lra]).
      rewrite Hdiv in Hle'. clear Hle Hdiv. lra. }
  clear Hdiv.
  clearbody m.
  destruct (Q.min_spec 0.01 (0.001 * m)) as [[Hlt Heq]|[Hle Heq]];
    rewrite Heq; (split; [intros [H|H]; lra|intros H]).
  - left. exact H.
  - right. exact H.
Qed.

Lemma publication_threshold_pos (old_pnl : Q) :
  (0 < publication_threshold old_pnl)%Q.
Proof.
  unfold publication_threshold.
  pose proof (Q.le_max_r (Qabs old_pnl) 0.01) as Hm.
  destruct (Q.min_spec 0.01 (0.001 * Qmax (Qabs old_pnl) 0.01))
    as [[_ ->]|[_ ->]]; lra.
Qed.

(** X10: market data with a price for a held instrument marks the position to
    that price, and publishes the position exactly when its unrealized P&L
    moved by more than min(0.01, 0.001 × max(|old P&L|, 0.01)); a flat
    position with no unrealized P&L is marked silently. *)
Theorem market_data_publication (self : PositionManager.t)
    (market_data : MarketData.t) (now : datetime) (price : Q)
    (position : Position.t) :
  PositionManager.market_price market_data = Some price →
  PositionManager.positions self !! MarketData.instrument_id market_data
  = Some position →
  let marked :=
    Position.set_timestamp now (Position.update_price position price) in
  let pnl_change :=
    Qabs (Position.unrealized_pnl marked
          - Position.unrealized_pnl position) in
  let result := PositionManager._handle_market_data self market_data now in
  PositionManager.positions result.1
  = <[MarketData.instrument_id market_data := marked]>
      (PositionManager.positions self)
  ∧ ((publication_threshold (Position.unrealized_pnl position)
      < pnl_change)%Q →
     result.2 = [PositionManager.position_update_event marked now])
  ∧ ((pnl_change
      <= publication_threshold (Position.unrealized_pnl position))%Q →
     result.2 = [])
  ∧ ((Position.quantity position == 0)%Q →
     (Position.unrealized_pnl position == 0)%Q →
     result.2 = []).
Proof.
  intros Hprice Hposition. cbv zeta.
  unfold PositionManager._handle_market_data.
  rewrite Hprice, Hposition.
  pose proof (publication_test
                (Qabs (Position.unrealized_pnl
                         (Position.set_timestamp now
                            (Position.update_price position price))
                       - Position.unrealized_pnl position))
                (Position.unrealized_pnl position)) as Htest.
  destruct (_ || _) eqn:Hpub; cbn [fst snd].
  - split; [reflexivity|]. split; [reflexivity|].
    apply proj1 in Htest. specialize (Htest eq_refl).
    split; [intros Hle; lra|].
    intros Hflat Hzero. exfalso.
    pose proof (publication_threshold_pos (Position.unrealized_pnl position))
      as Hpos.
    assert (Position.unrealized_pnl
              (Position.set_timestamp now
                 (Position.update_price position price)) = 0%Q) as Hmarked.
    { unfold Position.update_price.
      apply PyFloat_eqb_true in Hflat. by rewrite Hflat. }
    rewrite Hmarked in Htest.
    assert (Qabs (0 - Position.unrealized_pnl position) == 0)%Q as Habs
      by (rewrite Hzero; reflexivity).
    rewrite Habs in Htest. lra.
  - split; [reflexivity|].
    split; [|by split].
    intros Hlt. apply Htest in Hlt. discriminate.
Qed.

Lemma market_data_publication_witness :
  (PositionManager._handle_market_data long_4_on_X (trade_print "X" 101)
     1%Z).2
  = [PositionManager.position_update_event
       (Position.set_timestamp 1%Z
          (Position.update_price
             (Position.mk "X" 4 100 None 0 0 0 0%Z [] ∅ None) 101))
       1%Z].
Proof.
  apply (market_data_publication long_4_on_X (trade_print "X" 101) 1%Z 101
           (Position.mk "X" 4 100 None 0 0 0 0%Z [] ∅ None)
           eq_refl eq_refl).
  vm_compute. reflexivity.
Defined.

(** ** Position manager: strategy allocations *)

Lemma get_position_allocations (self : PositionManager.t)
    (instrument_id strategy_id : string) (now : datetime) :
  Position.strategy_allocations
    (PositionManager.get_position self instrument_id now).1 !! strategy_id
  = (PositionManager.positions self !! instrument_id)
      ≫= (λ position, Position.strategy_allocations position !! strategy_id).
Proof.
  unfold PositionManager.get_position.
  destruct (PositionManager.positions self !! instrument_id); cbn; [done|].
  apply lookup_empty.
Qed.

Lemma get_position_positions (self : PositionManager.t)
    (instrument_id : string) (now : datetime) :
  <[instrument_id := (PositionManager.get_position self instrument_id now).1]>
    (PositionManager.positions
       (PositionManager.get_position self instrument_id now).2)
  = <[instrument_id :=
        (PositionManager.get_position self instrument_id now).1]>
      (PositionManager.positions self).
Proof.
  unfold PositionManager.get_position.
  destruct (PositionManager.positions self !! instrument_id); cbn; [done|].
  apply insert_insert_eq.
Qed.

(** X11: [get_strategy_exposure] reads back what [add_strategy_allocation]
    wrote: the strategy's exposure gains the instrument with the allocated
    quantity (replacing an earlier allocation), and the exposure of every
    other strategy is unchanged, also when the position had to be
    created. *)
Theorem add_strategy_allocation_exposure (self : PositionManager.t)
    (instrument_id strategy_id : string) (quantity : Q) (now : datetime) :
  let allocated :=
    (PositionManager.add_strategy_allocation self instrument_id strategy_id
       quantity now).1 in
  PositionManager.get_strategy_exposure allocated strategy_id
  = <[instrument_id := quantity]>
      (PositionManager.get_strategy_exposure self strategy_id)
  ∧ (∀ other, other ≠ strategy_id →
       PositionManager.get_strategy_exposure allocated other
       = PositionManager.get_strategy_exposure self other)
  ∧ is_Some (PositionManager.positions allocated !! instrument_id).
Proof.
  cbv zeta. unfold PositionManager.add_strategy_allocation,
    PositionManager.get_strategy_exposure.
  pose proof (λ strategy,
                get_position_allocations self instrument_id strategy now)
    as Halloc.
  pose proof (get_position_positions self instrument_id now) as Hpos.
  destruct (PositionManager.get_position self instrument_id now)
    as [position self'].
  cbn [fst snd] in *. cbn [PositionManager.positions
                           PositionManager.set_positions].
  split; [|split].
  - apply map_eq. intros i. rewrite lookup_omap.
    destruct (decide (i = instrument_id)) as [->|Hne].
    + rewrite !lookup_insert_eq. cbn. apply lookup_insert_eq.
    + rewrite !lookup_insert_ne by done. rewrite lookup_omap.
      assert (PositionManager.positions self' !! i
              = PositionManager.positions self !! i) as ->; [|done].
      apply (f_equal (λ m, m !! i)) in Hpos.
      by rewrite !lookup_insert_ne in Hpos.
  - intros other Hother. apply map_eq. intros i. rewrite !lookup_omap.
    destruct (decide (i = instrument_id)) as [->|Hne].
    + rewrite lookup_insert_eq. cbn. rewrite lookup_insert_ne by done.
      rewrite (Halloc other).
      by destruct (PositionManager.positions self !! instrument_id).
    + rewrite lookup_insert_ne by done.
      apply (f_equal (λ m, m !! i)) in Hpos.
      rewrite !lookup_insert_ne in Hpos by done. by rewrite Hpos.
  - rewrite lookup_insert_eq. by eexists.
Qed.

(** Allocating 3 of "Y", which the manager does not hold, to "S" leaves the
    exposure of "T" empty. *)
Lemma add_strategy_allocation_exposure_witness :
  PositionManager.get_strategy_exposure
    (PositionManager.add_strategy_allocation long_4_on_X "Y" "S" 3 1%Z).1
    "T"
  = PositionManager.get_strategy_exposure long_4_on_X "T".
Proof.
  apply (add_strategy_allocation_exposure long_4_on_X "Y" "S" 3 1%Z).
  discriminate.
Defined.

(** ** Position manager: trades *)

(** The manager after handling the TRADE_UPDATE events of a list of
    trades. *)
Definition handle_trades (self : PositionManager.t) (trades : list Trade.t)
    (now : datetime) : PositionManager.t :=
  foldl
    (λ self trade,
       (PositionManager._handle_trade_update self
          (trade_update_event trade) now).1)
    self trades.

Lemma handle_trade_quantity (self : PositionManager.t) (trade : Trade.t)
    (now : datetime) (instrument_id : string) :
  let handled :=
    (PositionManager._handle_trade_update self (trade_update_event trade)
       now).1 in
  (current_quantity handled instrument_id
   == current_quantity self instrument_id
      + (if bool_decide (Trade.instrument_id trade = instrument_id)
         then signed_quantity trade else 0))%Q
  ∧ PositionManager.position_updates_count handled
    = (PositionManager.position_updates_count self + 1)%Z.
Proof.
  cbv zeta. unfold PositionManager._handle_trade_update. cbn.
  pose proof (get_position_quantity self (Trade.instrument_id trade) now)
    as Hq.
  pose proof (get_position_positions self (Trade.instrument_id trade) now)
    as Hpos.
  destruct (PositionManager.get_position self (Trade.instrument_id trade) now)
    as [position self'] eqn:Hget.
  cbn [fst snd] in *. split.
  - unfold current_quantity at 1. cbn.
    case_bool_decide as Hi.
    + subst instrument_id. rewrite lookup_insert_eq. cbn.
      rewrite apply_trade_quantity, Hq. reflexivity.
    + rewrite lookup_insert_ne by done.
      assert (PositionManager.positions self' !! instrument_id
              = PositionManager.positions self !! instrument_id) as ->.
      { apply (f_equal (λ m, m !! instrument_id)) in Hpos.
        by rewrite !lookup_insert_ne in Hpos. }
      unfold current_quantity. ring.
  - cbn. unfold PositionManager.get_position in Hget.
    destruct (PositionManager.positions self !! Trade.instrument_id trade);
      injection Hget as _ <-; reflexivity.
Qed.

Lemma handle_trade_positions (self : PositionManager.t) (trade : Trade.t)
    (now : datetime) :
  let handled :=
    (PositionManager._handle_trade_update self (trade_update_event trade)
       now).1 in
  is_Some (PositionManager.positions handled !! Trade.instrument_id trade)
  ∧ ∀ instrument_id,
      instrument_id ≠ Trade.instrument_id trade →
      PositionManager.positions handled !! instrument_id
      = PositionManager.positions self !! instrument_id.
Proof.
  cbv zeta. unfold PositionManager._handle_trade_update. cbn.
  pose proof (get_position_positions self (Trade.instrument_id trade) now)
    as Hpos.
  destruct (PositionManager.get_position self (Trade.instrument_id trade) now)
    as [position self']. cbn [fst snd] in *. split.
  - cbn. rewrite lookup_insert_eq. by eexists.
  - intros instrument_id Hne. cbn. rewrite lookup_insert_ne by done.
    apply (f_equal (λ m, m !! instrument_id)) in Hpos.
    by rewrite !lookup_insert_ne in Hpos.
Qed.

Lemma handle_trades_keeps (trades : list Trade.t) (now : datetime)
    (instrument_id : string) :
  ∀ self : PositionManager.t,
    is_Some (PositionManager.positions self !! instrument_id) →
    is_Some
      (PositionManager.positions (handle_trades self trades now)
       !! instrument_id).
Proof.
  unfold handle_trades.
  induction trades as [|trade trades IH]; intros self Hsome; cbn [foldl];
    [done|].
  apply IH.
  destruct (decide (instrument_id = Trade.instrument_id trade)) as [->|Hne].
  - apply (handle_trade_positions self trade now).
  - destruct (handle_trade_positions self trade now) as [_ Hother].
    cbv zeta in Hother. by rewrite Hother.
Qed.

(** X12: one TRADE_UPDATE moves the quantity of the position of the trade's
    instrument by the signed quantity of the trade, a missing position being
    created first.  Over any list of trade events one update is counted per
    trade, every instrument a trade names has a position afterwards, and the
    position of an instrument that no trade names is left as it was. *)
Theorem handle_trades_positions (trades : list Trade.t)
    (self : PositionManager.t) (now : datetime) :
  let handled := handle_trades self trades now in
  PositionManager.position_updates_count handled
  = (PositionManager.position_updates_count self
     + Z.of_nat (length trades))%Z
  ∧ (∀ trade,
       trade ∈ trades →
       is_Some
         (PositionManager.positions handled !! Trade.instrument_id trade))
  ∧ (∀ instrument_id,
       Forall (λ trade, Trade.instrument_id trade ≠ instrument_id) trades →
       PositionManager.positions handled !! instrument_id
       = PositionManager.positions self !! instrument_id)
  ∧ (∀ trade,
       (current_quantity (handle_trades self [trade] now)
          (Trade.instrument_id trade)
        == current_quantity self (Trade.instrument_id trade)
           + signed_quantity trade)%Q).
Proof.
  cbv zeta. split; [|split; [|split]].
  - unfold handle_trades. revert self.
    induction trades as [|trade trades IH]; intros self;
      cbn [foldl length]; [lia|].
    rewrite IH.
    destruct (handle_trade_quantity self trade now "") as [_ ->]. lia.
  - revert self.
    induction trades as [|trade trades IH]; intros self t Hin;
      [by apply elem_of_nil in Hin|].
    unfold handle_trades. cbn [foldl].
    apply elem_of_cons in Hin as [->|Hin]; [|by apply IH].
    apply handle_trades_keeps.
    apply (handle_trade_positions self trade now).
  - unfold handle_trades. revert self.
    induction trades as [|trade trades IH]; intros self instrument_id Hnone;
      cbn [foldl]; [done|].
    apply Forall_cons in Hnone as [Hne Hnone].
    rewrite IH by done.
    by apply (handle_trade_positions self trade now).
  - intros trade. unfold handle_trades. cbn [foldl].
    destruct (handle_trade_quantity self trade now
                (Trade.instrument_id trade)) as [Hq _].
    cbv zeta in Hq. rewrite Hq, bool_decide_eq_true_2 by done. reflexivity.
Qed.

(** A BUY of 3 "X" and a SELL of 2 "Y" on the manager that holds 4 "X". *)
Lemma handle_trades_positions_witness :
  let trades :=
    [trade_of BUY 3 101;
     Trade.mk "T2" "O2" "Y" 2 50 SELL 0%Z "" 0 "USD"] in
  PositionManager.positions (handle_trades long_4_on_X trades 1%Z) !! "Z"
  = PositionManager.positions long_4_on_X !! "Z".
Proof.
  apply (handle_trades_positions
           [trade_of BUY 3 101;
            Trade.mk "T2" "O2" "Y" 2 50 SELL 0%Z "" 0 "USD"]
           long_4_on_X 1%Z).
  repeat constructor; discriminate.
Defined.

(** ** Order manager: the order table, the active set and the history *)

(** A risk manager with a position limit of 5 on "X" and a disabled drawdown
    rule. *)
Definition two_rules : RiskManager.t :=
  RiskManager.add_rule
    (RiskManager.add_rule RiskManager.new
       (RiskManager.PositionLimit limit_5_on_X))
    (RiskManager.DrawdownLimit
       (DrawdownLimitRule.mk "Drawdown limit of 10%" false 0 0%Z 10 1 None)).

(** A step in the life of the order manager: one of its own operations, or
    the risk manager handling the ORDER_UPDATE of the order stored under an
    id, which can write a rejection into the stored order. *)
Inductive step :=
  | Operation (op : operation)
  | RiskCheck (risk_manager : RiskManager.t)
      (position_manager : PositionManager.t) (order_id : string).

Definition run_step (self : OrderManager.t) (s : step) (now : datetime)
    : OrderManager.t :=
  match s with
  | Operation op => run_operation self op now
  | RiskCheck risk_manager position_manager order_id =>
      (risk_handles_stored_order risk_manager position_manager self order_id
         now).1.2
  end.

Fixpoint run_steps (self : OrderManager.t) (steps : list (step * datetime))
    : OrderManager.t :=
  match steps with
  | [] => self
  | (s, now) :: steps => run_steps (run_step self s now) steps
  end.

Definition finished (status : OrderStatus) : bool :=
  match status with
  | FILLED | CANCELLED | EXPIRED => true
  | _ => false
  end.

(** Every active id is in the order table, every order is filed under its
    own id, and no active order is FILLED, CANCELLED or EXPIRED. *)
Definition well_formed (self : OrderManager.t) : Prop :=
  (∀ order_id,
     order_id ∈ OrderManager.active_orders self →
     is_Some (OrderManager.orders self !! order_id))
  ∧ (∀ order_id order,
       OrderManager.orders self !! order_id = Some order →
       Order.order_id order = order_id)
  ∧ (∀ order_id order,
       order_id ∈ OrderManager.active_orders self →
       OrderManager.orders self !! order_id = Some order →
       finished (Order.status order) = false).

Lemma well_formed_new : well_formed OrderManager.new.
Proof.
  split; [|split]; cbn.
  - intros order_id H. by apply not_elem_of_empty in H.
  - intros order_id order H. by rewrite lookup_empty in H.
  - intros order_id order H. by apply not_elem_of_empty in H.
Qed.

Lemma active_update_order_state (self : OrderManager.t) (order : Order.t) :
  OrderManager.active_orders (OrderManager._update_order_state self order)
  = if Order.is_active order
    then {[Order.order_id order]} ∪ OrderManager.active_orders self
    else OrderManager.active_orders self ∖ {[Order.order_id order]}.
Proof.
  unfold OrderManager._update_order_state.
  by destruct (Order.is_active order).
Qed.

Lemma is_active_not_finished (order : Order.t) :
  Order.is_active order = true → finished (Order.status order) = false.
Proof. unfold Order.is_active. by destruct (Order.status order). Qed.

Lemma update_order_state_well_formed (self : OrderManager.t)
    (order : Order.t) :
  well_formed self →
  well_formed (OrderManager._update_order_state self order).
Proof.
  intros (Hactive & Hkey & Hfinished).
  pose proof (is_active_not_finished order) as Hstatus.
  unfold well_formed.
  rewrite orders_update_order_state, active_update_order_state.
  split; [|split].
  - intros order_id Hin.
    destruct (decide (order_id = Order.order_id order)) as [->|Hne].
    + rewrite lookup_insert_eq. by eexists.
    + rewrite lookup_insert_ne by done. apply Hactive.
      destruct (Order.is_active order); set_solver.
  - intros order_id o Hlook.
    destruct (decide (order_id = Order.order_id order)) as [->|Hne].
    + rewrite lookup_insert_eq in Hlook. by injection Hlook as <-.
    + rewrite lookup_insert_ne in Hlook by done. by apply Hkey.
  - intros order_id o Hin Hlook.
    destruct (decide (order_id = Order.order_id order)) as [->|Hne].
    + rewrite lookup_insert_eq in Hlook. injection Hlook as <-.
      destruct (Order.is_active order); [by apply Hstatus|set_solver].
    + rewrite lookup_insert_ne in Hlook by done.
      apply (Hfinished order_id); [|done].
      destruct (Order.is_active order); set_solver.
Qed.

Lemma cancel_order_well_formed (self : OrderManager.t) (order_id : string)
    (now : datetime) :
  well_formed self →
  well_formed (OrderManager.cancel_order self order_id now).1.1.
Proof.
  intros Hwf. pose proof Hwf as (Hactive & Hkey & Hfinished).
  unfold OrderManager.cancel_order.
  destruct (OrderManager.orders self !! order_id) as [order|] eqn:E;
    [|exact Hwf].
  destruct (bool_decide _); [|exact Hwf].
  destruct (OrderManager.cancellable _); [|exact Hwf].
  cbn. split; [|split]; cbn.
  - intros id Hin. destruct (decide (id = order_id)) as [->|Hne].
    + rewrite lookup_insert_eq. by eexists.
    + rewrite lookup_insert_ne by done. by apply Hactive.
  - intros id o Hlook. destruct (decide (id = order_id)) as [->|Hne].
    + rewrite lookup_insert_eq in Hlook. injection Hlook as <-. cbn.
      by apply Hkey.
    + rewrite lookup_insert_ne in Hlook by done. by apply Hkey.
  - intros id o Hin Hlook. destruct (decide (id = order_id)) as [->|Hne].
    + rewrite lookup_insert_eq in Hlook. by injection Hlook as <-.
    + rewrite lookup_insert_ne in Hlook by done. by apply (Hfinished id).
Qed.

Lemma modify_order_well_formed (self : OrderManager.t) (order_id : string)
    (price quantity : option Q) (now : datetime) :
  well_formed self →
  well_formed
    (OrderManager.modify_order self order_id price quantity now).1.1.
Proof.
  intros Hwf. unfold OrderManager.modify_order.
  destruct (OrderManager.orders self !! order_id) as [order|] eqn:E;
    [|exact Hwf].
  destruct (bool_decide _); [|exact Hwf].
  destruct (OrderManager.cancellable _); [|exact Hwf].
  destruct quantity as [q|].
  - destruct (_ && _); [exact Hwf|].
    cbn -[OrderManager._update_order_state].
    by apply update_order_state_well_formed.
  - cbn -[OrderManager._update_order_state].
    by apply update_order_state_well_formed.
Qed.

Lemma trade_update_well_formed (self : OrderManager.t) (event : Event.t)
    (now : datetime) :
  well_formed self →
  well_formed (OrderManager._handle_trade_update self event now).1.1.
Proof.
  intros Hwf. pose proof Hwf as (Hactive & Hkey & Hfinished).
  unfold OrderManager._handle_trade_update.
  destruct (Event.data event) as [|trade| |]; try exact Hwf.
  cbn.
  destruct (OrderManager.orders self !! Trade.order_id trade)
    as [order|] eqn:E; [|exact Hwf].
  pose proof (Hkey _ _ E) as Hid.
  assert (∀ o' active',
            Order.order_id o' = Order.order_id order →
            active' ⊆ OrderManager.active_orders self →
            (Trade.order_id trade ∈ active' →
             finished (Order.status o') = false) →
            ∀ history trades,
            well_formed
              (OrderManager.mk
                 (<[Trade.order_id trade := o']> (OrderManager.orders self))
                 active' history trades (OrderManager.order_handlers self)))
    as Hstore.
  { intros o' active' Hid' Hsub Hstatus history trades.
    split; [|split]; cbn.
    - intros id Hin. destruct (decide (id = Trade.order_id trade)) as [->|Hne].
      + rewrite lookup_insert_eq. by eexists.
      + rewrite lookup_insert_ne by done. apply Hactive. set_solver.
    - intros id o Hlook.
      destruct (decide (id = Trade.order_id trade)) as [->|Hne].
      + rewrite lookup_insert_eq in Hlook. injection Hlook as <-. congruence.
      + rewrite lookup_insert_ne in Hlook by done. by apply Hkey.
    - intros id o Hin Hlook.
      destruct (decide (id = Trade.order_id trade)) as [->|Hne].
      + rewrite lookup_insert_eq in Hlook. injection Hlook as <-. auto.
      + rewrite lookup_insert_ne in Hlook by done.
        apply (Hfinished id); [set_solver|done]. }
  destruct (Order.average_fill_price order) as [avg|]; cbn.
  - destruct (PyFloat.eqb _ 0); cbn.
    + apply Hstore; [done|done|]. intros Hin. exact (Hfinished _ _ Hin E).
    + destruct (PyFloat.ltb _ _); [|destruct (PyFloat.gtb _ _)]; cbn;
        apply Hstore; try done; try set_solver;
        intros Hin; exact (Hfinished _ _ Hin E).
  - destruct (PyFloat.ltb _ _); [|destruct (PyFloat.gtb _ _)]; cbn;
      apply Hstore; try done; try set_solver;
      intros Hin; exact (Hfinished _ _ Hin E).
Qed.

Lemma run_operation_well_formed (self : OrderManager.t) (op : operation)
    (now : datetime) :
  well_formed self → well_formed (run_operation self op now).
Proof.
  intros Hwf. destruct op as [order callback| | |event|]; cbn [run_operation].
  - unfold OrderManager.submit_order.
    destruct callback; cbn -[OrderManager._update_order_state];
      apply (update_order_state_well_formed self _ Hwf).
  - by apply cancel_order_well_formed.
  - by apply modify_order_well_formed.
  - unfold OrderManager._handle_order_update.
    destruct (Event.data event); try exact Hwf.
    cbn -[OrderManager._update_order_state].
    by apply update_order_state_well_formed.
  - by apply trade_update_well_formed.
Qed.

(** What the risk manager's handler does to the order table when it runs on
    a stored order: nothing, or the rejection of a PENDING_NEW order written
    into the entry; the active set, the history and the trades are not
    touched. *)
Lemma risk_handles_stored_order_table (risk_manager : RiskManager.t)
    (position_manager : PositionManager.t) (self : OrderManager.t)
    (order_id : string) (now : datetime) :
  let after :=
    (risk_handles_stored_order risk_manager position_manager self order_id
       now).1.2 in
  after = self
  ∨ ∃ order,
      OrderManager.orders self !! order_id = Some order
      ∧ Order.status order = PENDING_NEW
      ∧ after
        = OrderManager.set_orders
            (<[order_id := Order.set_updated_at now
                             (Order.set_status REJECTED order)]>
               (OrderManager.orders self)) self.
Proof.
  cbv zeta. unfold risk_handles_stored_order.
  destruct (OrderManager.orders self !! order_id) as [order|] eqn:E;
    [|by left].
  assert (OrderManager.set_orders
            (<[order_id := order]> (OrderManager.orders self)) self = self)
    as Hsame.
  { rewrite insert_id by done. by destruct self. }
  unfold RiskManager._handle_order_update.
  case_bool_decide as Hstatus; [by left|].
  destruct (RiskManager.check_rules _ _ _ _)
    as [[risk_manager' position_manager'] [passed messages]].
  destruct passed; cbn [negb fst snd]; [by left|].
  right. exists order. split; [done|]. split; [|done].
  by destruct (Order.status order); try done; destruct Hstatus.
Qed.

Lemma run_step_well_formed (self : OrderManager.t) (s : step)
    (now : datetime) :
  well_formed self → well_formed (run_step self s now).
Proof.
  intros Hwf. destruct s as [op|risk_manager position_manager order_id];
    cbn [run_step]; [by apply run_operation_well_formed|].
  destruct (risk_handles_stored_order_table risk_manager position_manager
              self order_id now) as [->|(order & E & Hstatus & ->)];
    [exact Hwf|].
  destruct Hwf as (Hactive & Hkey & Hfinished).
  split; [|split]; cbn.
  - intros id Hin. destruct (decide (id = order_id)) as [->|Hne].
    + rewrite lookup_insert_eq. by eexists.
    + rewrite lookup_insert_ne by done. by apply Hactive.
  - intros id o Hlook. destruct (decide (id = order_id)) as [->|Hne].
    + rewrite lookup_insert_eq in Hlook. injection Hlook as <-. cbn.
      by apply Hkey.
    + rewrite lookup_insert_ne in Hlook by done. by apply Hkey.
  - intros id o Hin Hlook. destruct (decide (id = order_id)) as [->|Hne].
    + rewrite lookup_insert_eq in Hlook. by injection Hlook as <-.
    + rewrite lookup_insert_ne in Hlook by done. by apply (Hfinished id).
Qed.

Lemma run_steps_well_formed (steps : list (step * datetime))
    (self : OrderManager.t) :
  well_formed self → well_formed (run_steps self steps).
Proof.
  revert self. induction steps as [|[s now] steps IH]; intros self Hwf;
    cbn [run_steps]; [done|].
  by apply IH, run_step_well_formed.
Qed.

Lemma get_active_orders_loop_returns (self : OrderManager.t)
    (strategy_id instrument_id : option string) (order_ids : list string) :
  (∀ order_id, order_id ∈ order_ids →
               is_Some (OrderManager.orders self !! order_id)) →
  ∀ result,
    is_Some
      (OrderManager.get_active_orders_loop self strategy_id instrument_id
         order_ids result).
Proof.
  induction order_ids as [|order_id order_ids IH]; intros Hknown result;
    cbn; [by eexists|].
  destruct (Hknown order_id (list_elem_of_here _ _)) as [order ->].
  assert (∀ id, id ∈ order_ids →
                is_Some (OrderManager.orders self !! id)) as Hrest.
  { intros id Hid. apply Hknown. by right. }
  destruct (_ && _); [by apply IH|]. destruct (_ && _); by apply IH.
Qed.

(** X13: whatever operations the manager has gone through since it was
    created, and whatever orders the risk manager has rejected in place in
    between, every active id is in its order table, every order is filed
    under its own id and no active order is FILLED, CANCELLED or EXPIRED; so
    [get_active_orders] finds every order it looks up (it does not raise
    [KeyError]) and there are at most as many active orders as orders.  An
    active order can be REJECTED: the risk manager writes the rejection into
    the stored order, and the id stays active until the ORDER_UPDATE it
    publishes is handled. *)
Theorem order_table_well_formed (steps : list (step * datetime)) :
  let self := run_steps OrderManager.new steps in
  well_formed self
  ∧ (∀ strategy_id instrument_id,
       is_Some (OrderManager.get_active_orders self strategy_id
                  instrument_id))
  ∧ (OrderManager.active_orders_count
       (OrderManager.get_order_statistics self)
     <= OrderManager.total_orders (OrderManager.get_order_statistics self))%Z.
Proof.
  cbv zeta.
  pose proof (run_steps_well_formed steps _ well_formed_new) as Hwf.
  split; [exact Hwf|]. destruct Hwf as (Hactive & _ & _). split.
  - intros strategy_id instrument_id. unfold OrderManager.get_active_orders.
    apply get_active_orders_loop_returns.
    intros order_id Hin. apply Hactive. by apply elem_of_elements.
  - cbn. apply inj_le.
    rewrite <- (size_dom (OrderManager.orders _)).
    apply subseteq_size. intros order_id Hin.
    apply elem_of_dom. by apply Hactive.
Qed.

Lemma save_order_history_lookup (self : OrderManager.t) (order : Order.t)
    (order_id : string) :
  OrderManager.get_order_history
    (OrderManager._save_order_history self order) order_id
  = if decide (order_id = Order.order_id order)
    then OrderManager.get_order_history self order_id ++ [order]
    else OrderManager.get_order_history self order_id.
Proof.
  unfold OrderManager._save_order_history, OrderManager.get_order_history.
  cbn. case_decide as Hid.
  - subst order_id. by rewrite lookup_insert_eq.
  - by rewrite lookup_insert_ne.
Qed.

Lemma update_order_state_history (self : OrderManager.t) (order : Order.t)
    (order_id : string) :
  OrderManager.get_order_history
    (OrderManager._update_order_state self order) order_id
  = if decide (order_id = Order.order_id order)
    then OrderManager.get_order_history self order_id ++ [order]
    else OrderManager.get_order_history self order_id.
Proof.
  unfold OrderManager._update_order_state.
  destruct (Order.is_active order); by rewrite save_order_history_lookup.
Qed.

(** What an operation does to the history of an order: nothing, or one
    snapshot appended. *)
Lemma run_operation_history (self : OrderManager.t) (op : operation)
    (now : datetime) (order_id : string) :
  OrderManager.get_order_history (run_operation self op now) order_id
  = OrderManager.get_order_history self order_id
  ∨ ∃ snapshot,
      OrderManager.get_order_history (run_operation self op now) order_id
      = OrderManager.get_order_history self order_id ++ [snapshot].
Proof.
  assert (∀ s (o : Order.t),
            OrderManager.get_order_history
              (OrderManager._update_order_state s o) order_id
            = OrderManager.get_order_history s order_id
            ∨ ∃ snapshot,
                OrderManager.get_order_history
                  (OrderManager._update_order_state s o) order_id
                = OrderManager.get_order_history s order_id ++ [snapshot])
    as Hupdate.
  { intros s o. rewrite update_order_state_history.
    case_decide; [right; by eexists|by left]. }
  assert (∀ s (o : Order.t),
            OrderManager.get_order_history
              (OrderManager._save_order_history s o) order_id
            = OrderManager.get_order_history s order_id
            ∨ ∃ snapshot,
                OrderManager.get_order_history
                  (OrderManager._save_order_history s o) order_id
                = OrderManager.get_order_history s order_id ++ [snapshot])
    as Hsave.
  { intros s o. rewrite save_order_history_lookup.
    case_decide; [right; by eexists|by left]. }
  assert (∀ s (o : Order.t) base,
            OrderManager.order_history base = OrderManager.order_history s →
            OrderManager.get_order_history
              (OrderManager._save_order_history s o) order_id
            = OrderManager.get_order_history base order_id
            ∨ ∃ snapshot,
                OrderManager.get_order_history
                  (OrderManager._save_order_history s o) order_id
                = OrderManager.get_order_history base order_id ++ [snapshot])
    as Hsave'.
  { intros s o base Hbase. unfold OrderManager.get_order_history at 2 4.
    rewrite Hbase. apply Hsave. }
  destruct op as [order callback|id|id price quantity|event|event];
    cbn [run_operation].
  - unfold OrderManager.submit_order.
    destruct callback; cbn -[OrderManager._update_order_state];
      apply Hupdate.
  - unfold OrderManager.cancel_order.
    destruct (OrderManager.orders self !! id); [|by left].
    destruct (bool_decide _); [|by left].
    destruct (OrderManager.cancellable _); [|by left].
    cbn -[OrderManager._save_order_history]. by apply Hsave'.
  - unfold OrderManager.modify_order.
    destruct (OrderManager.orders self !! id); [|by left].
    destruct (bool_decide _); [|by left].
    destruct (OrderManager.cancellable _); [|by left].
    destruct quantity; [destruct (_ && _); [by left|]|];
      cbn -[OrderManager._update_order_state]; apply Hupdate.
  - unfold OrderManager._handle_order_update.
    destruct (Event.data event); try by left.
    cbn -[OrderManager._update_order_state]. apply Hupdate.
  - unfold OrderManager._handle_trade_update.
    destruct (Event.data event) as [|trade| |]; try by left.
    cbn -[OrderManager._save_order_history].
    destruct (OrderManager.orders self !! Trade.order_id trade);
      [|by left].
    destruct (Order.average_fill_price _);
      [destruct (PyFloat.eqb _ 0); [by left|]|];
      (destruct (PyFloat.ltb _ _); [|destruct (PyFloat.gtb _ _)]);
      cbn -[OrderManager._save_order_history]; by apply Hsave'.
Qed.

(** X14: the history of an order is append-only: along any run of operations
    the history an order had before is a prefix of the one it has after. *)
Theorem order_history_append_only (ops : list (operation * datetime))
    (self : OrderManager.t) (order_id : string) :
  OrderManager.get_order_history self order_id
  `prefix_of`
  OrderManager.get_order_history (run_operations self ops) order_id.
Proof.
  revert self. induction ops as [|[op now] ops IH]; intros self;
    cbn [run_operations]; [done|].
  etrans; [|apply IH].
  destruct (run_operation_history self op now order_id) as [->|[s ->]];
    [done|]. by apply prefix_app_r.
Qed.

(** The history after handling the risk manager's in-place writes is the
    history before: the handler never calls [_save_order_history]. *)
Definition rejected_in_place (snapshot order : Order.t) : Prop :=
  Order.status snapshot = PENDING_NEW
  ∧ ∃ now,
      order = Order.set_updated_at now (Order.set_status REJECTED snapshot).

(** The last snapshot in the history of every order is the order as the
    table holds it, or the order as it was before the risk manager rejected
    it in place. *)
Definition history_tracks (self : OrderManager.t) : Prop :=
  ∀ order_id order,
    OrderManager.orders self !! order_id = Some order →
    ∃ snapshot,
      last (OrderManager.get_order_history self order_id) = Some snapshot
      ∧ (snapshot = order ∨ rejected_in_place snapshot order).

(** A step runs to its end unless it is a trade update that raises. *)
Definition returns (self : OrderManager.t) (s : step) (now : datetime)
    : Prop :=
  match s with
  | Operation (TradeUpdate event) =>
      (OrderManager._handle_trade_update self event now).2 = Returned
  | _ => True
  end.

Fixpoint returns_all (self : OrderManager.t)
    (steps : list (step * datetime)) : Prop :=
  match steps with
  | [] => True
  | (s, now) :: steps =>
      returns self s now ∧ returns_all (run_step self s now) steps
  end.

Lemma history_tracks_store (self : OrderManager.t) (key key' : string)
    (order : Order.t) (active : gset string)
    (trades : gmap string (list Trade.t))
    (handlers : gmap string OrderManager.callback) :
  history_tracks self → key' = key →
  history_tracks
    (OrderManager.mk (<[key := order]> (OrderManager.orders self)) active
       (<[key' := default [] (OrderManager.order_history self !! key')
                  ++ [order]]> (OrderManager.order_history self))
       trades handlers).
Proof.
  intros Htracks -> order_id o. unfold OrderManager.get_order_history. cbn.
  destruct (decide (order_id = key)) as [->|Hne].
  - rewrite !lookup_insert_eq. intros [= <-]. cbn.
    exists order. split; [apply last_snoc|by left].
  - rewrite !lookup_insert_ne by done. apply Htracks.
Qed.

Lemma update_order_state_tracks (self : OrderManager.t) (order : Order.t) :
  history_tracks self →
  history_tracks (OrderManager._update_order_state self order).
Proof.
  intros Htracks. unfold OrderManager._update_order_state.
  destruct (Order.is_active order);
    unfold OrderManager._save_order_history, OrderManager.set_order_history,
      OrderManager.set_active_orders, OrderManager.set_orders; cbn;
    by apply history_tracks_store.
Qed.

Lemma run_operation_tracks (self : OrderManager.t) (op : operation)
    (now : datetime) :
  well_formed self → history_tracks self →
  returns self (Operation op) now →
  history_tracks (run_operation self op now).
Proof.
  intros (_ & Hkey & _) Htracks Hreturns.
  destruct op as [order callback|id|id price quantity|event|event];
    cbn [run_operation].
  - unfold OrderManager.submit_order.
    destruct callback; cbn -[OrderManager._update_order_state].
    + intros order_id o.
      apply (update_order_state_tracks self _ Htracks order_id o).
    + by apply update_order_state_tracks.
  - unfold OrderManager.cancel_order.
    destruct (OrderManager.orders self !! id) as [order|] eqn:E; [|done].
    destruct (bool_decide _); [|done].
    destruct (OrderManager.cancellable _); [|done].
    unfold OrderManager._save_order_history, OrderManager.set_order_history,
      OrderManager.set_orders; cbn.
    apply history_tracks_store; [done|]. by apply Hkey.
  - unfold OrderManager.modify_order.
    destruct (OrderManager.orders self !! id); [|done].
    destruct (bool_decide _); [|done].
    destruct (OrderManager.cancellable _); [|done].
    destruct quantity; [destruct (_ && _); [done|]|];
      cbn -[OrderManager._update_order_state];
      by apply update_order_state_tracks.
  - unfold OrderManager._handle_order_update.
    destruct (Event.data event); try done.
    cbn -[OrderManager._update_order_state].
    by apply update_order_state_tracks.
  - revert Hreturns. unfold returns, OrderManager._handle_trade_update.
    destruct (Event.data event) as [|trade| |]; try done. cbn.
    destruct (OrderManager.orders self !! Trade.order_id trade)
      as [order|] eqn:E; [|done].
    pose proof (Hkey _ _ E) as Hid.
    destruct (Order.average_fill_price order);
      [destruct (PyFloat.eqb _ 0); [discriminate|]|];
      (destruct (PyFloat.ltb _ _); [|destruct (PyFloat.gtb _ _)]);
      unfold OrderManager._save_order_history,
        OrderManager.set_order_history, OrderManager.set_active_orders,
        OrderManager.set_orders, OrderManager.set_trades;
      cbn; intros _; by apply history_tracks_store.
Qed.

Lemma run_step_tracks (self : OrderManager.t) (s : step) (now : datetime) :
  well_formed self → history_tracks self → returns self s now →
  history_tracks (run_step self s now).
Proof.
  intros Hwf Htracks Hreturns.
  destruct s as [op|risk_manager position_manager order_id];
    cbn [run_step]; [by apply run_operation_tracks|].
  destruct (risk_handles_stored_order_table risk_manager position_manager
              self order_id now) as [->|(order & E & Hstatus & ->)];
    [exact Htracks|].
  intros id o. unfold OrderManager.get_order_history. cbn.
  destruct (decide (id = order_id)) as [->|Hne].
  - rewrite lookup_insert_eq. intros [= <-].
    destruct (Htracks _ _ E) as (snapshot & Hlast & [->|[_ [t ->]]]).
    + exists order. split; [exact Hlast|]. right. split; [done|by exists now].
    + discriminate Hstatus.
  - rewrite lookup_insert_ne by done. apply Htracks.
Qed.

(** X15: as long as no trade update raises, every order of the table has a
    last snapshot in its history, and that snapshot is the order as the
    table holds it, unless the risk manager has since rejected the order in
    place: then the snapshot is the PENDING_NEW order and the table holds it
    REJECTED.  Handling the ORDER_UPDATE that carries the stored order makes
    the last snapshot the stored order again. *)
Theorem order_history_tracks_orders (steps : list (step * datetime)) :
  returns_all OrderManager.new steps →
  let self := run_steps OrderManager.new steps in
  ∀ order_id order,
    OrderManager.get_order self order_id = Some order →
    (∃ snapshot,
       last (OrderManager.get_order_history self order_id) = Some snapshot
       ∧ (snapshot = order ∨ rejected_in_place snapshot order))
    ∧ ∀ now source,
        let handled :=
          (OrderManager._handle_order_update self
             (Event.mk ORDER_UPDATE now (DataOrder order) source None None
                1)).1 in
        OrderManager.get_order handled order_id = Some order
        ∧ last (OrderManager.get_order_history handled order_id)
          = Some order.
Proof.
  intros Hreturns. cbv zeta.
  assert (∀ self,
            well_formed self → history_tracks self →
            returns_all self steps →
            well_formed (run_steps self steps)
            ∧ history_tracks (run_steps self steps)) as Hrun.
  { clear Hreturns. induction steps as [|[s now] steps IH];
      intros self Hwf Htracks Hreturns; cbn [run_steps]; [done|].
    destruct Hreturns as [Hstep Hsteps].
    apply IH; [by apply run_step_well_formed|by apply run_step_tracks|done]. }
  destruct (Hrun OrderManager.new well_formed_new) as [Hwf Htracks];
    [|done|].
  { intros order_id order H. cbn in H. by rewrite lookup_empty in H. }
  intros order_id order Hget. split; [by apply Htracks|].
  intros now source. unfold OrderManager._handle_order_update.
  cbn -[OrderManager._update_order_state].
  destruct Hwf as (_ & Hkey & _). pose proof (Hkey _ _ Hget) as Hid.
  unfold OrderManager.get_order.
  rewrite orders_update_order_state, update_order_state_history, Hid.
  rewrite lookup_insert_eq, decide_True by done.
  split; [done|apply last_snoc].
Qed.

(** An order is submitted and the risk manager, holding a position limit of
    5 against a position of 4, rejects it. *)
Definition submitted_and_rejected : list (step * datetime) :=
  [(Operation (SubmitOrder limit_buy_10 None), 1%Z);
   (Operation (TradeUpdate (trade_update_event (trade_of BUY 3 99))), 2%Z);
   (Operation (SubmitOrder (market_order "X" BUY 2) None), 3%Z);
   (RiskCheck two_rules long_4_on_X "M", 4%Z)].

Lemma order_history_tracks_orders_witness :
  let self := run_steps OrderManager.new submitted_and_rejected in
  ∃ order,
    OrderManager.get_order self "M" = Some order
    ∧ ∃ snapshot,
        last (OrderManager.get_order_history self "M") = Some snapshot
        ∧ (snapshot = order ∨ rejected_in_place snapshot order).
Proof.
  cbv zeta. eexists. split; [vm_compute; reflexivity|].
  apply (order_history_tracks_orders submitted_and_rejected).
  - cbn [submitted_and_rejected returns_all returns]. repeat split.
  - vm_compute. reflexivity.
Defined.

(** After the risk check the stored order is REJECTED, its id is still
    active and its history still ends with the PENDING_NEW order; the
    partly filled order is level with its history. *)
Example rejected_order_still_active :
  let self := run_steps OrderManager.new submitted_and_rejected in
  Order.status <$> OrderManager.get_order self "M" = Some REJECTED
  ∧ "M" ∈ OrderManager.active_orders self
  ∧ Order.status <$> last (OrderManager.get_order_history self "M")
    = Some PENDING_NEW
  ∧ last (OrderManager.get_order_history self "O")
    = OrderManager.get_order self "O".
Proof.
  cbv zeta. split; [vm_compute; reflexivity|]. split.
  - apply (bool_decide_unpack _). vm_compute. exact I.
  - split; vm_compute; reflexivity.
Qed.

(** ** Order manager: statistics *)

Definition all_statuses : list OrderStatus :=
  [PENDING_NEW; NEW; PARTIALLY_FILLED; FILLED; PENDING_CANCEL; CANCELLED;
   REJECTED; EXPIRED].

Lemma indicator_sum (status : OrderStatus) (count : OrderStatus → Z) :
  foldr Z.add 0%Z
    (map (λ s, ((if bool_decide (status = s) then 1 else 0) + count s)%Z)
       all_statuses)
  = Z.succ (foldr Z.add 0%Z (map count all_statuses)).
Proof.
  unfold all_statuses. cbn [map foldr].
  destruct status;
    repeat first [rewrite bool_decide_eq_true_2 by reflexivity
                 |rewrite bool_decide_eq_false_2 by discriminate]; lia.
Qed.

Lemma status_counts_sum (orders : list Order.t) :
  foldr Z.add 0%Z
    (map
       (λ status,
          Z.of_nat
            (length
               (List.filter
                  (λ order : Order.t,
                     bool_decide (Order.status order = status))
                  orders)))
       all_statuses)
  = Z.of_nat (length orders).
Proof.
  induction orders as [|order orders IH]; [reflexivity|].
  cbn [length]. rewrite Nat2Z.inj_succ, <- IH.
  rewrite <- (indicator_sum (Order.status order)).
  f_equal. apply map_ext. intros status. cbn [List.filter].
  destruct (bool_decide _); cbn [length]; lia.
Qed.

(** X16: in the statistics the counts by status add up to the total number of
    orders: every order is counted under exactly one status. *)
Theorem order_statistics_by_status (self : OrderManager.t) :
  let statistics := OrderManager.get_order_statistics self in
  foldr Z.add 0%Z (map (OrderManager.by_status statistics) all_statuses)
  = OrderManager.total_orders statistics.
Proof.
  cbv zeta. unfold OrderManager.get_order_statistics.
  cbn [OrderManager.by_status OrderManager.total_orders].
  rewrite status_counts_sum, length_fmap, length_map_to_list. reflexivity.
Qed.

(** ** Order manager: cancelling *)

(** Whether a cancel request for the order would be accepted. *)
Definition open_for_cancel (self : OrderManager.t) (order_id : string)
    : bool :=
  match OrderManager.orders self !! order_id with
  | Some order =>
      bool_decide (order_id ∈ OrderManager.active_orders self)
      && OrderManager.cancellable (Order.status order)
  | None => false
  end.

Lemma cancel_order_result (self : OrderManager.t) (order_id : string)
    (now : datetime) :
  (OrderManager.cancel_order self order_id now).1.2
  = open_for_cancel self order_id.
Proof.
  unfold OrderManager.cancel_order, open_for_cancel.
  destruct (OrderManager.orders self !! order_id); [|done].
  destruct (bool_decide _); [|done].
  by destruct (OrderManager.cancellable _).
Qed.

(** After a cancel request for an order, accepted or not, a further request
    for the same order is refused; requests for other orders are not
    affected. *)
Lemma open_for_cancel_after (self : OrderManager.t)
    (cancelled order_id : string) (now : datetime) :
  open_for_cancel (OrderManager.cancel_order self cancelled now).1.1 order_id
  = if decide (order_id = cancelled) then false
    else open_for_cancel self order_id.
Proof.
  unfold OrderManager.cancel_order, open_for_cancel.
  case_decide as Hid.
  - subst order_id.
    destruct (OrderManager.orders self !! cancelled) as [order|] eqn:E;
      cbn; [|by rewrite E].
    destruct (bool_decide (cancelled ∈ _)) eqn:Hin; cbn;
      [|by rewrite E, Hin].
    destruct (OrderManager.cancellable _) eqn:Hc; cbn.
    + rewrite lookup_insert_eq. cbn. apply andb_false_r.
    + by rewrite E, Hin, Hc.
  - destruct (OrderManager.orders self !! cancelled) as [order|]; [|done].
    destruct (bool_decide (cancelled ∈ _)); [|done].
    destruct (OrderManager.cancellable _); [|done].
    cbn. by rewrite lookup_insert_ne.
Qed.

Definition occurrences (order_id : string) (order_ids : list string) : nat :=
  length (List.filter (λ x, bool_decide (x = order_id)) order_ids).

Lemma occurrences_zero (order_id : string) (order_ids : list string) :
  order_id ∉ order_ids → occurrences order_id order_ids = 0.
Proof.
  unfold occurrences. induction order_ids as [|x ids IH]; intros Hnot;
    [done|]. cbn. apply not_elem_of_cons in Hnot as [Hne Hnot].
  rewrite bool_decide_eq_false_2 by done. by apply IH.
Qed.

Lemma occurrences_pos (order_id : string) (order_ids : list string) :
  order_id ∈ order_ids → 0 < occurrences order_id order_ids.
Proof.
  unfold occurrences. induction order_ids as [|x ids IH]; intros Hin.
  - by apply elem_of_nil in Hin.
  - cbn. case_bool_decide as Hx; cbn; [lia|].
    apply elem_of_cons in Hin as [->|Hin]; [done|by apply IH].
Qed.

Lemma batch_cancel_orders_loop_results (order_ids : list string)
    (now : datetime) (order_id : string) :
  ∀ self results published,
    (OrderManager.batch_cancel_orders_loop self order_ids now results
       published).1.2 !! order_id
    = if bool_decide (order_id ∈ order_ids)
      then Some (bool_decide (occurrences order_id order_ids = 1)
                 && open_for_cancel self order_id)
      else results !! order_id.
Proof.
  induction order_ids as [|x ids IH]; intros self results published.
  - cbn. by rewrite bool_decide_eq_false_2 by apply not_elem_of_nil.
  - cbn [OrderManager.batch_cancel_orders_loop].
    pose proof (cancel_order_result self x now) as Hresult.
    pose proof (open_for_cancel_after self x order_id now) as Hafter.
    destruct (OrderManager.cancel_order self x now) as [[self1 success] events].
    cbn [fst snd] in Hresult, Hafter. rewrite IH, Hafter. subst success.
    unfold occurrences. cbn [List.filter].
    destruct (decide (order_id = x)) as [->|Hne].
    + rewrite (bool_decide_eq_true_2 (x = x)) by done. cbn [length].
      rewrite (bool_decide_eq_true_2 (x ∈ x :: ids)) by apply list_elem_of_here.
      case_bool_decide as Hin.
      * rewrite andb_false_r.
        pose proof (occurrences_pos x ids Hin) as Hpos.
        unfold occurrences in Hpos.
        rewrite bool_decide_eq_false_2 by lia. done.
      * rewrite lookup_insert_eq.
        pose proof (occurrences_zero x ids Hin) as Hzero.
        unfold occurrences in Hzero. rewrite Hzero.
        by rewrite bool_decide_eq_true_2.
    + rewrite (bool_decide_eq_false_2 (x = order_id)) by done.
      rewrite lookup_insert_ne by done.
      case_bool_decide as Hin.
      * rewrite (bool_decide_eq_true_2 (order_id ∈ x :: ids))
          by (by apply elem_of_cons; right).
        done.
      * rewrite (bool_decide_eq_false_2 (order_id ∈ x :: ids)); [done|].
        intros [?|?]%elem_of_cons; done.
Qed.

(** X17: [batch_cancel_orders] reports for each id of the list whether its
    cancel request was accepted — except that an id listed more than once is
    reported False, even when its first request was accepted; ids not in the
    list are not reported. *)
Theorem batch_cancel_orders_results (self : OrderManager.t)
    (order_ids : list string) (now : datetime) (order_id : string) :
  (OrderManager.batch_cancel_orders self order_ids now).1.2 !! order_id
  = if bool_decide (order_id ∈ order_ids)
    then Some (bool_decide (occurrences order_id order_ids = 1)
               && open_for_cancel self order_id)
    else None.
Proof.
  unfold OrderManager.batch_cancel_orders.
  rewrite batch_cancel_orders_loop_results.
  case_bool_decide; [done|apply lookup_empty].
Qed.

(** The first fill leaves the order open; listing it twice reports False
    although the cancel request went out. *)
Example batch_cancel_duplicate :
  (OrderManager.batch_cancel_orders after_first_fill ["O"] 4%Z).1.2 !! "O"
  = Some true
  ∧ (OrderManager.batch_cancel_orders after_first_fill ["O"; "O"] 4%Z).1.2
    !! "O" = Some false
  ∧ length (OrderManager.batch_cancel_orders after_first_fill ["O"; "O"]
              4%Z).2 = 1.
Proof. repeat split; vm_compute; reflexivity. Qed.

(** X18: an accepted cancel request marks the order PENDING_CANCEL and
    publishes it, but leaves it in the active set; the order leaves the
    active set when the published ORDER_UPDATE comes back through
    [_handle_order_update]. *)
Theorem cancel_order_then_update (self : OrderManager.t)
    (order_id : string) (now : datetime) (order : Order.t) :
  OrderManager.orders self !! order_id = Some order →
  Order.order_id order = order_id →
  open_for_cancel self order_id = true →
  let cancelling :=
    Order.set_updated_at now (Order.set_status PENDING_CANCEL order) in
  let requested := (OrderManager.cancel_order self order_id now).1.1 in
  let updated :=
    (OrderManager._handle_order_update requested
       (OrderManager.order_update_event cancelling now)).1 in
  OrderManager.cancel_order self order_id now
  = (requested, true, [OrderManager.order_update_event cancelling now])
  ∧ OrderManager.get_order requested order_id = Some cancelling
  ∧ order_id ∈ OrderManager.active_orders requested
  ∧ OrderManager.get_order updated order_id = Some cancelling
  ∧ order_id ∉ OrderManager.active_orders updated.
Proof.
  intros Hknown Hid Hopen. cbv zeta. revert Hopen.
  unfold open_for_cancel, OrderManager.cancel_order.
  rewrite Hknown. destruct (bool_decide _) eqn:Hin; [|discriminate].
  apply bool_decide_eq_true in Hin. cbn [andb].
  intros ->. cbn [fst snd].
  split; [reflexivity|]. split; [apply lookup_insert_eq|].
  split; [exact Hin|].
  unfold OrderManager._handle_order_update, OrderManager.get_order.
  cbn [Event.data OrderManager.order_update_event fst].
  rewrite orders_update_order_state, active_update_order_state.
  cbn [Order.is_active Order.status Order.set_updated_at Order.set_status
       Order.order_id].
  rewrite Hid. split; [apply lookup_insert_eq|]. set_solver.
Qed.

Lemma cancel_order_then_update_witness :
  let order :=
    Order.set_updated_at 2%Z
      (Order.set_status PARTIALLY_FILLED
         (Order.set_average_fill_price (Some 99%Q)
            (Order.set_filled_quantity (0 + 3)
               (Order.set_updated_at 1%Z
                  (Order.set_created_at 1%Z limit_buy_10))))) in
  let cancelling :=
    Order.set_updated_at 4%Z (Order.set_status PENDING_CANCEL order) in
  OrderManager.cancel_order after_first_fill "O" 4%Z
  = ((OrderManager.cancel_order after_first_fill "O" 4%Z).1.1, true,
     [OrderManager.order_update_event cancelling 4%Z])
  ∧ "O" ∈ OrderManager.active_orders
            (OrderManager.cancel_order after_first_fill "O" 4%Z).1.1
  ∧ "O" ∉ OrderManager.active_orders
            (OrderManager._handle_order_update
               (OrderManager.cancel_order after_first_fill "O" 4%Z).1.1
               (OrderManager.order_update_event cancelling 4%Z)).1.
Proof.
  cbv zeta.
  pose proof (cancel_order_then_update after_first_fill "O" 4%Z
                (Order.set_updated_at 2%Z
                   (Order.set_status PARTIALLY_FILLED
                      (Order.set_average_fill_price (Some 99%Q)
                         (Order.set_filled_quantity (0 + 3)
                            (Order.set_updated_at 1%Z
                               (Order.set_created_at 1%Z limit_buy_10))))))
                eq_refl eq_refl eq_refl) as (H1 & _ & H3 & _ & H5).
  split; [exact H1|]. split; [exact H3|exact H5].
Defined.

(** ** Order manager: trades *)

(** The manager after handling the TRADE_UPDATE events of a list of
    trades. *)
Definition handle_trade_updates (self : OrderManager.t)
    (trades : list Trade.t) (now : datetime) : OrderManager.t :=
  foldl
    (λ self trade,
       (OrderManager._handle_trade_update self (trade_update_event trade)
          now).1.1)
    self trades.

Lemma trade_update_trades (self : OrderManager.t) (trade : Trade.t)
    (now : datetime) :
  OrderManager.trades
    (OrderManager._handle_trade_update self (trade_update_event trade)
       now).1.1
  = <[Trade.order_id trade :=
        OrderManager.get_trades self (Trade.order_id trade) ++ [trade]]>
      (OrderManager.trades self).
Proof.
  unfold OrderManager._handle_trade_update, OrderManager.get_trades. cbn.
  destruct (OrderManager.orders self !! Trade.order_id trade); [|done].
  destruct (Order.average_fill_price _);
    [destruct (PyFloat.eqb _ 0); [done|]|];
    (destruct (PyFloat.ltb _ _); [|destruct (PyFloat.gtb _ _)]); done.
Qed.

(** X19: every trade handled is recorded, in arrival order, under the order id
    it names: for a known order, for an order the manager has never seen,
    and also when the update of the order raises. *)
Theorem trades_recorded (trades : list Trade.t) (self : OrderManager.t)
    (now : datetime) (order_id : string) :
  OrderManager.get_trades (handle_trade_updates self trades now) order_id
  = OrderManager.get_trades self order_id
    ++ List.filter (λ trade, bool_decide (Trade.order_id trade = order_id))
         trades.
Proof.
  unfold handle_trade_updates. revert self.
  induction trades as [|trade trades IH]; intros self; cbn [foldl List.filter].
  - by rewrite app_nil_r.
  - rewrite IH. unfold OrderManager.get_trades at 1.
    rewrite trade_update_trades. case_bool_decide as Hid.
    + subst order_id. rewrite lookup_insert_eq. cbn.
      by rewrite <- app_assoc.
    + by rewrite lookup_insert_ne.
Qed.

(** ** Event processor: what sequencing guarantees *)

(** The sequence numbers of the events of a source that the handlers have
    been called with, in call order. *)
Definition delivered_from (self : EventProcessor.t) (source : string)
    : list Z :=
  omap
    (λ call : EventProcessor.handler * Event.t,
       if decide (Event.source call.2 = source)
       then Event.sequence_id call.2 else None)
    (EventProcessor.handler_calls self).

(** Exactly one handler is registered for the type of the event. *)
Definition single_handler
    (handlers : gmap EventType (list EventProcessor.handler))
    (event : Event.t) : Prop :=
  ∃ h, handlers !! Event.event_type event = Some [h].

(** The events held back for a source are filed under their own sequence
    number, which is at least [low]. *)
Definition buffer_ok (handlers : gmap EventType (list EventProcessor.handler))
    (source : string) (low : Z) (held : gmap Z Event.t) : Prop :=
  ∀ k event,
    held !! k = Some event →
    Event.source event = source
    ∧ Event.sequence_id event = Some k
    ∧ single_handler handlers event
    ∧ (low <= k)%Z.

Lemma seqZ_snoc (n : Z) : (0 <= n)%Z → seqZ 0 (n + 1) = seqZ 0 n ++ [n].
Proof.
  intros Hn. by rewrite seqZ_app by lia.
Qed.

Lemma seqZ_first (m n : Z) :
  (0 <= n)%Z → seqZ m (n + 1) = m :: seqZ (m + 1) n.
Proof.
  intros Hn. rewrite seqZ_cons by lia. do 2 f_equal; lia.
Qed.

Lemma defaultdict_get_default `{Countable K} {V} (d : V) (k k' : K)
    (m : gmap K V) :
  default d ((defaultdict_get d k m).2 !! k') = default d (m !! k').
Proof.
  unfold defaultdict_get. destruct (m !! k) eqn:E; cbn; [done|].
  destruct (decide (k' = k)) as [->|Hne].
  - by rewrite lookup_insert_eq, E.
  - by rewrite lookup_insert_ne.
Qed.

Lemma process_event_delivered (self : EventProcessor.t) (event : Event.t) :
  single_handler (EventProcessor.handlers self) event →
  EventProcessor.handlers (EventProcessor._process_event self event)
  = EventProcessor.handlers self
  ∧ ∀ source,
      delivered_from (EventProcessor._process_event self event) source
      = delivered_from self source
        ++ (if decide (Event.source event = source)
            then option_list (Event.sequence_id event) else []).
Proof.
  intros [h Hh]. unfold EventProcessor._process_event. rewrite Hh.
  split; [reflexivity|]. intros source. unfold delivered_from. cbn.
  rewrite omap_app. f_equal. cbn.
  destruct (decide _); [|done]. by destruct (Event.sequence_id event).
Qed.

(** [lia] on a goal whose context has local definitions. *)
Ltac lia_clearbody :=
  repeat match goal with x := _ |- _ => clearbody x end; lia.

Section drain.

Variable source : string.

(** The draining loop hands over, in order, the run of consecutive buffered
    events that starts at [next_seq], moves the counter past them, and
    touches no other source. *)
Lemma drain_pending_delivers (turns : nat) :
  ∀ (self : EventProcessor.t) (next_seq : Z),
    size (buffered self source) < turns →
    EventProcessor.sequence_counters self !! source = Some next_seq →
    buffer_ok (EventProcessor.handlers self) source next_seq
      (buffered self source) →
    let drained :=
      EventProcessor.drain_pending turns self source next_seq in
    ∃ n,
      (0 <= n)%Z
      ∧ expected_seq drained source = (next_seq + n)%Z
      ∧ EventProcessor.handlers drained = EventProcessor.handlers self
      ∧ delivered_from drained source
        = delivered_from self source ++ seqZ next_seq n
      ∧ buffer_ok (EventProcessor.handlers drained) source
          (next_seq + n + 1) (buffered drained source)
      ∧ ∀ other,
          other ≠ source →
          delivered_from drained other = delivered_from self other
          ∧ expected_seq drained other = expected_seq self other
          ∧ buffered drained other = buffered self other.
Proof.
  induction turns as [|turns IH]; intros self next_seq Hsize Hcounter Hok;
    [lia|].
  cbn [EventProcessor.drain_pending].
  pose proof (defaultdict_get_value ∅ source
                (EventProcessor.pending_events self)) as Hvalue.
  pose proof (λ k', defaultdict_get_default (∅ : gmap Z Event.t) source k'
                (EventProcessor.pending_events self)) as Hother.
  destruct (defaultdict_get ∅ source (EventProcessor.pending_events self))
    as [held pending]. cbn [fst snd] in Hvalue, Hother.
  fold (buffered self source) in Hvalue. subst held.
  destruct (buffered self source !! next_seq) as [pending_event|] eqn:Hnext.
  - destruct (Hok _ _ Hnext) as (Hsource & Hseq & Hsingle & _).
    set (self2 :=
           EventProcessor.set_pending_events
             (<[source := delete next_seq (buffered self source)]>
                (EventProcessor.pending_events
                   (EventProcessor.set_pending_events pending self)))
             (EventProcessor.set_pending_events pending self)).
    destruct (process_event_delivered self2 pending_event Hsingle)
      as [Hhandlers Hdelivered].
    destruct (process_event_frame self2 pending_event) as [Hc Hp].
    unfold defaultdict_get. rewrite Hc.
    change (EventProcessor.sequence_counters self2)
      with (EventProcessor.sequence_counters self).
    rewrite Hcounter.
    set (self4 :=
           EventProcessor.set_sequence_counters
             (<[source := (next_seq + 1)%Z]>
                (EventProcessor.sequence_counters self))
             (EventProcessor._process_event self2 pending_event)).
    assert (buffered self4 source = delete next_seq (buffered self source))
      as Hheld.
    { unfold buffered, self4. cbn [EventProcessor.pending_events
        EventProcessor.set_sequence_counters].
      rewrite Hp. unfold self2. cbn [EventProcessor.pending_events
        EventProcessor.set_pending_events].
      by rewrite lookup_insert_eq. }
    assert (EventProcessor.handlers self4 = EventProcessor.handlers self)
      as Hhandlers4 by exact Hhandlers.
    destruct (IH self4 (next_seq + 1)%Z) as (n & Hn & He & Hh & Hd & Hb & Ho).
    + rewrite Hheld, map_size_delete_Some by eauto.
      assert (size (buffered self source) ≠ 0) as Hsome; [|lia_clearbody].
      apply map_size_non_empty_iff. intros Hempty.
      rewrite Hempty in Hnext. by rewrite lookup_empty in Hnext.
    + apply lookup_insert_eq.
    + rewrite Hheld. intros k event Hk.
      destruct (decide (k = next_seq)) as [->|Hne];
        [by rewrite lookup_delete_eq in Hk|].
      rewrite lookup_delete_ne in Hk by done.
      destruct (Hok _ _ Hk) as (? & ? & ? & ?).
      repeat split; try done; [by rewrite Hhandlers4|lia_clearbody].
    + exists (n + 1)%Z. split; [lia_clearbody|].
      split; [rewrite He; lia_clearbody|].
      split; [by rewrite Hh|]. split; [|split].
      * rewrite Hd. unfold self4 at 1.
        change (delivered_from
                  (EventProcessor.set_sequence_counters _
                     (EventProcessor._process_event self2 pending_event))
                  source)
          with (delivered_from
                  (EventProcessor._process_event self2 pending_event) source).
        rewrite Hdelivered, Hsource, Hseq. rewrite decide_True by done.
        cbn [option_list].
        change (delivered_from self2 source)
          with (delivered_from self source).
        rewrite <- app_assoc. f_equal. symmetry. by apply seqZ_first.
      * replace (next_seq + (n + 1) + 1)%Z with (next_seq + 1 + n + 1)%Z
          by lia_clearbody.
        exact Hb.
      * intros other Hne. destruct (Ho other Hne) as (Ho1 & Ho2 & Ho3).
        rewrite Ho1, Ho2, Ho3. split; [|split].
        -- change (delivered_from self4 other)
             with (delivered_from
                     (EventProcessor._process_event self2 pending_event)
                     other).
           rewrite Hdelivered, Hsource. rewrite decide_False by done.
           by rewrite app_nil_r.
        -- unfold expected_seq, self4.
           cbn [EventProcessor.sequence_counters
                EventProcessor.set_sequence_counters].
           by rewrite lookup_insert_ne.
        -- unfold buffered, self4.
           cbn [EventProcessor.pending_events
                EventProcessor.set_sequence_counters].
           rewrite Hp. unfold self2.
           cbn [EventProcessor.pending_events
                EventProcessor.set_pending_events].
           rewrite lookup_insert_ne by done. apply Hother.
  - exists 0%Z. split; [lia|].
    assert (buffered (EventProcessor.set_pending_events pending self) source
            = buffered self source) as Hheld by apply Hother.
    split; [unfold expected_seq; cbn; rewrite Hcounter; cbn; lia|].
    split; [reflexivity|].
    split; [by rewrite seqZ_nil, app_nil_r by lia|].
    split.
    + rewrite Hheld. intros k event Hk.
      destruct (Hok _ _ Hk) as (? & ? & ? & ?). repeat split; try done.
      destruct (decide (k = next_seq)) as [->|Hne]; [congruence|lia].
    + intros other Hne. repeat split. apply Hother.
Qed.

End drain.

(** For every source, the handlers have seen exactly the sequence numbers
    below the expected one, each once, and what is held back lies beyond the
    expected one. *)
Definition sequencing_ok (self : EventProcessor.t) : Prop :=
  ∀ source,
    delivered_from self source ≡ₚ seqZ 0 (expected_seq self source)
    ∧ (0 <= expected_seq self source)%Z
    ∧ buffer_ok (EventProcessor.handlers self) source
        (expected_seq self source + 1) (buffered self source).

Lemma event_loop_turn_sequencing (self : EventProcessor.t)
    (event : Event.t) :
  sequencing_ok self →
  single_handler (EventProcessor.handlers self) event →
  sequencing_ok (EventProcessor.event_loop_turn self event)
  ∧ EventProcessor.handlers (EventProcessor.event_loop_turn self event)
    = EventProcessor.handlers self.
Proof.
  intros Hok Hsingle.
  unfold EventProcessor.event_loop_turn,
    EventProcessor._handle_sequenced_event.
  destruct (Event.sequence_id event) as [sequence_id|] eqn:Hseq.
  2:{ (* no sequence number *)
    destruct (process_event_delivered self event Hsingle) as [Hh Hd].
    destruct (process_event_frame self event) as [Hc Hp].
    split; [|exact Hh]. intros source.
    destruct (Hok source) as (Hperm & Hpos & Hbuf).
    unfold expected_seq, buffered. rewrite Hh, Hc, Hp, Hd, Hseq.
    destruct (decide _); cbn [option_list]; by rewrite app_nil_r. }
  pose proof (defaultdict_get_value 0%Z (Event.source event)
                (EventProcessor.sequence_counters self)) as Hvalue.
  pose proof (λ k', defaultdict_get_default 0%Z (Event.source event) k'
                (EventProcessor.sequence_counters self)) as Hcounters.
  pose proof (defaultdict_get_lookup 0%Z (Event.source event)
                (EventProcessor.sequence_counters self)) as Hlookup.
  destruct (defaultdict_get 0%Z (Event.source event)
              (EventProcessor.sequence_counters self))
    as [expected counters]. cbn [fst snd] in Hvalue, Hcounters, Hlookup.
  fold (expected_seq self (Event.source event)) in Hvalue. subst expected.
  set (source := Event.source event) in *.
  destruct (Hok source) as (Hperm & Hpos & Hbuf).
  set (expected := expected_seq self source) in *.
  destruct (Z.eqb_spec sequence_id expected) as [->|Hne].
  - (* the expected event *)
    set (self2 :=
           EventProcessor.set_sequence_counters
             (<[source := (expected + 1)%Z]>
                (EventProcessor.sequence_counters
                   (EventProcessor.set_sequence_counters counters self)))
             (EventProcessor.set_sequence_counters counters self)).
    destruct (drain_pending_delivers source
                (S (size (default ∅
                            (EventProcessor.pending_events self2 !! source))))
                self2 (expected + 1)%Z)
      as (n & Hn & He & Hh & Hd & Hb & Ho).
    { unfold buffered. lia. }
    { apply lookup_insert_eq. }
    { exact Hbuf. }
    cbn [fst].
    set (drained :=
           EventProcessor.drain_pending
             (S (size (default ∅
                         (EventProcessor.pending_events self2 !! source))))
             self2 source (expected + 1)) in *.
    assert (single_handler (EventProcessor.handlers drained) event)
      as Hsingle' by (by rewrite Hh).
    destruct (process_event_delivered drained event Hsingle') as [Hh' Hd'].
    destruct (process_event_frame drained event) as [Hc' Hp'].
    split; [|by rewrite Hh', Hh].
    intros s. unfold expected_seq, buffered. rewrite Hh', Hc', Hp', Hd'.
    fold (expected_seq drained s). fold (buffered drained s).
    fold source. rewrite Hseq. cbn [option_list].
    destruct (decide (source = s)) as [<-|Hs].
    + rewrite He, Hd.
      change (delivered_from self2 source)
        with (delivered_from self source).
      split; [|split; [lia_clearbody|exact Hb]].
      rewrite Hperm.
      replace (expected + 1 + n)%Z with (expected + (n + 1))%Z by lia.
      rewrite (seqZ_app 0 expected (n + 1)) by lia.
      rewrite (seqZ_first (0 + expected)) by lia.
      rewrite Z.add_0_l. rewrite <- app_assoc.
      apply Permutation_app_head. symmetry. apply Permutation_cons_append.
    + destruct (Ho s) as (Ho1 & Ho2 & Ho3); [done|].
      rewrite app_nil_r, Ho1, Ho2, Ho3.
      destruct (Hok s) as (Hperm_s & Hpos_s & Hbuf_s).
      assert (expected_seq self2 s = expected_seq self s) as ->.
      { unfold expected_seq, self2.
        cbn [EventProcessor.sequence_counters
             EventProcessor.set_sequence_counters].
        rewrite lookup_insert_ne by done. apply Hcounters. }
      rewrite Hh. done.
  - destruct (sequence_id >? expected)%Z eqn:Hgt.
    + (* ahead of the expected one: buffered *)
      pose proof (defaultdict_get_value ∅ source
                    (EventProcessor.pending_events
                       (EventProcessor.set_sequence_counters counters self)))
        as Hheld.
      pose proof (λ k', defaultdict_get_default (∅ : gmap Z Event.t) source
                    k'
                    (EventProcessor.pending_events
                       (EventProcessor.set_sequence_counters counters self)))
        as Hpending.
      destruct (defaultdict_get ∅ source _) as [held pending].
      cbn [fst snd] in Hheld, Hpending.
      change (default ∅
                (EventProcessor.pending_events
                   (EventProcessor.set_sequence_counters counters self)
                 !! source))
        with (buffered self source) in Hheld. subst held.
      split; [|reflexivity]. intros s.
      destruct (Hok s) as (Hperm_s & Hpos_s & Hbuf_s).
      unfold expected_seq, buffered.
      cbn [EventProcessor.sequence_counters EventProcessor.pending_events
           EventProcessor.set_pending_events
           EventProcessor.set_sequence_counters EventProcessor.handlers].
      rewrite Hcounters. fold (expected_seq self s).
      split; [exact Hperm_s|]. split; [exact Hpos_s|].
      destruct (decide (s = source)) as [->|Hs].
      * rewrite lookup_insert_eq. cbn [default from_option id].
        intros k e Hk. destruct (decide (k = sequence_id)) as [->|Hk'].
        -- rewrite lookup_insert_eq in Hk. injection Hk as <-.
           repeat split; [done|done|lia].
        -- rewrite lookup_insert_ne in Hk by done. by apply Hbuf.
      * rewrite lookup_insert_ne by done.
        change (buffer_ok (EventProcessor.handlers self) s
                  (expected_seq self s + 1) (default ∅ (pending !! s))).
        rewrite (Hpending s). exact Hbuf_s.
    + (* behind the expected one: dropped *)
      split; [|reflexivity]. intros s.
      destruct (Hok s) as (Hperm_s & Hpos_s & Hbuf_s).
      unfold expected_seq.
      cbn [EventProcessor.sequence_counters
           EventProcessor.set_sequence_counters].
      rewrite Hcounters. done.
Qed.

Lemma event_loop_sequencing (dequeued : list Event.t) :
  ∀ self : EventProcessor.t,
    sequencing_ok self →
    Forall (single_handler (EventProcessor.handlers self)) dequeued →
    sequencing_ok (EventProcessor.event_loop self dequeued).
Proof.
  unfold EventProcessor.event_loop.
  induction dequeued as [|event dequeued IH]; intros self Hok Hall;
    [exact Hok|].
  apply Forall_cons in Hall as [Hevent Hall]. cbn [foldl].
  destruct (event_loop_turn_sequencing self event Hok Hevent) as [Hok' Hh].
  apply IH; [exact Hok'|]. by rewrite Hh.
Qed.

Lemma sequencing_ok_fresh (self : EventProcessor.t) :
  EventProcessor.sequence_counters self = ∅ →
  EventProcessor.pending_events self = ∅ →
  EventProcessor.handler_calls self = [] →
  sequencing_ok self.
Proof.
  intros Hc Hp Hcalls source.
  unfold delivered_from, expected_seq, buffered.
  rewrite Hc, Hp, Hcalls, !lookup_empty. cbn.
  split; [done|]. split; [done|]. intros k event Hk.
  by rewrite lookup_empty in Hk.
Qed.

(** X20: started with nothing counted, buffered or delivered, and with one
    handler for the type of every event taken from the queue, the loop has
    called the handler, for each source, with exactly the sequence numbers
    0, ..., expected - 1, each once (in some order), and every event still
    held back for the source has a number above the expected one: no number
    is delivered twice and none is passed over. *)
Theorem sequenced_delivery_complete (self : EventProcessor.t)
    (dequeued : list Event.t) (source : string) :
  EventProcessor.sequence_counters self = ∅ →
  EventProcessor.pending_events self = ∅ →
  EventProcessor.handler_calls self = [] →
  Forall (single_handler (EventProcessor.handlers self)) dequeued →
  let final := EventProcessor.event_loop self dequeued in
  delivered_from final source ≡ₚ seqZ 0 (expected_seq final source)
  ∧ ∀ k event,
      buffered final source !! k = Some event →
      (expected_seq final source < k)%Z
      ∧ Event.sequence_id event = Some k.
Proof.
  intros Hc Hp Hcalls Hall final.
  destruct (event_loop_sequencing dequeued self
              (sequencing_ok_fresh self Hc Hp Hcalls) Hall source)
    as (Hperm & _ & Hbuf).
  split; [exact Hperm|]. intros k event Hk.
  destruct (Hbuf k event Hk) as (_ & Hid & _ & Hlow).
  split; [|exact Hid]. fold final in Hlow. lia_clearbody.
Qed.

Lemma sequenced_delivery_complete_witness :
  let final :=
    EventProcessor.event_loop one_handler
      [sequenced 0; sequenced 3; sequenced 2; sequenced 0] in
  delivered_from final "S" ≡ₚ seqZ 0 (expected_seq final "S")
  ∧ ∀ k event,
      buffered final "S" !! k = Some event →
      (expected_seq final "S" < k)%Z ∧ Event.sequence_id event = Some k.
Proof.
  apply (sequenced_delivery_complete one_handler
           [sequenced 0; sequenced 3; sequenced 2; sequenced 0] "S").
  - reflexivity.
  - reflexivity.
  - reflexivity.
  - repeat constructor; exists 1%nat; vm_compute; reflexivity.
Defined.

(** ** Event processor: what [publish] does to the queue *)

Definition count_results (p : EventProcessor.publish_result → bool)
    (results : list EventProcessor.publish_result) : Z :=
  Z.of_nat (length (List.filter p results)).

Definition dropped (result : EventProcessor.publish_result) : bool :=
  match result with
  | EventProcessor.Dropped => true
  | _ => false
  end.

Lemma publish_enqueue_outcome (self : EventProcessor.t) (event : Event.t)
    (now : Q) (utcnow : datetime) :
  let result := EventProcessor.publish_enqueue self event now utcnow in
  let queue := EventProcessor.event_queue self in
  EventProcessor.maxsize (EventProcessor.event_queue result.1)
  = EventProcessor.maxsize queue
  ∧ EventProcessor.dropped_events_count result.1
    = EventProcessor.dropped_events_count self
  ∧ match result.2 with
    | EventProcessor.Accepted =>
        EventProcessor.full queue = false
        ∧ EventProcessor.entries (EventProcessor.event_queue result.1)
          = EventProcessor.entries queue
            ++ [(Event.priority event, now, event)]
    | EventProcessor.Suspended =>
        EventProcessor.full queue = true
        ∧ EventProcessor.event_queue result.1 = queue
    | EventProcessor.Dropped => False
    end.
Proof.
  unfold EventProcessor.publish_enqueue, EventProcessor.put.
  destruct (EventProcessor.full (EventProcessor.event_queue self)) eqn:Hfull;
    [done|].
  cbn. by destruct (PyFloat.gtb _ 5).
Qed.

Lemma publish_outcome (self : EventProcessor.t) (event : Event.t)
    (now : Q) (utcnow : datetime) :
  let result := EventProcessor.publish self event now utcnow in
  let queue := EventProcessor.event_queue self in
  EventProcessor.maxsize (EventProcessor.event_queue result.1)
  = EventProcessor.maxsize queue
  ∧ match result.2 with
    | EventProcessor.Accepted =>
        EventProcessor.full queue = false
        ∧ EventProcessor.entries (EventProcessor.event_queue result.1)
          = EventProcessor.entries queue
            ++ [(Event.priority event, now, event)]
        ∧ EventProcessor.dropped_events_count result.1
          = EventProcessor.dropped_events_count self
    | EventProcessor.Suspended =>
        EventProcessor.full queue = true
        ∧ EventProcessor.event_queue result.1 = queue
        ∧ EventProcessor.dropped_events_count result.1
          = EventProcessor.dropped_events_count self
    | EventProcessor.Dropped =>
        is_Some (EventProcessor.throttle_levels self
                 !! Event.event_type event)
        ∧ EventProcessor.event_queue result.1 = queue
        ∧ EventProcessor.dropped_events_count result.1
          = (EventProcessor.dropped_events_count self + 1)%Z
    end.
Proof.
  unfold EventProcessor.publish.
  destruct (EventProcessor.throttle_levels self !! Event.event_type event)
    as [max_events|] eqn:Hlevel.
  - destruct (defaultdict_get now _ _) as [last_reset resets].
    match goal with
    | |- context [defaultdict_get 0%Z ?k ?m] =>
        destruct (defaultdict_get 0%Z k m) as [count counters]
    end.
    destruct (max_events <=? count)%Z.
    + cbn. by destruct (PyFloat.geb _ 1).
    + match goal with
      | |- context [EventProcessor.publish_enqueue ?s _ _ _] =>
          pose proof (publish_enqueue_outcome s event now utcnow) as Hout;
          assert (EventProcessor.event_queue s
                  = EventProcessor.event_queue self
                  ∧ EventProcessor.dropped_events_count s
                    = EventProcessor.dropped_events_count self)
            as [Hq Hd] by (by destruct (PyFloat.geb _ 1));
          destruct (EventProcessor.publish_enqueue s event now utcnow)
            as [self' result]
      end.
      cbn in *. rewrite Hq, Hd in Hout.
      destruct Hout as (Hm & Hdropped & Hout). split; [done|].
      destruct result; [|done|]; destruct Hout; done.
  - pose proof (publish_enqueue_outcome self event now utcnow) as Hout.
    destruct (EventProcessor.publish_enqueue self event now utcnow)
      as [self' result].
    cbn in *. destruct Hout as (Hm & Hdropped & Hout). split; [done|].
    destruct result; [|done|]; destruct Hout; done.
Qed.

Lemma count_results_cons (p : EventProcessor.publish_result → bool)
    (result : EventProcessor.publish_result)
    (results : list EventProcessor.publish_result) :
  count_results p (result :: results)
  = ((if p result then 1 else 0) + count_results p results)%Z.
Proof.
  unfold count_results. cbn. destruct (p result); cbn [length]; lia.
Qed.

(** The clock readings of a list of queue entries are pairwise different. *)
Fixpoint distinct_times (times : list Q) : Prop :=
  match times with
  | [] => True
  | t :: times => Forall (λ t', ¬ (t == t')%Q) times ∧ distinct_times times
  end.

(** The enqueue times of the entries already in the queue, followed by the
    clock readings of the calls. *)
Definition enqueue_times (self : EventProcessor.t)
    (calls : list (Event.t * Q * datetime)) : list Q :=
  map (λ entry : Z * Q * Event.t, entry.1.2)
    (EventProcessor.entries (EventProcessor.event_queue self))
  ++ map (λ call : Event.t * Q * datetime, call.1.2) calls.

Lemma distinct_times_remove (before after : list Q) (t : Q) :
  distinct_times (before ++ t :: after) → distinct_times (before ++ after).
Proof.
  induction before as [|t' before IH]; cbn; [by intros [_ H]|].
  intros [Hall Hrest]. split; [|by apply IH].
  apply Forall_app in Hall as [Hbefore Hafter].
  apply Forall_cons in Hafter as [_ Hafter]. by apply Forall_app.
Qed.

(** X21: over any series of [publish] calls whose clock readings differ from
    one another and from the enqueue times of the entries already queued (so
    that no two entries tie on priority and time), the queue grows by one
    entry per call that returned True and [dropped_events_count] by one per
    call that returned False; a queue built with a positive [maxsize] and
    not above it never gets above it. *)
Theorem publish_all_accounting (calls : list (Event.t * Q * datetime)) :
  ∀ self : EventProcessor.t,
    let queue := EventProcessor.event_queue self in
    let final := (publish_all self calls).1 in
    let results := (publish_all self calls).2 in
    distinct_times (enqueue_times self calls) →
    (0 < EventProcessor.maxsize queue)%Z →
    (EventProcessor.qsize queue <= EventProcessor.maxsize queue)%Z →
    EventProcessor.qsize (EventProcessor.event_queue final)
    = (EventProcessor.qsize queue + count_results accepted results)%Z
    ∧ EventProcessor.dropped_events_count final
      = (EventProcessor.dropped_events_count self
         + count_results dropped results)%Z
    ∧ (EventProcessor.qsize (EventProcessor.event_queue final)
       <= EventProcessor.maxsize queue)%Z.
Proof.
  induction calls as [|[[event now] utcnow] calls IH];
    intros self queue final results Htimes Hpos Hsize;
    subst queue final results.
  - cbn. unfold count_results. cbn. lia.
  - rewrite publish_all_cons. cbv zeta. cbn [fst snd].
    pose proof (publish_outcome self event now utcnow) as [Hmax Hout].
    cbv zeta in Hmax, Hout.
    set (first := EventProcessor.publish self event now utcnow) in *.
    specialize (IH first.1). cbv zeta in IH.
    rewrite Hmax in IH. rewrite !count_results_cons.
    clearbody first. destruct first as [self' result]. cbn [fst snd] in *.
    assert (EventProcessor.qsize (EventProcessor.event_queue self')
            = (EventProcessor.qsize (EventProcessor.event_queue self)
               + (if accepted result then 1 else 0))%Z
            ∧ EventProcessor.dropped_events_count self'
              = (EventProcessor.dropped_events_count self
                 + (if dropped result then 1 else 0))%Z
            ∧ (EventProcessor.qsize (EventProcessor.event_queue self')
               <= EventProcessor.maxsize (EventProcessor.event_queue self))%Z
            ∧ distinct_times (enqueue_times self' calls))
      as (Hq & Hd & Hle & Htimes').
    { unfold enqueue_times in *. cbn [map fst snd] in Htimes.
      destruct result; cbn [accepted dropped].
      - destruct Hout as (Hfull & Hentries & Hdropped).
        unfold EventProcessor.qsize. rewrite Hentries, length_app.
        cbn [length]. split; [lia|]. split; [lia|]. split.
        + unfold EventProcessor.full, EventProcessor.qsize in Hfull.
          destruct (EventProcessor.maxsize _ <=? 0)%Z eqn:E; [lia|].
          apply Z.leb_gt in Hfull. lia.
        + rewrite map_app. cbn [map fst snd]. by rewrite <- app_assoc.
      - destruct Hout as (_ & -> & ->).
        split; [lia|]. split; [lia|]. split; [lia|].
        by apply distinct_times_remove in Htimes.
      - destruct Hout as (_ & -> & ->).
        split; [lia|]. split; [lia|]. split; [lia|].
        by apply distinct_times_remove in Htimes. }
    destruct (IH Htimes' Hpos Hle) as (IHq & IHd & IHle).
    split; [lia|]. split; [lia|]. exact IHle.
Qed.

Definition small_queue : EventProcessor.t :=
  EventProcessor.set_throttle_levels {[MARKET_DATA := 1%Z]}
    (EventProcessor.new 2 0).

Lemma publish_all_accounting_witness :
  let calls := publish_quotes_at [0; 0.5; 1.5; 3]%Q in
  let final := (publish_all small_queue calls).1 in
  let results := (publish_all small_queue calls).2 in
  results = [EventProcessor.Accepted; EventProcessor.Dropped;
             EventProcessor.Accepted; EventProcessor.Suspended]
  ∧ EventProcessor.qsize (EventProcessor.event_queue final)
    = (0 + count_results accepted results)%Z
  ∧ EventProcessor.dropped_events_count final
    = (0 + count_results dropped results)%Z
  ∧ (EventProcessor.qsize (EventProcessor.event_queue final) <= 2)%Z.
Proof.
  split; [vm_compute; reflexivity|].
  apply (publish_all_accounting
           (publish_quotes_at [0; 0.5; 1.5; 3]%Q) small_queue).
  - cbn. repeat (split || constructor); intros H; vm_compute in H;
      discriminate H.
  - vm_compute. reflexivity.
  - vm_compute. discriminate.
Defined.

(** X22: a [publish] of a throttled type a second or more after the window of
    the type opened starts a new window at the time of the call, whatever
    the old count was: with a limit of at least one the event passes the
    throttle and is the first of the new window; with a limit below one it
    is dropped. *)
Theorem publish_opens_new_window (self : EventProcessor.t) (event : Event.t)
    (now : Q) (utcnow : datetime) (max_events : Z) (last_reset : Q) :
  let ty := Event.event_type event in
  let result := EventProcessor.publish self event now utcnow in
  EventProcessor.throttle_levels self !! ty = Some max_events →
  EventProcessor._throttle_last_reset self !! ty = Some last_reset →
  (1 <= now - last_reset)%Q →
  EventProcessor._throttle_last_reset result.1 !! ty = Some now
  ∧ if (1 <=? max_events)%Z
    then result.2 ≠ EventProcessor.Dropped
         ∧ throttle_count result.1 ty = 1%Z
    else result.2 = EventProcessor.Dropped
         ∧ throttle_count result.1 ty = 0%Z.
Proof.
  intros ty result Hlevel Hreset Hwindow.
  assert (∃ inner,
            result
            = (if (1 <=? max_events)%Z
               then EventProcessor.publish_enqueue inner event now utcnow
               else (EventProcessor.set_dropped_events_count
                       (EventProcessor.dropped_events_count inner + 1) inner,
                     EventProcessor.Dropped))
            ∧ EventProcessor._throttle_last_reset inner !! ty = Some now
            ∧ throttle_count inner ty
              = if (1 <=? max_events)%Z then 1%Z else 0%Z)
    as (inner & -> & Hl & Hc).
  { subst result. unfold EventProcessor.publish. fold ty. rewrite Hlevel.
    unfold defaultdict_get at 1. rewrite Hreset.
    rewrite (proj2 (PyFloat_geb_true _ _) Hwindow).
    cbn [EventProcessor._throttle_counters
         EventProcessor.set__throttle_counters
         EventProcessor.set__throttle_last_reset
         EventProcessor._throttle_last_reset].
    unfold defaultdict_get. rewrite lookup_insert_eq.
    replace (max_events <=? 0)%Z with (negb (1 <=? max_events)%Z) by lia.
    unfold throttle_count.
    destruct (1 <=? max_events)%Z; cbn [negb]; eexists;
      (split; [reflexivity|]); cbn; by rewrite !lookup_insert_eq. }
  destruct (1 <=? max_events)%Z.
  - pose proof (publish_enqueue_frame inner event now utcnow)
      as (Hr & _ & _ & Hcounters & Hresets).
    cbv zeta in Hr, Hcounters, Hresets.
    unfold throttle_count in *. by rewrite Hcounters, Hresets.
  - done.
Qed.

Lemma publish_opens_new_window_witness :
  let first := (EventProcessor.publish (throttled 1) quote 0 0%Z).1 in
  let result := EventProcessor.publish first quote 1 0%Z in
  EventProcessor._throttle_last_reset result.1 !! MARKET_DATA = Some 1%Q
  ∧ result.2 ≠ EventProcessor.Dropped
  ∧ throttle_count result.1 MARKET_DATA = 1%Z.
Proof.
  apply (publish_opens_new_window
           (EventProcessor.publish (throttled 1) quote 0 0%Z).1 quote 1 0%Z
           1%Z 0%Q).
  - vm_compute. reflexivity.
  - vm_compute. reflexivity.
  - vm_compute. discriminate.
Defined.

(** ** Event processor: registering and removing handlers *)

(** The handlers called for an event type, in call order. *)
Definition registered (self : EventProcessor.t) (event_type : EventType)
    : list EventProcessor.handler :=
  default [] (EventProcessor.handlers self !! event_type).

Lemma list_remove_Some (h : EventProcessor.handler)
    (hs : list EventProcessor.handler) :
  h ∈ hs → ∃ hs', EventProcessor.list_remove h hs = Some hs' ∧ hs ≡ₚ h :: hs'.
Proof.
  induction hs as [|y hs IH]; intros Hin; [by apply elem_of_nil in Hin|].
  cbn. destruct (decide (y = h)) as [->|Hne]; [by eexists|].
  apply elem_of_cons in Hin as [->|Hin]; [done|].
  destruct (IH Hin) as (hs' & -> & Hperm). eexists. split; [done|].
  rewrite Hperm. apply Permutation_swap.
Qed.

Lemma list_remove_not_registered (h : EventProcessor.handler)
    (hs : list EventProcessor.handler) :
  h ∉ hs → EventProcessor.list_remove h (hs ++ [h]) = Some hs.
Proof.
  induction hs as [|y hs IH]; intros Hnot; cbn.
  - by rewrite decide_True.
  - apply not_elem_of_cons in Hnot as [Hne Hnot].
    rewrite decide_False by done. by rewrite IH.
Qed.

(** X23: removing a handler right after registering it leaves every event
    type with the same handlers as before, each as many times; when the
    handler was not registered for the type before, the call order is the
    old one too.  (When it was, it is its earliest registration that goes,
    so the order can change.) *)
Theorem remove_handler_after_add (self : EventProcessor.t)
    (event_type : EventType) (h : EventProcessor.handler) :
  let final :=
    EventProcessor.remove_handler
      (EventProcessor.add_handler self event_type h) event_type h in
  (∀ ty, registered final ty ≡ₚ registered self ty)
  ∧ (∀ ty, ty ≠ event_type → registered final ty = registered self ty)
  ∧ (h ∉ registered self event_type →
     registered final event_type = registered self event_type).
Proof.
  intros final. subst final.
  unfold EventProcessor.add_handler, EventProcessor.remove_handler.
  pose proof (defaultdict_get_value [] event_type
                (EventProcessor.handlers self)) as Hvalue.
  pose proof (λ ty, defaultdict_get_default [] event_type ty
                (EventProcessor.handlers self)) as Hrest.
  destruct (defaultdict_get [] event_type (EventProcessor.handlers self))
    as [hs d]. cbn [fst snd] in Hvalue, Hrest.
  fold (registered self event_type) in Hvalue. subst hs.
  cbn [EventProcessor.handlers EventProcessor.set_handlers].
  rewrite lookup_insert_eq.
  destruct (list_remove_Some h (registered self event_type ++ [h]))
    as (hs' & Hremove & Hperm); [set_solver|].
  rewrite Hremove.
  assert (∀ ty, ty ≠ event_type →
            registered
              (EventProcessor.set_handlers
                 (<[event_type := hs']>
                    (<[event_type := registered self event_type ++ [h]]> d))
                 (EventProcessor.set_handlers
                    (<[event_type := registered self event_type ++ [h]]> d)
                    self)) ty
            = registered self ty) as Hother.
  { intros ty Hne. unfold registered. cbn.
    rewrite !lookup_insert_ne by done. apply Hrest. }
  split; [|split].
  - intros ty. destruct (decide (ty = event_type)) as [->|Hne];
      [|by rewrite Hother].
    unfold registered at 1. cbn. rewrite lookup_insert_eq. cbn.
    apply (Permutation_cons_inv (a := h)). rewrite <- Hperm.
    symmetry. apply Permutation_cons_append.
  - exact Hother.
  - intros Hnot. rewrite (list_remove_not_registered _ _ Hnot) in Hremove.
    injection Hremove as <-. unfold registered at 1. cbn.
    by rewrite lookup_insert_eq.
Qed.

Lemma remove_handler_after_add_witness :
  let final :=
    EventProcessor.remove_handler
      (EventProcessor.add_handler one_handler MARKET_DATA 2%nat)
      MARKET_DATA 2%nat in
  registered final MARKET_DATA = registered one_handler MARKET_DATA.
Proof.
  apply (remove_handler_after_add one_handler MARKET_DATA 2%nat).
  vm_compute. intros Hin. apply list_elem_of_singleton in Hin. discriminate.
Defined.

(** ** Risk rules: drawdown *)

(** The portfolio value the drawdown rule looks at. *)
Definition portfolio_value (position_manager : PositionManager.t) : Q :=
  let pnl_summary := PositionManager.get_pnl_summary position_manager in
  (PositionManager.realized_pnl pnl_summary
   + PositionManager.unrealized_pnl pnl_summary)%Q.

Lemma drawdown_over_limit (peak current limit : Q) :
  (0 < peak)%Q →
  (limit < (peak - current) / Qabs peak * 100)%Q
  ↔ (limit * peak < (peak - current) * 100)%Q.
Proof.
  intros Hpeak.
  assert ((peak - current) / Qabs peak * 100 == (peak - current) * 100 / peak)%Q
    as ->.
  { rewrite (Qabs_pos peak) by lra. field. lra. }
  split; intros H.
  - apply (Qmult_lt_r _ _ peak Hpeak) in H.
    assert ((peak - current) * 100 / peak * peak == (peak - current) * 100)%Q
      as Hdiv by (field; lra).
    by rewrite Hdiv in H.
  - by apply Qlt_shift_div_l.
Qed.

(** X24: one drawdown check.  The peak becomes the larger of the old peak and
    the current value of the portfolio; the check fails exactly when that
    peak is positive and the fall from it, times 100, is above the limit
    times the peak, and a failure is what adds one to [violations].  So a
    portfolio whose value has never been above zero passes whatever it has
    lost. *)
Theorem drawdown_check_verdict (self : DrawdownLimitRule.t)
    (position_manager : PositionManager.t) (now : datetime) :
  let current := portfolio_value position_manager in
  let result := DrawdownLimitRule.check self position_manager now in
  ∃ peak,
    DrawdownLimitRule.peak_value result.1 = Some peak
    ∧ (peak == match DrawdownLimitRule.peak_value self with
               | None => current
               | Some old => Qmax old current
               end)%Q
    ∧ (result.2.1 = false
       ↔ (0 < peak)%Q
         ∧ (DrawdownLimitRule.max_drawdown_pct self * peak
            < (peak - current) * 100)%Q)
    ∧ DrawdownLimitRule.violations result.1
      = (DrawdownLimitRule.violations self
         + if result.2.1 then 0 else 1)%Z.
Proof.
  intros current result. subst result.
  unfold DrawdownLimitRule.check. fold (portfolio_value position_manager).
  fold current. cbv zeta.
  cbn [DrawdownLimitRule.peak_value DrawdownLimitRule.set_last_check_time
       DrawdownLimitRule.set_peak_value DrawdownLimitRule.max_drawdown_pct
       DrawdownLimitRule.violations].
  set (peak := match DrawdownLimitRule.peak_value self with
               | Some peak =>
                   if PyFloat.gtb current peak then current else peak
               | None => current
               end).
  exists peak.
  assert (peak == match DrawdownLimitRule.peak_value self with
                  | None => current
                  | Some old => Qmax old current
                  end)%Q as Hpeak.
  { subst peak. destruct (DrawdownLimitRule.peak_value self) as [old|];
      [|reflexivity].
    destruct (PyFloat.gtb current old) eqn:E.
    - apply PyFloat_gtb_true in E. symmetry. apply Q.max_r. lra.
    - apply PyFloat_gtb_false in E. symmetry. by apply Q.max_l. }
  destruct (PyFloat.leb peak 0) eqn:Hle.
  - apply PyFloat_leb_true in Hle. cbn.
    split; [done|]. split; [done|]. split; [|lia].
    split; [done|]. intros [Hpos _]. lra.
  - apply PyFloat_leb_false in Hle.
    pose proof (drawdown_over_limit peak current
                  (DrawdownLimitRule.max_drawdown_pct self) Hle) as Hover.
    destruct (PyFloat.gtb _ (DrawdownLimitRule.max_drawdown_pct self)) eqn:E.
    + apply PyFloat_gtb_true in E. cbn.
      split; [done|]. split; [done|]. split; [|lia].
      split; [|done]. intros _. split; [done|]. by apply Hover.
    + apply PyFloat_gtb_false in E. cbn.
      split; [done|]. split; [done|]. split; [|lia].
      split; [done|]. intros [_ Hlt]. apply Hover in Hlt. lra.
Qed.

(** The rule after a series of checks, each on the position manager as it
    was then and at its own time. *)
Definition check_all (self : DrawdownLimitRule.t)
    (observations : list (PositionManager.t * datetime))
    : DrawdownLimitRule.t :=
  foldl (λ rule observation,
           (DrawdownLimitRule.check rule observation.1 observation.2).1)
    self observations.

Lemma drawdown_check_peak (self : DrawdownLimitRule.t)
    (position_manager : PositionManager.t) (now : datetime) :
  let current := portfolio_value position_manager in
  ∃ peak,
    DrawdownLimitRule.peak_value
      (DrawdownLimitRule.check self position_manager now).1 = Some peak
    ∧ (current <= peak)%Q
    ∧ match DrawdownLimitRule.peak_value self with
      | None => peak = current
      | Some old => (old <= peak)%Q ∧ (peak = old ∨ peak = current)
      end.
Proof.
  intros current. unfold DrawdownLimitRule.check.
  fold (portfolio_value position_manager). fold current. cbv zeta.
  cbn [DrawdownLimitRule.peak_value DrawdownLimitRule.set_last_check_time
       DrawdownLimitRule.set_peak_value].
  eexists. split.
  { destruct (PyFloat.leb _ 0); [reflexivity|].
    destruct (PyFloat.gtb _ _); reflexivity. }
  destruct (DrawdownLimitRule.peak_value self) as [old|].
  - destruct (PyFloat.gtb current old) eqn:E.
    + apply PyFloat_gtb_true in E. split; [lra|]. split; [lra|by right].
    + apply PyFloat_gtb_false in E. split; [lra|]. split; [lra|by left].
  - split; [lra|done].
Qed.

Lemma check_all_peak (observations : list (PositionManager.t * datetime)) :
  ∀ (self : DrawdownLimitRule.t) (old : Q),
    DrawdownLimitRule.peak_value self = Some old →
    ∃ peak,
      DrawdownLimitRule.peak_value (check_all self observations) = Some peak
      ∧ (old <= peak)%Q
      ∧ (∀ observation, observation ∈ observations →
           (portfolio_value observation.1 <= peak)%Q)
      ∧ (peak = old
         ∨ ∃ observation, observation ∈ observations
             ∧ peak = portfolio_value observation.1).
Proof.
  induction observations as [|[position_manager now] observations IH];
    intros self old Hold.
  - exists old. split; [done|]. split; [lra|]. split; [|by left].
    intros observation Hin. by apply elem_of_nil in Hin.
  - cbn [check_all foldl fst snd].
    destruct (drawdown_check_peak self position_manager now)
      as (peak1 & Hpeak1 & Hcur & Hcase).
    rewrite Hold in Hcase. destruct Hcase as [Hle Hcase].
    destruct (IH _ peak1 Hpeak1) as (peak & Hpeak & Hle' & Hall & Hfrom).
    exists peak. split; [exact Hpeak|]. split; [lra|]. split.
    + intros observation Hin. apply elem_of_cons in Hin as [->|Hin].
      * cbn. lra.
      * by apply Hall.
    + destruct Hfrom as [-> | [observation [Hin ->]]].
      * destruct Hcase as [-> | ->]; [by left|].
        right. exists (position_manager, now). split; [|done].
        apply list_elem_of_here.
      * right. exists observation. split; [|done].
        by apply list_elem_of_further.
Qed.

(** X25: the peak the drawdown rule measures from is the all-time high.  After
    any series of checks, however far apart in time, of a rule that had no
    peak yet, the recorded peak is one of the portfolio values seen and none
    of them is above it; [window_days] plays no part. *)
Theorem drawdown_peak_all_time_high (self : DrawdownLimitRule.t)
    (observations : list (PositionManager.t * datetime)) :
  DrawdownLimitRule.peak_value self = None →
  observations ≠ [] →
  ∃ peak,
    DrawdownLimitRule.peak_value (check_all self observations) = Some peak
    ∧ (∀ observation, observation ∈ observations →
         (portfolio_value observation.1 <= peak)%Q)
    ∧ ∃ observation, observation ∈ observations
        ∧ peak = portfolio_value observation.1.
Proof.
  intros Hnone Hsome.
  destruct observations as [|[position_manager now] observations]; [done|].
  cbn [check_all foldl fst snd].
  destruct (drawdown_check_peak self position_manager now)
    as (peak1 & Hpeak1 & Hcur & Hcase).
  rewrite Hnone in Hcase. subst peak1.
  destruct (check_all_peak observations _ _ Hpeak1)
    as (peak & Hpeak & Hle & Hall & Hfrom).
  exists peak. split; [exact Hpeak|]. split.
  - intros observation Hin. apply elem_of_cons in Hin as [->|Hin].
    + cbn. lra.
    + by apply Hall.
  - destruct Hfrom as [-> | [observation [Hin ->]]].
    + exists (position_manager, now). split; [|done].
      apply list_elem_of_here.
    + exists observation. split; [|done]. by apply list_elem_of_further.
Qed.

(** A 10% drawdown rule, and a manager holding 4 of "X" with the given
    unrealized P&L. *)
Definition drawdown_10 : DrawdownLimitRule.t :=
  DrawdownLimitRule.mk "Drawdown limit of 10%" true 0 0%Z 10 1 None.

Definition holding_X (unrealized_pnl : Q) : PositionManager.t :=
  PositionManager.mk
    (<["X" := Position.mk "X" 4 100 None 0 unrealized_pnl 0 0%Z [] ∅ None]>
       ∅) 0 0.

(** Values 50, 80, 60 seen a day apart: the peak is 80. *)
Lemma drawdown_peak_all_time_high_witness :
  ∃ peak,
    DrawdownLimitRule.peak_value
      (check_all drawdown_10
         [(holding_X 50, 0%Z); (holding_X 80, 86400%Z);
          (holding_X 60, 172800%Z)]) = Some peak
    ∧ (∀ observation,
         observation ∈ [(holding_X 50, 0%Z); (holding_X 80, 86400%Z);
                        (holding_X 60, 172800%Z)] →
         (portfolio_value observation.1 <= peak)%Q)
    ∧ ∃ observation,
        observation ∈ [(holding_X 50, 0%Z); (holding_X 80, 86400%Z);
                       (holding_X 60, 172800%Z)]
        ∧ peak = portfolio_value observation.1.
Proof.
  apply (drawdown_peak_all_time_high drawdown_10
           [(holding_X 50, 0%Z); (holding_X 80, 86400%Z);
            (holding_X 60, 172800%Z)]).
  - reflexivity.
  - discriminate.
Defined.

(** ** Risk manager: what a round of checks changes *)

(** The position manager after a check: nothing that was there has changed,
    and an instrument that was missing is either still missing or has the
    flat position [get_position] creates. *)
Definition lazily_extends (now : datetime)
    (before after : PositionManager.t) : Prop :=
  PositionManager.position_updates_count after
  = PositionManager.position_updates_count before
  ∧ PositionManager.last_total_pnl after
    = PositionManager.last_total_pnl before
  ∧ ∀ instrument_id,
      PositionManager.positions after !! instrument_id
      = PositionManager.positions before !! instrument_id
      ∨ (PositionManager.positions before !! instrument_id = None
         ∧ PositionManager.positions after !! instrument_id
           = Some (Position.new instrument_id now)).

Lemma lazily_extends_refl (now : datetime) (pm : PositionManager.t) :
  lazily_extends now pm pm.
Proof. repeat split. intros. by left. Qed.

Lemma lazily_extends_trans (now : datetime)
    (pm1 pm2 pm3 : PositionManager.t) :
  lazily_extends now pm1 pm2 → lazily_extends now pm2 pm3 →
  lazily_extends now pm1 pm3.
Proof.
  intros (Hc1 & Hp1 & H1) (Hc2 & Hp2 & H2).
  split; [congruence|]. split; [congruence|]. intros instrument_id.
  destruct (H1 instrument_id) as [E1|[E1 E1']],
    (H2 instrument_id) as [E2|[E2 E2']].
  - left. congruence.
  - right. split; congruence.
  - right. split; congruence.
  - congruence.
Qed.

Lemma get_position_extends (pm : PositionManager.t) (instrument_id : string)
    (now : datetime) :
  lazily_extends now pm
    (PositionManager.get_position pm instrument_id now).2.
Proof.
  unfold PositionManager.get_position.
  destruct (PositionManager.positions pm !! instrument_id) eqn:E;
    [apply lazily_extends_refl|].
  repeat split. intros i. cbn.
  destruct (decide (i = instrument_id)) as [->|Hne].
  - right. by rewrite lookup_insert_eq.
  - left. by rewrite lookup_insert_ne.
Qed.

Lemma exposure_loop_extends (items : list (string * Q)) :
  ∀ (pm : PositionManager.t) (total : Q) (now : datetime),
    lazily_extends now pm
      (ExposureByStrategyRule.exposure_loop items pm total now).2.
Proof.
  induction items as [|[instrument_id quantity] items IH];
    intros pm total now; cbn; [apply lazily_extends_refl|].
  pose proof (get_position_extends pm instrument_id now) as Hget.
  destruct (PositionManager.get_position pm instrument_id now)
    as [position pm']. cbn in Hget.
  eapply lazily_extends_trans; [exact Hget|apply IH].
Qed.

(** What one rule's [check] can change: its own violation count, by one when
    it fails, and the position table, by flat positions. *)
Definition check_effect (now : datetime) (rule : RiskManager.RiskRule)
    (pm : PositionManager.t)
    (result : RiskManager.RiskRule * PositionManager.t
              * (bool * RiskManager.message)) : Prop :=
  RiskManager.name result.1.1 = RiskManager.name rule
  ∧ RiskManager.enabled result.1.1 = RiskManager.enabled rule
  ∧ RiskManager.violations result.1.1
    = (RiskManager.violations rule + if result.2.1 then 0 else 1)%Z
  ∧ lazily_extends now pm result.1.2.

Lemma position_limit_check_effect (rule : PositionLimitRule.t)
    (pm : PositionManager.t) (context : PositionLimitRule.context)
    (now : datetime) :
  check_effect now (RiskManager.PositionLimit rule) pm
    (RiskManager.check (RiskManager.PositionLimit rule) pm context now).
Proof.
  unfold check_effect, RiskManager.check, PositionLimitRule.check.
  cbv zeta.
  pose proof (get_position_extends pm
                (PositionLimitRule.instrument_id
                   (PositionLimitRule.set_last_check_time now rule)) now)
    as Hget.
  destruct (PositionManager.get_position pm _ now) as [position pm'].
  cbn [snd] in Hget.
  pose proof (lazily_extends_refl now pm) as Hrefl.
  destruct (PositionLimitRule.order context) as [order|].
  - destruct (bool_decide _); [cbn; repeat split; (lia || apply Hrefl)|].
    destruct (PyFloat.gtb _ _); cbn; repeat split; (lia || apply Hget).
  - destruct (PyFloat.gtb _ _); cbn; repeat split; (lia || apply Hget).
Qed.

Lemma drawdown_check_effect (rule : DrawdownLimitRule.t)
    (pm : PositionManager.t) (context : PositionLimitRule.context)
    (now : datetime) :
  check_effect now (RiskManager.DrawdownLimit rule) pm
    (RiskManager.check (RiskManager.DrawdownLimit rule) pm context now).
Proof.
  unfold check_effect, RiskManager.check, DrawdownLimitRule.check.
  cbv zeta. pose proof (lazily_extends_refl now pm) as Hrefl.
  destruct (PyFloat.leb _ 0); [cbn; repeat split; (lia || apply Hrefl)|].
  destruct (PyFloat.gtb _ _); cbn; repeat split; (lia || apply Hrefl).
Qed.

Lemma exposure_check_effect (rule : ExposureByStrategyRule.t)
    (pm : PositionManager.t) (context : PositionLimitRule.context)
    (now : datetime) :
  check_effect now (RiskManager.ExposureByStrategy rule) pm
    (RiskManager.check (RiskManager.ExposureByStrategy rule) pm context now).
Proof.
  unfold check_effect, RiskManager.check, ExposureByStrategyRule.check.
  cbv zeta.
  pose proof (exposure_loop_extends
                (map_to_list
                   (PositionManager.get_strategy_exposure pm
                      (ExposureByStrategyRule.strategy_id
                         (ExposureByStrategyRule.set_last_check_time now
                            rule)))) pm 0 now) as Hloop.
  destruct (ExposureByStrategyRule.exposure_loop _ pm 0 now)
    as [total pm']. cbn [snd] in Hloop.
  pose proof (lazily_extends_refl now pm) as Hrefl.
  destruct (PositionLimitRule.order context) as [order|].
  - destruct (bool_decide _); [cbn; repeat split; (lia || apply Hrefl)|].
    destruct (ExposureByStrategyRule.truthy (Order.price order)).
    + destruct (PyFloat.gtb _ _); cbn; repeat split; (lia || apply Hloop).
    + pose proof (get_position_extends pm' (Order.instrument_id order) now)
        as Hget.
      destruct (PositionManager.get_position pm' _ now) as [position pm''].
      cbn [snd] in Hget.
      pose proof (lazily_extends_trans _ _ _ _ Hloop Hget) as Hboth.
      destruct (PyFloat.gtb _ _); cbn; repeat split; (lia || apply Hboth).
  - destruct (PyFloat.gtb _ _); cbn; repeat split; (lia || apply Hloop).
Qed.

Lemma rule_check_effect (rule : RiskManager.RiskRule)
    (pm : PositionManager.t) (context : PositionLimitRule.context)
    (now : datetime) :
  check_effect now rule pm (RiskManager.check rule pm context now).
Proof.
  destruct rule;
    [apply position_limit_check_effect | apply drawdown_check_effect
     | apply exposure_check_effect].
Qed.

(** The violations recorded by all the rules of a dictionary. *)
Definition total_violations (rules : list (string * RiskManager.RiskRule))
    : Z :=
  foldr (λ item total, (RiskManager.violations item.2 + total)%Z) 0%Z rules.

Lemma check_rules_loop_effect (items : list (string * RiskManager.RiskRule))
    (context : PositionLimitRule.context) (now : datetime) :
  ∀ pm : PositionManager.t,
    let result := RiskManager.check_rules_loop items pm context now in
    (result.2.1 = true ↔ result.2.2 = [])
    ∧ result.1.1.*1 = items.*1
    ∧ Forall2 (λ old new,
                 RiskManager.enabled new.2 = RiskManager.enabled old.2
                 ∧ RiskManager.name new.2 = RiskManager.name old.2
                 ∧ (RiskManager.enabled old.2 = false → new = old))
        items result.1.1
    ∧ total_violations result.1.1
      = (total_violations items + Z.of_nat (length result.2.2))%Z
    ∧ result.2.2.*1 ⊆ (filter (λ item, RiskManager.enabled item.2 = true)
                          items).*1
    ∧ lazily_extends now pm result.1.2.
Proof.
  induction items as [|[rule_name rule] items IH]; intros pm.
  - cbn. repeat split; try done. apply lazily_extends_refl.
  - cbn [RiskManager.check_rules_loop].
    destruct (RiskManager.enabled rule) eqn:Henabled; cbn [negb].
    + pose proof (rule_check_effect rule pm context now)
        as (Hname & Hen & Hviol & Hext).
      destruct (RiskManager.check rule pm context now)
        as [[rule' pm'] [passed m]]. cbn [fst snd] in Hname, Hen, Hviol, Hext.
      specialize (IH pm'). cbv zeta in IH.
      destruct (RiskManager.check_rules_loop items pm' context now)
        as [[items' pm''] [all_passed messages]].
      cbn [fst snd] in IH.
      destruct IH as (Hiff & Hnames & Hall & Htotal & Hsub & Hext').
      rewrite filter_cons_True by done.
      destruct passed; cbn [fst snd fmap list_fmap total_violations foldr].
      * split; [exact Hiff|]. split; [by f_equal|]. split.
        { constructor; [|exact Hall]. cbn. rewrite Hen, Hname, Henabled.
          done. }
        split; [fold (total_violations items');
                fold (total_violations items); lia|].
        split; [set_solver|].
        eapply lazily_extends_trans; eassumption.
      * split; [done|]. split; [by f_equal|]. split.
        { constructor; [|exact Hall]. cbn. rewrite Hen, Hname, Henabled.
          done. }
        split; [fold (total_violations items');
                fold (total_violations items); cbn [length]; lia|].
        split; [set_solver|].
        eapply lazily_extends_trans; eassumption.
    + specialize (IH pm). cbv zeta in IH.
      destruct (RiskManager.check_rules_loop items pm context now)
        as [[items' pm'] [all_passed messages]].
      cbn [fst snd] in IH.
      destruct IH as (Hiff & Hnames & Hall & Htotal & Hsub & Hext').
      rewrite filter_cons_False by (cbn; congruence).
      cbn [fst snd fmap list_fmap total_violations foldr].
      split; [exact Hiff|]. split; [by f_equal|]. split.
      { constructor; [|exact Hall]. done. }
      split; [fold (total_violations items');
              fold (total_violations items); lia|].
      split; [exact Hsub|exact Hext'].
Qed.

Lemma check_rules_passed (self : RiskManager.t)
    (position_manager : PositionManager.t)
    (context : PositionLimitRule.context) (now : datetime) :
  let result := RiskManager.check_rules self position_manager context now in
  result.2.1 = true ↔ result.2.2 = [].
Proof.
  unfold RiskManager.check_rules.
  pose proof (check_rules_loop_effect (RiskManager.rules self) context now
                position_manager) as Heffect. cbv zeta in Heffect.
  destruct (RiskManager.check_rules_loop _ _ _ _)
    as [[items pm] [all_passed messages]]. cbn [fst snd] in *.
  by destruct Heffect as (Hiff & _).
Qed.

(** X26: a round of [check_rules].  It reports success exactly when it has no
    message; the rules keep their names and their order; the violation
    counts of the rules grow, in total, by the number of messages; a
    disabled rule is left as it was. *)
Theorem check_rules_accounting (self : RiskManager.t)
    (position_manager : PositionManager.t)
    (context : PositionLimitRule.context) (now : datetime) :
  let result := RiskManager.check_rules self position_manager context now in
  let after := RiskManager.rules result.1.1 in
  let messages := result.2.2 in
  (result.2.1 = true ↔ messages = [])
  ∧ after.*1 = (RiskManager.rules self).*1
  ∧ total_violations after
    = (total_violations (RiskManager.rules self)
       + Z.of_nat (length messages))%Z
  ∧ (∀ i rule_name rule,
       RiskManager.rules self !! i = Some (rule_name, rule) →
       RiskManager.enabled rule = false →
       after !! i = Some (rule_name, rule)).
Proof.
  intros result after messages. subst result after messages.
  unfold RiskManager.check_rules.
  pose proof (check_rules_loop_effect (RiskManager.rules self) context now
                position_manager) as Heffect. cbv zeta in Heffect.
  destruct (RiskManager.check_rules_loop _ _ _ _)
    as [[items pm] [all_passed messages]]. cbn [fst snd] in *.
  destruct Heffect as (Hiff & Hnames & Hall & Htotal & _ & _).
  cbn [RiskManager.rules].
  split; [exact Hiff|]. split; [exact Hnames|]. split; [exact Htotal|].
  intros i rule_name rule Hi Hdisabled.
  destruct (Forall2_lookup_l _ _ _ _ _ Hall Hi)
    as (new & Hnew & _ & _ & Hsame).
  cbn in Hsame. by rewrite (Hsame Hdisabled) in Hnew.
Qed.

(** X27: a round of [check_rules] changes no position: what the position
    manager held before it holds unchanged after, and an instrument it did
    not hold is either still absent or has the flat position that
    [get_position] creates on a miss. *)
Theorem check_rules_keeps_positions (self : RiskManager.t)
    (position_manager : PositionManager.t)
    (context : PositionLimitRule.context) (now : datetime)
    (instrument_id : string) :
  let after :=
    (RiskManager.check_rules self position_manager context now).1.2 in
  match PositionManager.positions position_manager !! instrument_id with
  | Some position =>
      PositionManager.positions after !! instrument_id = Some position
  | None =>
      PositionManager.positions after !! instrument_id = None
      ∨ PositionManager.positions after !! instrument_id
        = Some (Position.new instrument_id now)
  end.
Proof.
  intros after. subst after. unfold RiskManager.check_rules.
  pose proof (check_rules_loop_effect (RiskManager.rules self) context now
                position_manager) as Heffect. cbv zeta in Heffect.
  destruct (RiskManager.check_rules_loop _ _ _ _)
    as [[items pm] [all_passed messages]]. cbn [fst snd] in *.
  destruct Heffect as (_ & _ & _ & _ & _ & _ & _ & Hext).
  destruct (Hext instrument_id) as [E|[E E']].
  - destruct (PositionManager.positions position_manager !! instrument_id);
      [exact E|by left].
  - rewrite E. by right.
Qed.

Lemma check_rules_accounting_witness :
  let result :=
    RiskManager.check_rules two_rules long_4_on_X
      (PositionLimitRule.mk_context (Some (market_order "X" BUY 2)) "order")
      1%Z in
  length result.2.2 = 1%nat
  ∧ RiskManager.rules result.1.1 !! 1%nat
    = Some ("Drawdown limit of 10%",
            RiskManager.DrawdownLimit
              (DrawdownLimitRule.mk "Drawdown limit of 10%" false 0 0%Z 10 1
                 None)).
Proof.
  split; [vm_compute; reflexivity|].
  apply (check_rules_accounting two_rules long_4_on_X
           (PositionLimitRule.mk_context (Some (market_order "X" BUY 2))
              "order") 1%Z).
  - reflexivity.
  - reflexivity.
Defined.

(** ** Risk manager: rejecting an order *)

(** [Event(event_type=ORDER_UPDATE, data=order, source="risk_manager")]. *)
Definition rejection_event (order : Order.t) (now : datetime) : Event.t :=
  Event.mk ORDER_UPDATE now (DataOrder order) "risk_manager" None None 1.

(** X28: a PENDING_NEW order that fails the rules is marked REJECTED and
    published twice, as an ORDER_UPDATE and as a RISK_CHECK with the
    messages, of which there is at least one.  The update it publishes is
    ignored when it comes back to this handler, so there is no second check,
    and the order manager that handles it files the order as REJECTED and
    takes it out of the active orders. *)
Theorem order_update_rejection (self : RiskManager.t)
    (position_manager : PositionManager.t) (order : Order.t)
    (now : datetime) :
  let context := PositionLimitRule.mk_context (Some order) "order" in
  let checked := RiskManager.check_rules self position_manager context now in
  let result :=
    RiskManager._handle_order_update self position_manager order now in
  let rejected := result.1.2 in
  Order.status order = PENDING_NEW →
  checked.2.1 = false →
  Order.status rejected = REJECTED
  ∧ Order.order_id rejected = Order.order_id order
  ∧ checked.2.2 ≠ []
  ∧ result.2
    = [RiskManager.PublishedOrderUpdate rejected;
       RiskManager.PublishedRiskCheck (Some (Order.order_id order))
         checked.2.2 None]
  ∧ (∀ self' position_manager' now',
       RiskManager._handle_order_update self' position_manager' rejected now'
       = (self', position_manager', rejected, []))
  ∧ (∀ order_manager : OrderManager.t,
       let handled :=
         (OrderManager._handle_order_update order_manager
            (rejection_event rejected now)).1 in
       OrderManager.orders handled !! Order.order_id order = Some rejected
       ∧ Order.order_id order ∉ OrderManager.active_orders handled).
Proof.
  intros context checked result rejected Hstatus Hfailed.
  pose proof (check_rules_passed self position_manager context now) as Hiff.
  subst rejected result. unfold RiskManager._handle_order_update.
  rewrite bool_decide_eq_false_2 by (rewrite Hstatus; by intros []).
  fold context. fold checked. cbv zeta in Hiff. fold checked in Hiff.
  destruct checked as [[self' pm'] [passed messages]].
  cbn [fst snd] in *. subst passed. cbn [negb fst snd].
  split; [reflexivity|]. split; [reflexivity|].
  split; [intros Hnil; by apply Hiff in Hnil|]. split; [reflexivity|].
  split.
  - intros self'' pm'' now'. unfold RiskManager._handle_order_update.
    by rewrite bool_decide_eq_true_2.
  - intros order_manager. cbn. split.
    + apply lookup_insert_eq.
    + set_solver.
Qed.

(** BUY 2 of "X" on top of the 4 held breaks the limit of 5. *)
Lemma order_update_rejection_witness :
  let result :=
    RiskManager._handle_order_update two_rules long_4_on_X
      (market_order "X" BUY 2) 1%Z in
  Order.status result.1.2 = REJECTED
  ∧ length result.2 = 2%nat
  ∧ "M" ∉ OrderManager.active_orders
            (OrderManager._handle_order_update
               (OrderManager.submit_order OrderManager.new
                  (market_order "X" BUY 2) None 0%Z).1.1
               (rejection_event result.1.2 1%Z)).1.
Proof.
  pose proof (order_update_rejection two_rules long_4_on_X
                (market_order "X" BUY 2) 1%Z eq_refl eq_refl)
    as (Hstatus & _ & _ & Hpublished & _ & Hmanager).
  split; [exact Hstatus|]. split; [by rewrite Hpublished|].
  exact (proj2 (Hmanager
                  (OrderManager.submit_order OrderManager.new
                     (market_order "X" BUY 2) None 0%Z).1.1)).
Defined.

(** ** Risk manager: the dictionary of rules *)

Lemma dict_get_set (key : string) (value : RiskManager.RiskRule)
    (d : list (string * RiskManager.RiskRule)) (other : string) :
  RiskManager.dict_get other (RiskManager.dict_set key value d)
  = if decide (other = key) then Some value else RiskManager.dict_get other d.
Proof.
  induction d as [|[k v] d IH]; cbn.
  - destruct (decide (key = other)), (decide (other = key)); congruence.
  - destruct (decide (k = key)) as [->|Hne]; cbn.
    + destruct (decide (key = other)), (decide (other = key)); congruence.
    + destruct (decide (k = other)) as [->|Hne'].
      * by rewrite decide_False.
      * exact IH.
Qed.

Lemma dict_set_set (key : string) (first second : RiskManager.RiskRule)
    (d : list (string * RiskManager.RiskRule)) :
  RiskManager.dict_set key second (RiskManager.dict_set key first d)
  = RiskManager.dict_set key second d.
Proof.
  induction d as [|[k v] d IH]; cbn.
  - by rewrite decide_True.
  - destruct (decide (k = key)) as [->|Hne]; cbn.
    + by rewrite decide_True.
    + rewrite decide_False by done. by rewrite IH.
Qed.

Lemma dict_del_set (key : string) (value : RiskManager.RiskRule)
    (d : list (string * RiskManager.RiskRule)) :
  RiskManager.dict_get key d = None →
  RiskManager.dict_del key (RiskManager.dict_set key value d) = d.
Proof.
  induction d as [|[k v] d IH]; cbn; intros Hnone.
  - by rewrite decide_True.
  - destruct (decide (k = key)) as [->|Hne]; [done|].
    cbn. rewrite decide_False by done. by rewrite IH.
Qed.

(** X29: rules are kept by name.  After [add_rule] the rule is the one found
    under its name and the other names keep their rules; a rule added under
    the name of an earlier one takes its place, so of two rules built with
    the same name only the later is checked; and removing a rule whose name
    was new right after adding it gives the manager back as it was. *)
Theorem add_rule_by_name (self : RiskManager.t)
    (first second : RiskManager.RiskRule) :
  RiskManager.name first = RiskManager.name second →
  let after := RiskManager.add_rule self second in
  RiskManager.dict_get (RiskManager.name second) (RiskManager.rules after)
  = Some second
  ∧ (∀ other, other ≠ RiskManager.name second →
       RiskManager.dict_get other (RiskManager.rules after)
       = RiskManager.dict_get other (RiskManager.rules self))
  ∧ RiskManager.add_rule (RiskManager.add_rule self first) second = after
  ∧ (RiskManager.dict_get (RiskManager.name second) (RiskManager.rules self)
     = None →
     RiskManager.remove_rule after (RiskManager.name second) = (self, true)).
Proof.
  intros Hname after. subst after. unfold RiskManager.add_rule.
  cbn [RiskManager.rules RiskManager.check_interval_seconds].
  split; [|split; [|split]].
  - rewrite dict_get_set. by rewrite decide_True.
  - intros other Hne. rewrite dict_get_set. by rewrite decide_False.
  - by rewrite Hname, dict_set_set.
  - intros Hnew. unfold RiskManager.remove_rule.
    cbn [RiskManager.rules RiskManager.check_interval_seconds].
    rewrite dict_get_set, decide_True by done.
    rewrite dict_del_set by done. by destruct self.
Qed.

(** Two position limits for "X", 5 then 8, under the default name. *)
Lemma add_rule_by_name_witness :
  RiskManager.add_rule
    (RiskManager.add_rule RiskManager.new
       (RiskManager.PositionLimit limit_5_on_X))
    (RiskManager.PositionLimit
       (PositionLimitRule.mk "Position limit for X" true 0 0%Z "X" 8))
  = RiskManager.add_rule RiskManager.new
      (RiskManager.PositionLimit
         (PositionLimitRule.mk "Position limit for X" true 0 0%Z "X" 8)).
Proof.
  apply (add_rule_by_name RiskManager.new
           (RiskManager.PositionLimit limit_5_on_X)
           (RiskManager.PositionLimit
              (PositionLimitRule.mk "Position limit for X" true 0 0%Z "X"
                 8))).
  reflexivity.
Defined.

(** ** Risk rules: exposure by strategy *)

Lemma PyFloat_gtb_proper (x y limit : Q) :
  (x == y)%Q → PyFloat.gtb x limit = PyFloat.gtb y limit.
Proof.
  intros Heq. destruct (PyFloat.gtb y limit) eqn:E.
  - apply PyFloat_gtb_true in E. apply PyFloat_gtb_true. by rewrite Heq.
  - apply PyFloat_gtb_false in E. apply PyFloat_gtb_false. by rewrite Heq.
Qed.

(** The mark of an instrument in the position manager, if it has one. *)
Definition mark (position_manager : PositionManager.t)
    (instrument_id : string) : option Q :=
  match PositionManager.positions position_manager !! instrument_id with
  | Some position => Position.current_price position
  | None => None
  end.

Lemma lazily_extends_mark (now : datetime) (before after : PositionManager.t)
    (instrument_id : string) :
  lazily_extends now before after →
  mark after instrument_id = mark before instrument_id.
Proof.
  intros (_ & _ & Hext). unfold mark.
  destruct (Hext instrument_id) as [->|[-> ->]]; reflexivity.
Qed.

Lemma get_position_mark (position_manager : PositionManager.t)
    (instrument_id : string) (now : datetime) :
  Position.current_price
    (PositionManager.get_position position_manager instrument_id now).1
  = mark position_manager instrument_id.
Proof.
  unfold PositionManager.get_position, mark.
  by destruct (PositionManager.positions position_manager !! instrument_id).
Qed.

(** X30: an order of the rule's strategy that carries no price, for an
    instrument the position manager has no mark for, adds nothing to the
    exposure the rule computes: whatever its quantity, the rule gives it the
    verdict of the periodic check of the strategy's current exposure. *)
Theorem exposure_unpriced_order (self : ExposureByStrategyRule.t)
    (position_manager : PositionManager.t) (order : Order.t)
    (now : datetime) :
  Order.strategy_id order = Some (ExposureByStrategyRule.strategy_id self) →
  ExposureByStrategyRule.truthy (Order.price order) = false →
  ExposureByStrategyRule.truthy
    (mark position_manager (Order.instrument_id order)) = false →
  (ExposureByStrategyRule.check self position_manager
     (PositionLimitRule.mk_context (Some order) "order") now).2.1
  = (ExposureByStrategyRule.check self position_manager
       (PositionLimitRule.mk_context None "periodic") now).2.1.
Proof.
  intros Hstrategy Hprice Hmark.
  unfold ExposureByStrategyRule.check. cbv zeta.
  cbn [PositionLimitRule.order ExposureByStrategyRule.strategy_id
       ExposureByStrategyRule.set_last_check_time
       ExposureByStrategyRule.max_exposure].
  rewrite bool_decide_eq_false_2 by (rewrite Hstrategy; by intros []).
  pose proof (exposure_loop_extends
                (map_to_list
                   (PositionManager.get_strategy_exposure position_manager
                      (ExposureByStrategyRule.strategy_id self)))
                position_manager 0 now) as Hloop.
  destruct (ExposureByStrategyRule.exposure_loop _ position_manager 0 now)
    as [total pm']. cbn [snd] in Hloop.
  rewrite Hprice.
  pose proof (get_position_mark pm' (Order.instrument_id order) now) as Hget.
  rewrite (lazily_extends_mark _ _ _ _ Hloop) in Hget.
  destruct (PositionManager.get_position pm' _ now) as [position pm''].
  cbn [fst] in Hget. rewrite Hget, Hmark.
  rewrite (PyFloat_gtb_proper (total + Order.quantity order * 0) total)
    by ring.
  by destruct (PyFloat.gtb total _).
Qed.

(** A limit of 1000 on the exposure of strategy "S", and a market order of
    a million "Y" for "S". *)
Definition exposure_1000_on_S : ExposureByStrategyRule.t :=
  ExposureByStrategyRule.mk "Exposure limit for strategy S" true 0 0%Z "S"
    1000.

Definition market_order_for_S : Order.t :=
  Order.mk "M" "Y" MARKET BUY 1000000 None None GTC "" 0%Z 0%Z PENDING_NEW 0
    None None None (Some "S") ∅ ∅ None.

Lemma exposure_unpriced_order_witness :
  (ExposureByStrategyRule.check exposure_1000_on_S long_4_on_X
     (PositionLimitRule.mk_context (Some market_order_for_S) "order")
     1%Z).2.1
  = (ExposureByStrategyRule.check exposure_1000_on_S long_4_on_X
       (PositionLimitRule.mk_context None "periodic") 1%Z).2.1.
Proof.
  apply (exposure_unpriced_order exposure_1000_on_S long_4_on_X
           market_order_for_S 1%Z); reflexivity.
Defined.
